(** * Market-data retrieval layer: schema, transport, factory, adapters

    A shallow embedding of the exchange-agnostic retrieval core
    ([market_data] and the shared HTTP client of [binance_client/base.py])
    together with the properties its specification states about it.

    Part I holds the definitions, in the order of the source tree; Part II
    holds the lemmas and theorems. *)

From Stdlib Require Import ZArith QArith List String Ascii Bool Lia Lqa.
From Stdlib Require Import DecimalString Sorted Permutation.
Import ListNotations.

Local Open Scope string_scope.
Local Open Scope Z_scope.

Set Implicit Arguments.

(* ================================================================== *)
(** * Part I. Definitions                                              *)
(* ================================================================== *)

(** ** Python values, exceptions and the error monad *)

(** The exceptions the modelled code raises or lets through.
    [StopIteration] is what a [unittest.mock] object raises once its
    [side_effect] sequence is used up.  [Unmodelled] marks inputs the
    embedding does not follow (float-valued times where the model computes
    with integers, ragged tabular input): the Python code goes on there,
    the model stops. *)
Inductive pyerr : Type :=
| ValueError (msg : string)
| TypeError (msg : string)
| KeyError (msg : string)
| IndexError (msg : string)
| RuntimeError (msg : string)
| NotImplementedError (msg : string)
| OverflowError (msg : string)
| ZeroDivisionError (msg : string)
| AttributeError (msg : string)
| StopIteration
| Unmodelled (what : string).

Inductive result (A : Type) : Type :=
| Ok (a : A)
| Raise (e : pyerr).

Arguments Ok {A} a.
Arguments Raise {A} e.

Definition bind {A B : Type} (m : result A) (k : A -> result B) : result B :=
  match m with
  | Ok a => k a
  | Raise e => Raise e
  end.

Notation "x <- m ;; k" := (bind m (fun x => k))
  (at level 61, m at next level, right associativity).

Fixpoint mapM {A B : Type} (f : A -> result B) (l : list A) : result (list B) :=
  match l with
  | [] => Ok []
  | a :: l' => b <- f a ;; bs <- mapM f l' ;; Ok (b :: bs)
  end.

Definition of_option {A : Type} (o : option A) (e : pyerr) : result A :=
  match o with
  | Some a => Ok a
  | None => Raise e
  end.

(** The outcome is not a [ZeroDivisionError]. *)
Definition no_zero_division {A : Type} (r : result A) : Prop :=
  forall msg, r <> Raise (ZeroDivisionError msg).

(** Python floats.  A finite float is represented by the rational it
    denotes.  The arithmetic on times ([timestamp], [float_mul] and the
    float cursors of the loops) rounds to binary64 with [binary64] below;
    the quotients and sums of the ratio columns and the parsed literals
    are kept exact, and no statement depends on their value.  The sign of
    a zero is not tracked. *)
Inductive pyfloat : Type :=
| Fin (q : Q)
| PosInf
| NegInf
| NaN.

Definition nan : pyfloat := NaN.

(** [x == 0] on a float: true for both zeros, false for NaN. *)
Definition float_is_zero (f : pyfloat) : bool :=
  match f with
  | Fin q => Qnum q =? 0
  | _ => false
  end.

Definition float_neg (f : pyfloat) : pyfloat :=
  match f with
  | Fin q => Fin (Qred (- q))
  | PosInf => NegInf
  | NegInf => PosInf
  | NaN => NaN
  end.

Definition float_sign_neg (f : pyfloat) : bool :=
  match f with
  | Fin q => Qnum q <? 0
  | NegInf => true
  | _ => false
  end.

(** [n / d] for [d > 0], rounded to the nearest integer, ties to even. *)
Definition round_half_even (n d : Z) : Z :=
  let q := n / d in
  let r := n mod d in
  if 2 * r <? d then q
  else if d <? 2 * r then q + 1
  else if Z.even q then q else q + 1.

(** The binary64 number nearest to [x], ties to even: IEEE-754 rounding
    of an exact result.  The magnitude is taken in units of [2 ** -1074],
    the spacing of the subnormal numbers: [s] is the exponent of the last
    place above that unit, [m] the significand of at most 53 bits; a
    magnitude that rounds to [2 ** 1024] or more overflows to an
    infinity.  The sign of a zero is not tracked. *)
Definition binary64 (x : Q) : pyfloat :=
  let a := Z.abs (Qnum x) * 2 ^ 1074 in
  let d := Zpos (Qden x) in
  let s := Z.max (Z.log2 (a / d) - 52) 0 in
  let m := round_half_even a (d * 2 ^ s) in
  if 2 ^ 2098 <=? m * 2 ^ s
  then if Qnum x <? 0 then NegInf else PosInf
  else Fin (Qred (Qmake (Z.sgn (Qnum x) * m * 2 ^ s) (Z.to_pos (2 ^ 1074)))).

Arguments binary64 : simpl never.

(** [a / b] on floats: [ZeroDivisionError] exactly when the divisor is
    zero; otherwise IEEE-754 for the special values. *)
Definition float_div (a b : pyfloat) : result pyfloat :=
  if float_is_zero b then Raise (ZeroDivisionError "float division by zero")
  else
    match a, b with
    | NaN, _ | _, NaN => Ok NaN
    | Fin x, Fin y => Ok (Fin (Qred (x / y)))
    | Fin _, _ => Ok (Fin 0)
    | _, Fin _ =>
        Ok (if Bool.eqb (float_sign_neg a) (float_sign_neg b)
            then PosInf else NegInf)
    | _, _ => Ok NaN
    end.

(** Division of pandas float columns: never raises; a zero divisor gives
    an infinity or NaN (the sign of a zero is not tracked). *)
Definition np_div (a b : pyfloat) : pyfloat :=
  if float_is_zero b then
    match a with
    | NaN => NaN
    | Fin x => if Qnum x =? 0 then NaN
               else if Qnum x <? 0 then NegInf else PosInf
    | inf => inf
    end
  else
    match float_div a b with
    | Ok f => f
    | Raise _ => NaN
    end.

Definition float_add (a b : pyfloat) : pyfloat :=
  match a, b with
  | NaN, _ | _, NaN => NaN
  | Fin x, Fin y => Fin (Qred (x + y))
  | PosInf, NegInf | NegInf, PosInf => NaN
  | PosInf, _ | _, PosInf => PosInf
  | NegInf, _ | _, NegInf => NegInf
  end.

(** [int(f)]: truncation toward zero; NaN and the infinities raise. *)
Definition int_of_float (f : pyfloat) : result Z :=
  match f with
  | Fin q => Ok (Z.quot (Qnum q) (Zpos (Qden q)))
  | NaN => Raise (ValueError "cannot convert float NaN to integer")
  | _ => Raise (OverflowError "cannot convert float infinity to integer")
  end.

(** JSON scalars as they occur in exchange rows. *)
Inductive scalar : Type :=
| SInt (z : Z)
| SFloat (f : pyfloat)
| SStr (s : string)
| SNull.

(** A row of a page: a JSON array or a JSON object of scalars. *)
Inductive jrow : Type :=
| JArr (items : list scalar)
| JObj (fields : list (string * scalar)).

Definition page : Type := list jrow.

(** Naive or aware [datetime]; [tzinfo] holds the UTC offset in
    microseconds. *)
Record datetime : Type := mkDatetime {
  year : Z; month : Z; day : Z;
  hour : Z; minute : Z; second : Z; microsecond : Z;
  tzinfo : option Z
}.

(** Library functions of the Python runtime that parse text.  The adapters
    are defined for any behaviour of these; [ref_runtime] below is one
    instance that evaluates. *)
Class PyRuntime : Type := {
  float_of_str : string -> option pyfloat;   (* float(s) *)
  int_of_str : string -> option Z;           (* int(s) *)
  repr : string -> string;                   (* repr(s), the !r conversion *)
  strptime : string -> string -> option datetime;
                                              (* datetime.strptime(s, fmt) *)
  to_datetime_str : string -> option Z       (* pd.to_datetime(s, utc=True),
                                                nanoseconds since the epoch *)
}.

(** ** ASCII helpers: [str.lower], [str.upper], [sorted], [", ".join] *)

Definition is_upper (c : ascii) : bool :=
  let n := nat_of_ascii c in (65 <=? n)%nat && (n <=? 90)%nat.

Definition is_lower (c : ascii) : bool :=
  let n := nat_of_ascii c in (97 <=? n)%nat && (n <=? 122)%nat.

Definition lower_ascii (c : ascii) : ascii :=
  if is_upper c then ascii_of_nat (nat_of_ascii c + 32) else c.

Definition upper_ascii (c : ascii) : ascii :=
  if is_lower c then ascii_of_nat (nat_of_ascii c - 32) else c.

Fixpoint str_map (f : ascii -> ascii) (s : string) : string :=
  match s with
  | EmptyString => EmptyString
  | String c s' => String (f c) (str_map f s')
  end.

Definition lower (s : string) : string := str_map lower_ascii s.
Definition upper (s : string) : string := str_map upper_ascii s.

Fixpoint join (sep : string) (l : list string) : string :=
  match l with
  | [] => ""
  | [s] => s
  | s :: l' => s ++ sep ++ join sep l'
  end.

Fixpoint insert_str (s : string) (l : list string) : list string :=
  match l with
  | [] => [s]
  | t :: l' => if String.leb s t then s :: l else t :: insert_str s l'
  end.

Definition sorted_strs (l : list string) : list string :=
  fold_right insert_str [] l.

Definition dec (z : Z) : string := NilZero.string_of_int (Z.to_int z).

(** [needle in haystack] on strings. *)
Fixpoint contains (needle haystack : string) : bool :=
  if String.prefix needle haystack then true
  else match haystack with
       | EmptyString => false
       | String _ h' => contains needle h'
       end.

(** ** domain/models.py: the canonical schema *)

Module Schema.

Inductive DataType : Type :=
| OHLCV
| INDEX_PRICE
| MARK_PRICE
| FUNDING_RATE
| OPEN_INTEREST
| LONG_SHORT_RATIO
| TOP_LS_ACCOUNTS
| TOP_LS_POSITIONS
| TAKER_BUY_SELL.

Definition all_types : list DataType :=
  [OHLCV; INDEX_PRICE; MARK_PRICE; FUNDING_RATE; OPEN_INTEREST;
   LONG_SHORT_RATIO; TOP_LS_ACCOUNTS; TOP_LS_POSITIONS; TAKER_BUY_SELL].

Definition value (dt : DataType) : string :=
  match dt with
  | OHLCV => "ohlcv"
  | INDEX_PRICE => "index_price"
  | MARK_PRICE => "mark_price"
  | FUNDING_RATE => "funding_rate"
  | OPEN_INTEREST => "open_interest"
  | LONG_SHORT_RATIO => "long_short_ratio"
  | TOP_LS_ACCOUNTS => "top_ls_accounts"
  | TOP_LS_POSITIONS => "top_ls_positions"
  | TAKER_BUY_SELL => "taker_buy_sell"
  end.

Definition name (dt : DataType) : string := upper (value dt).

(** [_SCHEMAS] *)
Definition columns (dt : DataType) : list string :=
  match dt with
  | OHLCV =>
      ["timestamp"; "open"; "high"; "low"; "close"; "volume";
       "close_time"; "quote_volume"; "trades";
       "taker_buy_volume"; "taker_buy_quote_volume"]
  | INDEX_PRICE => ["timestamp"; "open"; "high"; "low"; "close"]
  | MARK_PRICE => ["timestamp"; "open"; "high"; "low"; "close"]
  | FUNDING_RATE => ["timestamp"; "symbol"; "funding_rate"; "mark_price"]
  | OPEN_INTEREST =>
      ["timestamp"; "symbol"; "open_interest"; "open_interest_value"]
  | LONG_SHORT_RATIO | TOP_LS_ACCOUNTS | TOP_LS_POSITIONS =>
      ["timestamp"; "symbol"; "long_short_ratio"; "long_account";
       "short_account"]
  | TAKER_BUY_SELL => ["timestamp"; "buy_sell_ratio"; "buy_vol"; "sell_vol"]
  end.

Definition DataType_eqb (a b : DataType) : bool :=
  String.eqb (value a) (value b).

(** [_INTERVAL_TYPES], [_PERIOD_TYPES] *)
Definition uses_interval (dt : DataType) : bool :=
  existsb (DataType_eqb dt) [OHLCV; INDEX_PRICE; MARK_PRICE].

Definition uses_period (dt : DataType) : bool :=
  existsb (DataType_eqb dt)
    [OPEN_INTEREST; LONG_SHORT_RATIO; TOP_LS_ACCOUNTS; TOP_LS_POSITIONS;
     TAKER_BUY_SELL].

End Schema.

(** ** market_data/__init__.py: the source factory *)

Module Factory.

(** The adapter classes of [market_data.infra]. *)
Inductive Adapter : Type :=
| BinanceFuturesSource
| BybitFuturesSource
| OkxFuturesSource
| KrakenFuturesSource
| CoinbaseSource
| PhemexFuturesSource
| UpbitSource.

(** The [exchange] property of each class. *)
Definition exchange (a : Adapter) : string :=
  match a with
  | BinanceFuturesSource => "binance"
  | BybitFuturesSource => "bybit"
  | OkxFuturesSource => "okx"
  | KrakenFuturesSource => "kraken"
  | CoinbaseSource => "coinbase"
  | PhemexFuturesSource => "phemex"
  | UpbitSource => "upbit"
  end.

(** [_REGISTRY] once [_ensure_registry] has run: the two assignments of
    its body, in order. *)
Definition _REGISTRY : list (string * Adapter) :=
  [("binance", BinanceFuturesSource); ("kraken", KrakenFuturesSource)].

Fixpoint registry_get (reg : list (string * Adapter)) (k : string)
  : option Adapter :=
  match reg with
  | [] => None
  | (k', a) :: reg' => if String.eqb k k' then Some a else registry_get reg' k
  end.

Section WithRuntime.
Context `{RT : PyRuntime}.

Definition create_source (exchange : string) : result Adapter :=
  match registry_get _REGISTRY (lower exchange) with
  | Some cls => Ok cls
  | None =>
      let supported := join ", " (sorted_strs (map fst _REGISTRY)) in
      Raise (ValueError ("Unsupported exchange: " ++ repr exchange
                         ++ ". Supported: " ++ supported))
  end.

End WithRuntime.

End Factory.

(** ** binance_client/base.py: time conversion and the GET primitive *)

Module Transport.

(** Days between 1970-01-01 and the proleptic Gregorian date [y-m-d]. *)
Definition days_from_civil (y m d : Z) : Z :=
  let y' := if m <=? 2 then y - 1 else y in
  let era := y' / 400 in
  let yoe := y' - era * 400 in
  let mp := (m + 9) mod 12 in
  let doy := (153 * mp + 2) / 5 + d - 1 in
  let doe := yoe * 365 + yoe / 4 - yoe / 100 + doy in
  era * 146097 + doe - 719468.

(** [timezone.utc] *)
Definition utc : option Z := Some 0.

(** [dt.replace(tzinfo=tz)] *)
Definition replace_tzinfo (d : datetime) (tz : option Z) : datetime :=
  mkDatetime (year d) (month d) (day d) (hour d) (minute d) (second d)
             (microsecond d) tz.

(** Microseconds from the epoch to an aware datetime. *)
Definition epoch_us (d : datetime) : Z :=
  let secs := days_from_civil (year d) (month d) (day d) * 86400
              + hour d * 3600 + minute d * 60 + second d in
  let off := match tzinfo d with Some o => o | None => 0 end in
  secs * 1000000 + microsecond d - off.

(** The fields of a [datetime] object lie in these ranges (the constructor
    refuses any other value, and a day the month does not have); a UTC
    offset is strictly between minus and plus one day. *)
Definition in_range (d : datetime) : Prop :=
  1 <= year d <= 9999 /\ 1 <= month d <= 12 /\ 1 <= day d <= 31
  /\ 0 <= hour d < 24 /\ 0 <= minute d < 60 /\ 0 <= second d < 60
  /\ 0 <= microsecond d < 1000000
  /\ match tzinfo d with
     | Some off => - 86400000000 < off < 86400000000
     | None => True
     end.

(** [dt.timestamp()] of an aware datetime: [(dt - epoch).total_seconds()],
    the microseconds divided by [10 ** 6], a true division of integers,
    which rounds correctly to binary64. *)
Definition timestamp (d : datetime) : pyfloat :=
  binary64 (epoch_us d # 1000000).

(** [a * b] on floats. *)
Definition float_mul (a b : pyfloat) : pyfloat :=
  match a, b with
  | Fin x, Fin y => binary64 (x * y)
  | NaN, _ | _, NaN => NaN
  | Fin x, o | o, Fin x =>
      if Qnum x =? 0 then NaN
      else if Qnum x <? 0 then float_neg o else o
  | PosInf, PosInf | NegInf, NegInf => PosInf
  | _, _ => NegInf
  end.

Section WithRuntime.
Context `{RT : PyRuntime}.

(** What [to_milliseconds] is called with. [VBool] is there because
    [bool] is a subclass of [int]; [VOther] carries [type(dt).__name__]. *)
Inductive pyval : Type :=
| VInt (z : Z)
| VBool (b : bool)
| VFloat (f : pyfloat)
| VStr (s : string)
| VDatetime (d : datetime)
| VOther (type_name : string).

(** The [for fmt in (...)] loop with its [try]/[except ValueError]: the
    first format [strptime] accepts wins; [None] is the [else] branch. *)
Fixpoint try_formats (s : string) (fmts : list string) : option datetime :=
  match fmts with
  | [] => None
  | fmt :: fmts' =>
      match strptime s fmt with
      | Some d => Some (replace_tzinfo d utc)
      | None => try_formats s fmts'
      end
  end.

(** [if dt.tzinfo is None: dt = dt.replace(tzinfo=timezone.utc)] *)
Definition as_utc (d : datetime) : datetime :=
  match tzinfo d with
  | None => replace_tzinfo d utc
  | Some _ => d
  end.

(** The [isinstance(dt, datetime)] branch. *)
Definition datetime_to_ms (d : datetime) : result Z :=
  int_of_float (float_mul (timestamp (as_utc d)) (Fin 1000)).

(** The millisecond epoch of [d] read as UTC. *)
Definition utc_ms (d : datetime) : Z :=
  Z.quot (epoch_us (replace_tzinfo d utc)) 1000.

(** The millisecond epoch of the instant [d] denotes, a naive [d] being
    read as UTC; and whether that instant is a whole second. *)
Definition epoch_ms (d : datetime) : Z :=
  Z.quot (epoch_us (as_utc d)) 1000.

Definition on_whole_second (d : datetime) : Prop :=
  epoch_us (as_utc d) mod 1000000 = 0.

Definition to_milliseconds (dt : pyval) : result Z :=
  match dt with
  | VInt z => Ok z
  | VBool b => Ok (if b then 1 else 0)
  | VFloat f => int_of_float f
  | VStr s =>
      match try_formats s ["%Y-%m-%d %H:%M:%S"; "%Y-%m-%d"] with
      | Some d => datetime_to_ms d
      | None =>
          Raise (ValueError
                   ("Unsupported datetime format: " ++ repr s ++ ". "
                    ++ "Use 'YYYY-MM-DD' or 'YYYY-MM-DD HH:MM:SS'"))
      end
  | VDatetime d => datetime_to_ms d
  | VOther type_name =>
      Raise (TypeError ("Cannot convert " ++ type_name ++ " to timestamp"))
  end.

End WithRuntime.

Section Request.

(** [J]: parsed JSON bodies; [P]: query parameters. *)
Variables J P : Type.

(** What one call of [session.get] does: a response arrives, or a
    [requests.exceptions.RequestException] with text [exc] is raised. *)
Record response : Type := mkResponse {
  status_code : Z;
  text : string;
  json : J
}.

Inductive outcome : Type :=
| Responds (resp : response)
| Throws (exc : string).

(** The observable effects of [_request]. *)
Inductive event : Type :=
| EvGet (url : string) (params : P)
| EvSleep (seconds : Q).

Record BinanceBaseClient : Type := mkClient {
  max_retries : Z;
  rate_limit_sleep : Q
}.

(** [__init__]'s defaults. *)
Definition default_client : BinanceBaseClient := mkClient 3 (1 # 10).

(** The body of [for attempt in range(self.max_retries)], entered with
    [fuel] iterations left; [net k] is what the [k]-th call of
    [session.get] does.  The last clause is the statement after the
    loop. *)
Fixpoint request_loop (c : BinanceBaseClient) (net : nat -> outcome)
    (url : string) (params : P) (fuel : nat) (attempt : Z)
    (trace : list event) : result J * list event :=
  match fuel with
  | O =>
      (Raise (RuntimeError ("Max retries (" ++ dec (max_retries c)
                            ++ ") exceeded for " ++ url)), trace)
  | S fuel' =>
      let trace := (trace ++ [EvGet url params])%list in
      match net (Z.to_nat attempt) with
      | Responds resp =>
          if status_code resp =? 200 then
            (Ok (json resp), (trace ++ [EvSleep (rate_limit_sleep c)])%list)
          else if status_code resp =? 429 then
            let wait := 2 ^ (attempt + 1) in
            request_loop c net url params fuel' (attempt + 1)
                         (trace ++ [EvSleep (inject_Z wait)])%list
          else if status_code resp =? 418 then
            (Raise (RuntimeError ("IP banned by Binance: " ++ text resp)),
             trace)
          else
            (Raise (RuntimeError ("HTTP " ++ dec (status_code resp) ++ ": "
                                  ++ text resp)), trace)
      | Throws exc =>
          if attempt =? max_retries c - 1 then
            (Raise (RuntimeError ("Request failed after "
                                  ++ dec (max_retries c) ++ " retries: "
                                  ++ exc)), trace)
          else
            let wait := 2 ^ (attempt + 1) in
            request_loop c net url params fuel' (attempt + 1)
                         (trace ++ [EvSleep (inject_Z wait)])%list
      end
  end.

Definition _request (c : BinanceBaseClient) (net : nat -> outcome)
    (url : string) (params : P) : result J * list event :=
  request_loop c net url params (Z.to_nat (max_retries c)) 0 [].

(** The HTTP requests in a trace. *)
Definition is_get (e : event) : bool :=
  match e with
  | EvGet _ _ => true
  | EvSleep _ => false
  end.

Definition requests_issued (trace : list event) : nat :=
  List.length (filter is_get trace).

End Request.

Arguments Throws {J} exc.
Arguments EvSleep {P} seconds.

(** Attempt number [i] is retried: a 429 response, or a request exception
    on an attempt that is not the last. *)
Definition retried_at {J : Type} (c : BinanceBaseClient) (i : Z)
    (o : outcome J) : Prop :=
  match o with
  | Responds resp => status_code resp = 429
  | Throws _ => i <> max_retries c - 1
  end.

Definition rate_limited {J : Type} (o : outcome J) : Prop :=
  match o with
  | Responds resp => status_code resp = 429
  | Throws _ => False
  end.

(** What [k] retried attempts, the first of them attempt [a], leave in
    the trace: a request, then a sleep of [2 ** (attempt + 1)] seconds. *)
Fixpoint backoff_trace {P : Type} (url : string) (params : P) (a : Z)
    (k : nat) : list (event P) :=
  match k with
  | O => []
  | S k' => EvGet url params :: EvSleep (inject_Z (2 ^ (a + 1)))
            :: backoff_trace url params (a + 1) k'
  end.

(** The seconds a trace spends in [time.sleep]. *)
Fixpoint total_sleep {P : Type} (trace : list (event P)) : Q :=
  match trace with
  | [] => 0%Q
  | EvSleep s :: t => (s + total_sleep t)%Q
  | EvGet _ _ :: t => total_sleep t
  end.

End Transport.

(** ** A runtime instance that evaluates

    Plain decimal numerals, zero-padded dates and ISO-8601 instants: the
    spellings the exchanges and the test-suite use.  Python accepts more
    (exponents, surrounding blanks, single-digit months); the theorems of
    Part II hold for every [PyRuntime] and use this one only to evaluate
    examples. *)

Module RefRuntime.

Definition digit (c : ascii) : option Z :=
  let n := nat_of_ascii c in
  if (48 <=? n)%nat && (n <=? 57)%nat then Some (Z.of_nat (n - 48)) else None.

Fixpoint digits_acc (s : string) (acc : Z) : option Z :=
  match s with
  | EmptyString => Some acc
  | String c s' =>
      match digit c with
      | Some d => digits_acc s' (acc * 10 + d)
      | None => None
      end
  end.

Definition parse_nat (s : string) : option Z :=
  match s with
  | EmptyString => None
  | _ => digits_acc s 0
  end.

Definition parse_int (s : string) : option Z :=
  match s with
  | String "-" s' => option_map Z.opp (parse_nat s')
  | String "+" s' => parse_nat s'
  | _ => parse_nat s
  end.

(** Splits at the first ["."]. *)
Fixpoint split_dot (s : string) : string * option string :=
  match s with
  | EmptyString => (EmptyString, None)
  | String "." s' => (EmptyString, Some s')
  | String c s' => let (a, b) := split_dot s' in (String c a, b)
  end.

Definition parse_unsigned_float (s : string) : option Q :=
  match split_dot s with
  | (a, None) => option_map inject_Z (parse_nat a)
  | (a, Some b) =>
      match parse_nat a, parse_nat b with
      | Some x, Some y =>
          let k := 10 ^ Z.of_nat (String.length b) in
          Some (Qred (Qmake (x * k + y) (Z.to_pos k)))
      | _, _ => None
      end
  end.

Definition parse_float (s : string) : option pyfloat :=
  if String.eqb (lower s) "nan" then Some NaN
  else if String.eqb (lower s) "inf" then Some PosInf
  else if String.eqb (lower s) "-inf" then Some NegInf
  else match s with
       | String "-" s' =>
           option_map (fun q => Fin (Qred (- q))) (parse_unsigned_float s')
       | String "+" s' => option_map Fin (parse_unsigned_float s')
       | _ => option_map Fin (parse_unsigned_float s)
       end.

Definition is_leap (y : Z) : bool :=
  ((y mod 4 =? 0) && negb (y mod 100 =? 0)) || (y mod 400 =? 0).

Definition days_in_month (y m : Z) : Z :=
  if m =? 2 then (if is_leap y then 29 else 28)
  else if (m =? 4) || (m =? 6) || (m =? 9) || (m =? 11) then 30
  else 31.

Definition field (s : string) (off len : nat) : option Z :=
  parse_nat (substring off len s).

Definition sep_at (s : string) (off : nat) (c : ascii) : bool :=
  match get off s with
  | Some c' => Ascii.eqb c c'
  | None => false
  end.

Definition valid_date (y m d : Z) : bool :=
  (1 <=? y) && (1 <=? m) && (m <=? 12) && (1 <=? d)
  && (d <=? days_in_month y m).

Definition valid_time (h mi s : Z) : bool :=
  (h <? 24) && (mi <? 60) && (s <? 60).

(** [YYYY-MM-DD] at the head of [s]. *)
Definition parse_date (s : string) : option (Z * Z * Z) :=
  match field s 0 4, field s 5 2, field s 8 2 with
  | Some y, Some m, Some d =>
      if sep_at s 4 "-" && sep_at s 7 "-" && valid_date y m d
      then Some (y, m, d) else None
  | _, _, _ => None
  end.

(** [HH:MM:SS] at offset 11 of [s]. *)
Definition parse_time (s : string) : option (Z * Z * Z) :=
  match field s 11 2, field s 14 2, field s 17 2 with
  | Some h, Some mi, Some sec =>
      if sep_at s 13 ":" && sep_at s 16 ":" && valid_time h mi sec
      then Some (h, mi, sec) else None
  | _, _, _ => None
  end.

Definition ref_strptime (s fmt : string) : option datetime :=
  if String.eqb fmt "%Y-%m-%d" then
    if (String.length s =? 10)%nat then
      match parse_date s with
      | Some (y, m, d) => Some (mkDatetime y m d 0 0 0 0 None)
      | None => None
      end
    else None
  else if String.eqb fmt "%Y-%m-%d %H:%M:%S" then
    if (String.length s =? 19)%nat && sep_at s 10 " " then
      match parse_date s, parse_time s with
      | Some (y, m, d), Some (h, mi, sec) =>
          Some (mkDatetime y m d h mi sec 0 None)
      | _, _ => None
      end
    else None
  else None.

(** The fraction and zone designator after [HH:MM:SS]: nothing, ["Z"],
    [".fff"] or [".fffZ"] with up to nine digits; the result is in
    nanoseconds. *)
Definition parse_fraction (s : string) : option Z :=
  let body := match s with
              | String "." s' => Some s'
              | _ => None
              end in
  let strip_z (t : string) : string :=
    let n := String.length t in
    if sep_at t (n - 1) "Z" then substring 0 (n - 1) t else t in
  match body with
  | None =>
      if String.eqb s "" || String.eqb s "Z" then Some 0 else None
  | Some t =>
      let ds := strip_z t in
      let n := String.length ds in
      if (n <=? 9)%nat then
        option_map (fun v => v * 10 ^ Z.of_nat (9 - n)) (parse_nat ds)
      else None
  end.

(** [YYYY-MM-DDTHH:MM:SS] with an optional fraction and ["Z"], read as
    UTC. *)
Definition ref_to_datetime (s : string) : option Z :=
  if sep_at s 10 "T" || sep_at s 10 " " then
    match parse_date s, parse_time s,
          parse_fraction (substring 19 (String.length s - 19) s) with
    | Some (y, m, d), Some (h, mi, sec), Some ns =>
        Some ((Transport.days_from_civil y m d * 86400
               + h * 3600 + mi * 60 + sec) * 1000000000 + ns)
    | _, _, _ => None
    end
  else None.

Definition ref_repr (s : string) : string := "'" ++ s ++ "'".

#[export] Instance ref_runtime : PyRuntime := {
  float_of_str := parse_float;
  int_of_str := parse_int;
  repr := ref_repr;
  strptime := ref_strptime;
  to_datetime_str := ref_to_datetime
}.

End RefRuntime.

(** ** Python and pandas operations the adapters apply to rows *)

Module Py.

Fixpoint lookup {A : Type} (k : string) (kv : list (string * A)) : option A :=
  match kv with
  | [] => None
  | (k', v) :: kv' => if String.eqb k k' then Some v else lookup k kv'
  end.

(** [d.get(k, default)] *)
Definition get_default {A : Type} (k : string) (kv : list (string * A))
    (default : A) : A :=
  match lookup k kv with
  | Some v => v
  | None => default
  end.

(** An optional token that has no entry in [table]: an unknown one, or
    none at all. *)
Definition unknown_in {A : Type} (table : list (string * A))
    (x : option string) : Prop :=
  match x with
  | Some s => lookup s table = None
  | None => True
  end.

(** [row[i]] for a literal index [i >= 0]. *)
Definition idx (r : jrow) (i : nat) : result scalar :=
  match r with
  | JArr items => of_option (nth_error items i)
                            (IndexError "list index out of range")
  | JObj _ => Raise (KeyError (dec (Z.of_nat i)))
  end.

(** [row[k]] for a string key. *)
Definition key (r : jrow) (k : string) : result scalar :=
  match r with
  | JObj fields => of_option (lookup k fields) (KeyError k)
  | JArr _ =>
      Raise (TypeError "list indices must be integers or slices, not str")
  end.

(** [data[-1]] *)
Definition last_row (data : page) : result jrow :=
  of_option (nth_error data (List.length data - 1))
            (IndexError "list index out of range").

Definition len {A : Type} (l : list A) : Z := Z.of_nat (List.length l).

(** [not data] on a list. *)
Definition is_empty {A : Type} (l : list A) : bool :=
  match l with
  | [] => true
  | _ => false
  end.

(** Truth value of a scalar. *)
Definition truthy (s : scalar) : bool :=
  match s with
  | SInt z => negb (z =? 0)
  | SFloat f => negb (float_is_zero f)
  | SStr s => negb (String.eqb s "")
  | SNull => false
  end.

(** [x == n] for an int literal [n]. *)
Definition eq_int (x : scalar) (n : Z) : bool :=
  match x with
  | SInt z => z =? n
  | SFloat (Fin q) => Qeq_bool q (inject_Z n)
  | _ => false
  end.

(** [x == s] for a string literal [s]. *)
Definition eq_str (x : scalar) (s : string) : bool :=
  match x with
  | SStr t => String.eqb t s
  | _ => false
  end.

(** A raw value used as an integer in arithmetic or in a comparison with
    an integer: strings and [None] make Python raise [TypeError]; floats
    are outside the model here ([number_of] below follows them). *)
Definition num (x : scalar) : result Z :=
  match x with
  | SInt z => Ok z
  | SFloat _ => Raise (Unmodelled "float-valued time")
  | SStr _ => Raise (TypeError "unsupported operand type(s): 'str' and 'int'")
  | SNull =>
      Raise (TypeError "unsupported operand type(s): 'NoneType' and 'int'")
  end.

(** A number as Python holds it, an [int] or a [float]: what a cursor
    taken from a response is. *)
Inductive number : Type :=
| NInt (z : Z)
| NFloat (f : pyfloat).

(** A raw value used as a number, in arithmetic or in a comparison with a
    number: strings and [None] make Python raise [TypeError]. *)
Definition number_of (x : scalar) : result number :=
  match x with
  | SInt z => Ok (NInt z)
  | SFloat f => Ok (NFloat f)
  | SStr _ => Raise (TypeError "unsupported operand type(s): 'str' and 'int'")
  | SNull =>
      Raise (TypeError "unsupported operand type(s): 'NoneType' and 'int'")
  end.

Definition scalar_of (n : number) : scalar :=
  match n with
  | NInt z => SInt z
  | NFloat f => SFloat f
  end.

(** [a < b] and [a <= b] on floats: false when either is NaN. *)
Definition float_lt (a b : pyfloat) : bool :=
  match a, b with
  | NaN, _ | _, NaN => false
  | Fin x, Fin y => negb (Qle_bool y x)
  | PosInf, _ | _, NegInf => false
  | _, PosInf | NegInf, _ => true
  end.

Definition float_le (a b : pyfloat) : bool :=
  match a, b with
  | NaN, _ | _, NaN => false
  | Fin x, Fin y => Qle_bool x y
  | _, PosInf | NegInf, _ => true
  | PosInf, _ | _, NegInf => false
  end.

(** The value of a number as a rational or an infinity: Python compares
    an [int] with a [float] by their exact values. *)
Definition value_of (n : number) : pyfloat :=
  match n with
  | NInt z => Fin (inject_Z z)
  | NFloat f => f
  end.

Definition num_lt (a b : number) : bool :=
  match a, b with
  | NInt x, NInt y => x <? y
  | _, _ => float_lt (value_of a) (value_of b)
  end.

Definition num_le (a b : number) : bool :=
  match a, b with
  | NInt x, NInt y => x <=? y
  | _, _ => float_le (value_of a) (value_of b)
  end.

(** [n + z] for an [int] [z]: integer addition, or, when [n] is a float,
    the float nearest to [z] added to it and the sum rounded. *)
Definition add_int (n : number) (z : Z) : result number :=
  match n with
  | NInt a => Ok (NInt (a + z))
  | NFloat f =>
      match binary64 (inject_Z z) with
      | Fin zq =>
          Ok (NFloat match f with
                     | Fin q => binary64 (q + zq)
                     | _ => f
                     end)
      | _ => Raise (OverflowError "int too large to convert to float")
      end
  end.

Definition ends_with (suffix s : string) : bool :=
  let n := String.length s in
  let k := String.length suffix in
  (k <=? n)%nat && String.eqb (substring (n - k) k s) suffix.

(** [s[:-len(suffix)]] *)
Definition drop_suffix (suffix s : string) : string :=
  substring 0 (String.length s - String.length suffix) s.

Definition str_or_null (o : option string) : scalar :=
  match o with
  | Some s => SStr s
  | None => SNull
  end.

Section WithRuntime.
Context `{RT : PyRuntime}.

(** [int(x)] *)
Definition int (x : scalar) : result Z :=
  match x with
  | SInt z => Ok z
  | SFloat f => int_of_float f
  | SStr s => of_option (int_of_str s)
                (ValueError "invalid literal for int() with base 10")
  | SNull => Raise (TypeError "int() argument must be a string or a number")
  end.

(** [float(x)] *)
Definition float (x : scalar) : result pyfloat :=
  match x with
  | SInt z => Ok (Fin (inject_Z z))
  | SFloat f => Ok f
  | SStr s => of_option (float_of_str s)
                (ValueError "could not convert string to float")
  | SNull => Raise (TypeError "float() argument must be a string or a number")
  end.

(** [series.astype(float)] on one element: as [float], but [None] turns
    into NaN. *)
Definition astype_float (x : scalar) : result pyfloat :=
  match x with
  | SNull => Ok NaN
  | _ => float x
  end.

(** [series.astype(int)] on one element. *)
Definition astype_int (x : scalar) : result Z := int x.

End WithRuntime.

End Py.

(** ** Tables *)

Module Frame.

(** Cell values.  [CTime] is a UTC instant in nanoseconds since the epoch
    (pandas' [datetime64[ns, UTC]]). *)
Inductive cell : Type :=
| CTime (ns : Z)
| CFloat (f : pyfloat)
| CInt (z : Z)
| CStr (s : string)
| CNone
| CNaT.

Record DataFrame : Type := mkFrame {
  columns : list string;
  rows : list (list cell)
}.

(** [pd.DataFrame()] *)
Definition empty : DataFrame := mkFrame [] [].

(** [len(df)] *)
Definition len (df : DataFrame) : nat := List.length (rows df).

Definition of_scalar (x : scalar) : cell :=
  match x with
  | SInt z => CInt z
  | SFloat f => CFloat f
  | SStr s => CStr s
  | SNull => CNone
  end.

Definition ns_per_ms : Z := 1000000.
Definition ns_per_s : Z := 1000000000.

(** [pd.to_datetime(series, unit=..., utc=True)] on one element, for the
    integers the exchanges send; [None] becomes [NaT]. *)
Definition to_datetime (ns_per_unit : Z) (x : scalar) : result cell :=
  match x with
  | SInt z => Ok (CTime (z * ns_per_unit))
  | SNull => Ok CNaT
  | _ => Raise (Unmodelled "to_datetime of a non-integer")
  end.

Fixpoint index_of (name : string) (cols : list string) : option nat :=
  match cols with
  | [] => None
  | c :: cols' =>
      if String.eqb name c then Some O
      else option_map S (index_of name cols')
  end.

Definition time_of (c : cell) : option Z :=
  match c with
  | CTime t => Some t
  | _ => None
  end.

(** The instants of the [timestamp] column, row by row; [None] where the
    column is missing or the cell is not an instant. *)
Definition timestamps (df : DataFrame) : list (option Z) :=
  match index_of "timestamp" (columns df) with
  | Some i => map (fun r => time_of (nth i r CNone)) (rows df)
  | None => map (fun _ => None) (rows df)
  end.

(** What a converter returns: [pd.DataFrame()] with neither rows nor
    columns, or a table with rows whose column list is [cols]. *)
Definition shaped (cols : list string) (df : DataFrame) : Prop :=
  (rows df = [] /\ columns df = [])
  \/ (rows df <> [] /\ columns df = cols).

(** Rows are non-decreasing by timestamp. *)
Definition ascending (df : DataFrame) : Prop :=
  exists ts, timestamps df = map Some ts /\ Sorted Z.le ts.

(** Every row's timestamp lies in [[start_ms, end_ms)]. *)
Definition within (start_ms end_ms : Z) (df : DataFrame) : Prop :=
  exists ts, timestamps df = map Some ts /\
    Forall (fun t => start_ms * ns_per_ms <= t < end_ms * ns_per_ms) ts.

(** Every cell of column [name] is [c]; a table without the column has
    no rows. *)
Definition constant_column (name : string) (c : cell) (df : DataFrame)
  : Prop :=
  match index_of name (columns df) with
  | Some i => Forall (fun row => nth i row CNone = c) (rows df)
  | None => rows df = []
  end.

(** Stable insertion sort by an integer key: the order [list.sort(key=...)]
    and [sort_values] produce. *)
Fixpoint insert_by {A : Type} (key : A -> Z) (x : A) (l : list A) : list A :=
  match l with
  | [] => [x]
  | y :: l' => if key x <=? key y then x :: l else y :: insert_by key x l'
  end.

Definition sort_by {A : Type} (key : A -> Z) (l : list A) : list A :=
  fold_right (insert_by key) [] l.

(** [l.sort(key=f)] for a key function that may raise: the keys are
    computed first, then the list is ordered by them. *)
Definition sort_key {A : Type} (f : A -> result Z) (l : list A)
  : result (list A) :=
  ks <- mapM f l ;;
  Ok (map snd (sort_by fst (combine ks l))).

(** [df.sort_values("timestamp").reset_index(drop=True)] *)
Definition sort_values_timestamp (df : DataFrame) : result DataFrame :=
  match index_of "timestamp" (columns df) with
  | None => Raise (KeyError "timestamp")
  | Some i =>
      sorted <- sort_key
                  (fun r => of_option (time_of (nth i r CNone))
                              (Unmodelled "sort of a non-instant")) (rows df) ;;
      Ok (mkFrame (columns df) sorted)
  end.

End Frame.

(** ** The mocked [HttpClient.get] *)

Module Http.

(** Query-parameter values: scalars, or an instant rendered as text
    (identified by its epoch milliseconds). *)
Inductive pval : Type :=
| PVal (x : scalar)
| PTime (epoch_ms : Z).

Record request : Type := mkRequest {
  url : string;
  params : list (string * pval)
}.

Section Mock.

(** [R]: what [get] returns, the parsed body. *)
Variable R : Type.

(** A mock with [side_effect = pending]; [calls] are the calls made so
    far. *)
Record mock : Type := mkMock {
  pending : list R;
  calls : list request
}.

Definition M (A : Type) : Type := mock -> result A * mock.

Definition ret {A : Type} (a : A) : M A := fun m => (Ok a, m).

Definition lift {A : Type} (r : result A) : M A := fun m => (r, m).

Definition bindM {A B : Type} (c : M A) (k : A -> M B) : M B :=
  fun m =>
    match c m with
    | (Ok a, m') => k a m'
    | (Raise e, m') => (Raise e, m')
    end.

(** One call: the next pending response, or [StopIteration] when none is
    left. *)
Definition get (req : request) : M R :=
  fun m =>
    let calls' := (calls m ++ [req])%list in
    match pending m with
    | [] => (Raise StopIteration, mkMock [] calls')
    | resp :: rest => (Ok resp, mkMock rest calls')
    end.

Section Paginate.

(** The shape shared by the pagination loops: [cond] is the [while]
    condition on the cursor, [mkreq] builds the request, and [step] is the
    rest of the body: it yields the rows [all_data] is extended by and the
    next cursor, or [None] at a [break]. *)
Variable C : Type.
Variable cond : C -> bool.
Variable mkreq : C -> request.
Variable step : R -> C -> result (list jrow * option C).

Fixpoint paginate_from (pending : list R) (calls : list request)
    (cursor : C) (all_data : list jrow) : result (list jrow) * mock :=
  if cond cursor then
    let calls' := (calls ++ [mkreq cursor])%list in
    match pending with
    | [] => (Raise StopIteration, mkMock [] calls')
    | resp :: rest =>
        match step resp cursor with
        | Raise e => (Raise e, mkMock rest calls')
        | Ok (new_rows, None) =>
            (Ok (all_data ++ new_rows)%list, mkMock rest calls')
        | Ok (new_rows, Some cursor') =>
            paginate_from rest calls' cursor' (all_data ++ new_rows)%list
        end
    end
  else (Ok all_data, mkMock pending calls).

Definition paginate (cursor : C) : M (list jrow) :=
  fun m => paginate_from (pending m) (calls m) cursor [].

End Paginate.

End Mock.

Arguments mkMock {R} pending calls.
Arguments ret {R A} a.
Arguments lift {R A} r.
Arguments bindM {R A B} c k.

(** A run from [m] to [m'] was served [n] responses: it took the first
    [n] pending ones and made [n] calls. *)
Definition served {R : Type} (m m' : mock R) (n : nat) : Prop :=
  pending m' = skipn n (pending m)
  /\ (n <= List.length (pending m))%nat
  /\ List.length (calls m') = (List.length (calls m) + n)%nat.


(** A fresh mock serving [responses]. *)
Definition serving {R : Type} (responses : list R) : mock R :=
  mkMock responses [].

(** Runs [c] against a fresh mock: the outcome and the number of HTTP
    calls made. *)
Definition run {R A : Type} (c : M R A) (responses : list R)
  : result A * nat :=
  let (r, m) := c (serving responses) in (r, List.length (calls m)).



(** A page of [limit] rows or more, the opposite of a [short_page]: a
    loop that asks for [limit] rows goes on after it. *)
Definition full_page (limit : Z) (p : page) : Prop :=
  p <> [] /\ limit <= Py.len p.


(** Every element of [l] is related to the one that follows it. *)
Fixpoint linked {C : Type} (rel : C -> C -> Prop) (l : list C) : Prop :=
  match l with
  | c :: l' =>
      match l' with
      | c' :: _ => rel c c' /\ linked rel l'
      | [] => True
      end
  | [] => True
  end.

End Http.

Notation "x <~ c ;; k" := (Http.bindM c (fun x => k))
  (at level 61, c at next level, right associativity).

(** ** Conventions of the adapter modules

    Each adapter module gives the type [R] of the bodies its mocked
    [HttpClient.get] returns, its pagination loops as instances of
    [Http.paginate], its converters and its [fetch].  The pandas
    column operations of a converter are written out row by row; which of
    several ill-formed cells makes the conversion fail first is therefore
    not preserved, and tabular input pandas would pad with NaN is
    [Unmodelled]. *)

Module Conv.

Import Frame.

(** A field of a record row inside [pd.DataFrame(raw)]. *)
Definition field (r : jrow) (k : string) : result scalar :=
  match r with
  | JObj fields =>
      of_option (Py.lookup k fields) (Unmodelled "field missing in a record")
  | JArr _ => Raise (Unmodelled "array row in a frame of records")
  end.

(** The converters' common frame: the [if not raw] guard, then one table
    row per raw row. *)
Definition frame_of (cols : list string)
    (conv : jrow -> result (list cell)) (raw : list jrow)
  : result DataFrame :=
  if Py.is_empty raw then Ok empty
  else rs <- mapM conv raw ;; Ok (mkFrame cols rs).

(** [df.drop(columns=names)] and [df[names]] on the column list. *)
Definition drop (names cols : list string) : list string :=
  filter (fun c => negb (existsb (String.eqb c) names)) cols.

Definition opt (o : option string) : Http.pval := Http.PVal (Py.str_or_null o).
Definition pstr (s : string) : Http.pval := Http.PVal (SStr s).
Definition pint (z : Z) : Http.pval := Http.PVal (SInt z).

End Conv.

(** ** infra/binance.py *)

Module Binance.

Import Schema Frame Conv.

Definition BASE_URL : string := "https://fapi.binance.com".

(** [get] returns the JSON array of rows. *)
Definition R : Type := page.

Section WithRuntime.
Context `{RT : PyRuntime}.

Definition _paginate_klines (endpoint : string)
    (params_base : list (string * Http.pval)) (start_ms end_ms : Z)
    (limit : Z) : Http.M R (list jrow) :=
  Http.paginate
    (fun current => current <? end_ms)
    (fun current =>
       Http.mkRequest (BASE_URL ++ endpoint)
         (params_base ++ [("startTime", pint current);
                          ("endTime", pint end_ms);
                          ("limit", pint limit)])%list)
    (fun data current =>
       if Py.is_empty data then Ok ([], None)
       else if Py.len data <? limit then Ok (data, None)
       else
         last <- Py.last_row data ;;
         close_time <- Py.idx last 6 ;;
         t <- Py.num close_time ;;
         Ok (data, Some (t + 1)))
    start_ms.

Definition _paginate_records (endpoint : string)
    (params_base : list (string * Http.pval)) (start_ms end_ms : Z)
    (limit : Z) (time_field : string) : Http.M R (list jrow) :=
  Http.paginate
    (fun current => current <? end_ms)
    (fun current =>
       Http.mkRequest (BASE_URL ++ endpoint)
         (params_base ++ [("startTime", pint current);
                          ("endTime", pint end_ms);
                          ("limit", pint limit)])%list)
    (fun data current =>
       if Py.is_empty data then Ok ([], None)
       else if Py.len data <? limit then Ok (data, None)
       else
         last <- Py.last_row data ;;
         x <- Py.key last time_field ;;
         t <- Py.int x ;;
         Ok (data, Some (t + 1)))
    start_ms.


(** A page after which [_paginate_klines] asks again, from [next]: it is
    full, its last row closes at [next - 1], and [next] is before the end
    of the window. *)
Definition klines_goes_on (limit end_ms : Z) (data : R) (next : Z) : Prop :=
  Http.full_page limit data
  /\ (exists last, Py.last_row data = Ok last
                   /\ Py.idx last 6 = Ok (SInt (next - 1)))
  /\ next < end_ms.


Definition kline_columns : list string :=
  ["timestamp"; "open"; "high"; "low"; "close"; "volume";
   "close_time"; "quote_volume"; "trades";
   "taker_buy_volume"; "taker_buy_quote_volume"; "_ignore"].

Definition kline_row (include_extra : bool) (r : jrow)
  : result (list cell) :=
  match r with
  | JArr [t; o; h; l; c; v; ct; qv; n; tbv; tbqv; _] =>
      timestamp <- to_datetime ns_per_ms t ;;
      close_time <- to_datetime ns_per_ms ct ;;
      open <- Py.astype_float o ;;
      high <- Py.astype_float h ;;
      low <- Py.astype_float l ;;
      close <- Py.astype_float c ;;
      volume <- Py.astype_float v ;;
      quote_volume <- Py.astype_float qv ;;
      taker_buy_volume <- Py.astype_float tbv ;;
      taker_buy_quote_volume <- Py.astype_float tbqv ;;
      trades <- Py.astype_int n ;;
      if include_extra then
        Ok [timestamp; CFloat open; CFloat high; CFloat low; CFloat close;
            CFloat volume; close_time; CFloat quote_volume; CInt trades;
            CFloat taker_buy_volume; CFloat taker_buy_quote_volume]
      else
        Ok [timestamp; CFloat open; CFloat high; CFloat low; CFloat close]
  | _ => Raise (Unmodelled "kline row that is not a 12-element array")
  end.

Definition _klines_to_df (raw : list jrow) (include_extra : bool)
  : result DataFrame :=
  let columns := drop ["_ignore"] kline_columns in
  let columns :=
    if include_extra then columns
    else ["timestamp"; "open"; "high"; "low"; "close"] in
  frame_of columns (kline_row include_extra) raw.

Definition ls_row (r : jrow) : result (list cell) :=
  t <- field r "timestamp" ;;
  timestamp <- to_datetime ns_per_ms t ;;
  symbol <- field r "symbol" ;;
  x <- field r "longShortRatio" ;;
  long_short_ratio <- Py.astype_float x ;;
  x <- field r "longAccount" ;;
  long_account <- Py.astype_float x ;;
  x <- field r "shortAccount" ;;
  short_account <- Py.astype_float x ;;
  Ok [timestamp; of_scalar symbol; CFloat long_short_ratio;
      CFloat long_account; CFloat short_account].

Definition _records_to_ls_df (raw : list jrow) : result DataFrame :=
  frame_of ["timestamp"; "symbol"; "long_short_ratio"; "long_account";
            "short_account"] ls_row raw.

Definition funding_row (r : jrow) : result (list cell) :=
  t <- field r "fundingTime" ;;
  timestamp <- to_datetime ns_per_ms t ;;
  symbol <- field r "symbol" ;;
  x <- field r "fundingRate" ;;
  funding_rate <- Py.astype_float x ;;
  x <- field r "markPrice" ;;
  mark_price <- Py.astype_float x ;;
  Ok [timestamp; of_scalar symbol; CFloat funding_rate; CFloat mark_price].

Definition oi_row (r : jrow) : result (list cell) :=
  t <- field r "timestamp" ;;
  timestamp <- to_datetime ns_per_ms t ;;
  symbol <- field r "symbol" ;;
  x <- field r "sumOpenInterest" ;;
  open_interest <- Py.astype_float x ;;
  x <- field r "sumOpenInterestValue" ;;
  open_interest_value <- Py.astype_float x ;;
  Ok [timestamp; of_scalar symbol; CFloat open_interest;
      CFloat open_interest_value].

Definition taker_row (r : jrow) : result (list cell) :=
  t <- field r "timestamp" ;;
  timestamp <- to_datetime ns_per_ms t ;;
  x <- field r "buySellRatio" ;;
  buy_sell_ratio <- Py.astype_float x ;;
  x <- field r "buyVol" ;;
  buy_vol <- Py.astype_float x ;;
  x <- field r "sellVol" ;;
  sell_vol <- Py.astype_float x ;;
  Ok [timestamp; CFloat buy_sell_ratio; CFloat buy_vol; CFloat sell_vol].

(** The handlers share this shape: both times are converted, the loop
    runs, the rows are converted. *)
Definition klines_handler (endpoint symbol_key symbol : string)
    (start_time end_time : Transport.pyval) (interval : option string)
    (include_extra : bool) : Http.M R DataFrame :=
  start_ms <~ Http.lift (Transport.to_milliseconds start_time) ;;
  end_ms <~ Http.lift (Transport.to_milliseconds end_time) ;;
  raw <~ _paginate_klines endpoint
           [(symbol_key, pstr symbol); ("interval", opt interval)]
           start_ms end_ms 1500 ;;
  Http.lift (_klines_to_df raw include_extra).

Definition records_handler (endpoint symbol : string)
    (with_period : bool) (period : option string)
    (start_time end_time : Transport.pyval) (limit : Z)
    (time_field : string) (convert : list jrow -> result DataFrame)
  : Http.M R DataFrame :=
  start_ms <~ Http.lift (Transport.to_milliseconds start_time) ;;
  end_ms <~ Http.lift (Transport.to_milliseconds end_time) ;;
  raw <~ _paginate_records endpoint
           (("symbol", pstr symbol)
            :: if with_period then [("period", opt period)] else [])
           start_ms end_ms limit time_field ;;
  Http.lift (convert raw).

(** The row conversion of each data type's handler. *)
Definition row_of (data_type : DataType) : jrow -> result (list cell) :=
  match data_type with
  | OHLCV => kline_row true
  | INDEX_PRICE | MARK_PRICE => kline_row false
  | FUNDING_RATE => funding_row
  | OPEN_INTEREST => oi_row
  | LONG_SHORT_RATIO | TOP_LS_ACCOUNTS | TOP_LS_POSITIONS => ls_row
  | TAKER_BUY_SELL => taker_row
  end.

Definition fetch (data_type : DataType) (symbol : string)
    (start_time end_time : Transport.pyval)
    (interval period : option string) : Http.M R DataFrame :=
  match data_type with
  | OHLCV =>
      klines_handler "/fapi/v1/klines" "symbol" symbol start_time end_time
                     interval true
  | INDEX_PRICE =>
      klines_handler "/fapi/v1/indexPriceKlines" "pair" symbol start_time
                     end_time interval false
  | MARK_PRICE =>
      klines_handler "/fapi/v1/markPriceKlines" "symbol" symbol start_time
                     end_time interval false
  | FUNDING_RATE =>
      records_handler "/fapi/v1/fundingRate" symbol false period
        start_time end_time 1000 "fundingTime"
        (frame_of ["timestamp"; "symbol"; "funding_rate"; "mark_price"]
                  funding_row)
  | OPEN_INTEREST =>
      records_handler "/futures/data/openInterestHist" symbol true period
        start_time end_time 500 "timestamp"
        (frame_of ["timestamp"; "symbol"; "open_interest";
                   "open_interest_value"] oi_row)
  | LONG_SHORT_RATIO =>
      records_handler "/futures/data/globalLongShortAccountRatio" symbol
        true period start_time end_time 500 "timestamp" _records_to_ls_df
  | TOP_LS_ACCOUNTS =>
      records_handler "/futures/data/topLongShortAccountRatio" symbol
        true period start_time end_time 500 "timestamp" _records_to_ls_df
  | TOP_LS_POSITIONS =>
      records_handler "/futures/data/topLongShortPositionRatio" symbol
        true period start_time end_time 500 "timestamp" _records_to_ls_df
  | TAKER_BUY_SELL =>
      records_handler "/futures/data/takerlongshortRatio" symbol true period
        start_time end_time 500 "timestamp"
        (frame_of ["timestamp"; "buy_sell_ratio"; "buy_vol"; "sell_vol"]
                  taker_row)
  end.

End WithRuntime.

End Binance.

(** ** infra/bybit.py *)

Module Bybit.

Import Schema Frame Conv.

Definition BASE_URL : string := "https://api.bybit.com".

Definition _INTERVAL_MAP : list (string * string) :=
  [("1m", "1"); ("3m", "3"); ("5m", "5"); ("15m", "15"); ("30m", "30");
   ("1h", "60"); ("2h", "120"); ("4h", "240"); ("6h", "360"); ("12h", "720");
   ("1d", "D"); ("1w", "W"); ("1M", "M")].

Definition _PERIOD_MAP : list (string * string) :=
  [("5m", "5min"); ("15m", "15min"); ("30m", "30min");
   ("1h", "1h"); ("4h", "4h"); ("1d", "1d")].

(** [table.get(x, x)] for an optional token. *)
Definition translate (table : list (string * string)) (x : option string)
  : option string :=
  match x with
  | Some s => Some (Py.get_default s table s)
  | None => None
  end.

(** The [result] object of a V5 response and the envelope around it. *)
Record payload : Type := mkPayload {
  list_ : option page;
  nextPageCursor : option string
}.

Record R : Type := mkR {
  retCode : option scalar;
  result_ : option payload
}.

(** [_api_get] applied to the body [get] returned. *)
Definition _api_get (resp : R) : result payload :=
  let ok := match retCode resp with
            | Some x => Py.eq_int x 0
            | None => false
            end in
  if negb ok then Raise (RuntimeError "Bybit API error")
  else of_option (result_ resp) (KeyError "result").

(** [result.get("list", [])] *)
Definition items_of (p : payload) : page :=
  match list_ p with
  | Some l => l
  | None => []
  end.

(** The page a response carries. *)
Definition page_of (resp : R) : page :=
  match result_ resp with
  | Some p => items_of p
  | None => []
  end.

Section WithRuntime.
Context `{RT : PyRuntime}.

(** [int(x[0])], the sort key and cursor of the kline rows. *)
Definition kline_ts (x : jrow) : result Z :=
  v <- Py.idx x 0 ;; Py.int v.

Definition funding_ts (x : jrow) : result Z :=
  v <- Py.key x "fundingRateTimestamp" ;; Py.int v.

(** The loop of [_paginate_klines], before the final sort. *)
Definition klines_loop (endpoint : string)
    (params_base : list (string * Http.pval)) (start_ms end_ms : Z)
    (limit : Z) : Http.M R (list jrow) :=
  Http.paginate
    (fun current_end => current_end >? start_ms)
    (fun current_end =>
       Http.mkRequest (BASE_URL ++ endpoint)
         (params_base ++ [("start", pint start_ms);
                          ("end", pint current_end);
                          ("limit", pint limit)])%list)
    (fun resp current_end =>
       result <- _api_get resp ;;
       let items := items_of result in
       if Py.is_empty items then Ok ([], None)
       else if Py.len items <? limit then Ok (items, None)
       else
         last <- Py.last_row items ;;
         oldest_ts <- kline_ts last ;;
         Ok (items, Some (oldest_ts - 1)))
    end_ms.

Definition _paginate_klines (endpoint : string)
    (params_base : list (string * Http.pval)) (start_ms end_ms : Z)
    (limit : Z) : Http.M R (list jrow) :=
  all_data <~ klines_loop endpoint params_base start_ms end_ms limit ;;
  Http.lift (sort_key kline_ts all_data).

Definition funding_loop (symbol : string) (start_ms end_ms : Z) (limit : Z)
  : Http.M R (list jrow) :=
  Http.paginate
    (fun current_end => current_end >? start_ms)
    (fun current_end =>
       Http.mkRequest (BASE_URL ++ "/v5/market/funding/history")
         [("category", pstr "linear"); ("symbol", pstr symbol);
          ("startTime", pint start_ms); ("endTime", pint current_end);
          ("limit", pint limit)])
    (fun resp current_end =>
       result <- _api_get resp ;;
       let items := items_of result in
       if Py.is_empty items then Ok ([], None)
       else if Py.len items <? limit then Ok (items, None)
       else
         last <- Py.last_row items ;;
         oldest_ts <- funding_ts last ;;
         Ok (items, Some (oldest_ts - 1)))
    end_ms.

Definition _paginate_funding (symbol : string) (start_ms end_ms : Z)
    (limit : Z) : Http.M R (list jrow) :=
  all_data <~ funding_loop symbol start_ms end_ms limit ;;
  Http.lift (sort_key funding_ts all_data).

(** The cursor is the [nextPageCursor] string, [""] at first. *)
Definition _paginate_open_interest (symbol : string) (start_ms end_ms : Z)
    (interval_time : option string) (limit : Z) : Http.M R (list jrow) :=
  Http.paginate
    (fun _ => true)
    (fun cursor =>
       Http.mkRequest (BASE_URL ++ "/v5/market/open-interest")
         ([("category", pstr "linear"); ("symbol", pstr symbol);
           ("intervalTime", opt interval_time);
           ("startTime", pint start_ms); ("endTime", pint end_ms);
           ("limit", pint limit)]
          ++ if String.eqb cursor "" then [] else [("cursor", pstr cursor)])%list)
    (fun resp _ =>
       result <- _api_get resp ;;
       let items := items_of result in
       if Py.is_empty items then Ok ([], None)
       else
         let cursor := match nextPageCursor result with
                       | Some c => c
                       | None => ""
                       end in
         if String.eqb cursor "" || (Py.len items <? limit)
         then Ok (items, None)
         else Ok (items, Some cursor))
    "".

(** The requests of the three loops at a cursor. *)
Definition klines_request (endpoint : string)
    (params_base : list (string * Http.pval)) (start_ms limit current_end : Z)
  : Http.request :=
  Http.mkRequest (BASE_URL ++ endpoint)
    (params_base ++ [("start", pint start_ms); ("end", pint current_end);
                     ("limit", pint limit)])%list.

Definition funding_request (symbol : string) (start_ms limit current_end : Z)
  : Http.request :=
  Http.mkRequest (BASE_URL ++ "/v5/market/funding/history")
    [("category", pstr "linear"); ("symbol", pstr symbol);
     ("startTime", pint start_ms); ("endTime", pint current_end);
     ("limit", pint limit)].


(** A response after which the kline loop asks again, up to [next]: a
    success with a full list whose last, oldest, item is of [next + 1],
    and [next] is after the start of the window. *)
Definition klines_goes_on (limit start_ms : Z) (resp : R) (next : Z) : Prop :=
  exists result last,
    _api_get resp = Ok result
    /\ Http.full_page limit (items_of result)
    /\ Py.last_row (items_of result) = Ok last
    /\ kline_ts last = Ok (next + 1)
    /\ start_ms < next.

Definition funding_goes_on (limit start_ms : Z) (resp : R) (next : Z) : Prop :=
  exists result last,
    _api_get resp = Ok result
    /\ Http.full_page limit (items_of result)
    /\ Py.last_row (items_of result) = Ok last
    /\ funding_ts last = Ok (next + 1)
    /\ start_ms < next.


Definition ohlcv_row (item : jrow) : result (list cell) :=
  timestamp <- kline_ts item ;;
  open <- (v <- Py.idx item 1 ;; Py.float v) ;;
  high <- (v <- Py.idx item 2 ;; Py.float v) ;;
  low <- (v <- Py.idx item 3 ;; Py.float v) ;;
  close <- (v <- Py.idx item 4 ;; Py.float v) ;;
  volume <- (v <- Py.idx item 5 ;; Py.float v) ;;
  quote_volume <- (v <- Py.idx item 6 ;; Py.float v) ;;
  Ok [CTime (timestamp * ns_per_ms); CFloat open; CFloat high; CFloat low;
      CFloat close; CFloat volume; CNone; CFloat quote_volume; CInt 0;
      CFloat nan; CFloat nan].

Definition _klines_to_ohlcv_df (raw : list jrow) : result DataFrame :=
  frame_of (Schema.columns OHLCV) ohlcv_row raw.

Definition price_row (item : jrow) : result (list cell) :=
  timestamp <- kline_ts item ;;
  open <- (v <- Py.idx item 1 ;; Py.float v) ;;
  high <- (v <- Py.idx item 2 ;; Py.float v) ;;
  low <- (v <- Py.idx item 3 ;; Py.float v) ;;
  close <- (v <- Py.idx item 4 ;; Py.float v) ;;
  Ok [CTime (timestamp * ns_per_ms); CFloat open; CFloat high; CFloat low;
      CFloat close].

Definition _klines_to_price_df (raw : list jrow) : result DataFrame :=
  frame_of (Schema.columns INDEX_PRICE) price_row raw.

Definition funding_row (item : jrow) : result (list cell) :=
  timestamp <- funding_ts item ;;
  symbol <- Py.key item "symbol" ;;
  funding_rate <- (v <- Py.key item "fundingRate" ;; Py.float v) ;;
  Ok [CTime (timestamp * ns_per_ms); of_scalar symbol; CFloat funding_rate;
      CFloat nan].

Definition oi_row (symbol : string) (item : jrow) : result (list cell) :=
  timestamp <- (v <- Py.key item "timestamp" ;; Py.int v) ;;
  open_interest <- (v <- Py.key item "openInterest" ;; Py.float v) ;;
  Ok [CTime (timestamp * ns_per_ms); CStr symbol; CFloat open_interest;
      CFloat nan].

Definition ls_row (item : jrow) : result (list cell) :=
  buy_ratio <- (v <- Py.key item "buyRatio" ;; Py.float v) ;;
  sell_ratio <- (v <- Py.key item "sellRatio" ;; Py.float v) ;;
  timestamp <- (v <- Py.key item "timestamp" ;; Py.int v) ;;
  symbol <- Py.key item "symbol" ;;
  long_short_ratio <-
    (if negb (float_is_zero sell_ratio) then float_div buy_ratio sell_ratio
     else Ok nan) ;;
  Ok [CTime (timestamp * ns_per_ms); of_scalar symbol;
      CFloat long_short_ratio; CFloat buy_ratio; CFloat sell_ratio].

(** The converter's guard, the row loop, then [sort_values]. *)
Definition sorted_frame_of (cols : list string)
    (conv : jrow -> result (list cell)) (raw : list jrow)
  : result DataFrame :=
  if Py.is_empty raw then Ok empty
  else
    rs <- mapM conv raw ;;
    sort_values_timestamp (mkFrame cols rs).

Definition klines_handler (endpoint symbol : string)
    (start_time end_time : Transport.pyval) (interval : option string)
    (convert : list jrow -> result DataFrame) : Http.M R DataFrame :=
  let bybit_interval := translate _INTERVAL_MAP interval in
  start_ms <~ Http.lift (Transport.to_milliseconds start_time) ;;
  end_ms <~ Http.lift (Transport.to_milliseconds end_time) ;;
  raw <~ _paginate_klines endpoint
           [("category", pstr "linear"); ("symbol", pstr symbol);
            ("interval", opt bybit_interval)]
           start_ms end_ms 200 ;;
  Http.lift (convert raw).

Definition _fetch_funding_rate (symbol : string)
    (start_time end_time : Transport.pyval) : Http.M R DataFrame :=
  start_ms <~ Http.lift (Transport.to_milliseconds start_time) ;;
  end_ms <~ Http.lift (Transport.to_milliseconds end_time) ;;
  raw <~ _paginate_funding symbol start_ms end_ms 200 ;;
  Http.lift (frame_of (Schema.columns FUNDING_RATE) funding_row raw).

Definition _fetch_open_interest (symbol : string)
    (start_time end_time : Transport.pyval) (period : option string)
  : Http.M R DataFrame :=
  let bybit_period := translate _PERIOD_MAP period in
  start_ms <~ Http.lift (Transport.to_milliseconds start_time) ;;
  end_ms <~ Http.lift (Transport.to_milliseconds end_time) ;;
  raw <~ _paginate_open_interest symbol start_ms end_ms bybit_period 200 ;;
  Http.lift (sorted_frame_of (Schema.columns OPEN_INTEREST) (oi_row symbol) raw).

Definition _fetch_long_short_ratio (symbol : string)
    (start_time end_time : Transport.pyval) (period : option string)
  : Http.M R DataFrame :=
  let bybit_period := translate _PERIOD_MAP period in
  let params := [("category", pstr "linear"); ("symbol", pstr symbol);
                 ("period", opt bybit_period); ("limit", pint 500)] in
  resp <~ Http.get (Http.mkRequest (BASE_URL ++ "/v5/market/account-ratio")
                                   params) ;;
  result <~ Http.lift (_api_get resp) ;;
  let items := items_of result in
  Http.lift (sorted_frame_of (Schema.columns LONG_SHORT_RATIO) ls_row items).

Definition fetch (data_type : DataType) (symbol : string)
    (start_time end_time : Transport.pyval)
    (interval period : option string) : Http.M R DataFrame :=
  match data_type with
  | OHLCV =>
      klines_handler "/v5/market/kline" symbol start_time end_time interval
                     _klines_to_ohlcv_df
  | INDEX_PRICE =>
      klines_handler "/v5/market/index-price-kline" symbol start_time
                     end_time interval _klines_to_price_df
  | MARK_PRICE =>
      klines_handler "/v5/market/mark-price-kline" symbol start_time
                     end_time interval _klines_to_price_df
  | FUNDING_RATE => _fetch_funding_rate symbol start_time end_time
  | OPEN_INTEREST => _fetch_open_interest symbol start_time end_time period
  | LONG_SHORT_RATIO =>
      _fetch_long_short_ratio symbol start_time end_time period
  | _ =>
      Http.lift (Raise (NotImplementedError
                          ("Bybit adapter does not support "
                           ++ value data_type)))
  end.

End WithRuntime.

End Bybit.

(** ** infra/okx.py *)

Module Okx.

Import Schema Frame Conv.

Definition BASE_URL : string := "https://www.okx.com".

(** The [for quote in ("USDT", "USD")] loop of the three symbol helpers:
    the base and the quote of an upper-cased symbol. *)
Fixpoint split_quote (symbol : string) (quotes : list string)
  : option (string * string) :=
  match quotes with
  | [] => None
  | quote :: quotes' =>
      if Py.ends_with quote symbol
      then Some (Py.drop_suffix quote symbol, quote)
      else split_quote symbol quotes'
  end.

(** [R]: the V5 envelope. *)
Record R : Type := mkR {
  code : option scalar;
  data : option page
}.

(** [_api_get] applied to the body [get] returned. *)
Definition _api_get (resp : R) : result page :=
  let ok := match code resp with
            | Some x => Py.eq_str x "0"
            | None => false
            end in
  if negb ok then Raise (RuntimeError "OKX API error")
  else of_option (data resp) (KeyError "data").

(** The page a response carries. *)
Definition page_of (resp : R) : page :=
  match data resp with
  | Some l => l
  | None => []
  end.

Section WithRuntime.
Context `{RT : PyRuntime}.

Definition _to_inst_id (symbol : string) : result string :=
  let symbol := upper symbol in
  match split_quote symbol ["USDT"; "USD"] with
  | Some (base, quote) => Ok (base ++ "-" ++ quote ++ "-SWAP")
  | None => Raise (ValueError ("Cannot convert symbol to OKX instId: "
                               ++ repr symbol))
  end.

Definition _to_index_inst_id (symbol : string) : result string :=
  let symbol := upper symbol in
  match split_quote symbol ["USDT"; "USD"] with
  | Some (base, quote) => Ok (base ++ "-" ++ quote)
  | None => Raise (ValueError ("Cannot convert symbol to OKX index instId: "
                               ++ repr symbol))
  end.

Definition _to_ccy (symbol : string) : result string :=
  let symbol := upper symbol in
  match split_quote symbol ["USDT"; "USD"] with
  | Some (base, _) => Ok base
  | None => Raise (ValueError ("Cannot extract currency from symbol: "
                               ++ repr symbol))
  end.

Definition _convert_bar (interval : option string) : option string :=
  match interval with
  | None => None
  | Some s =>
      let n := String.length s in
      let last := substring (n - 1) 1 s in
      if String.eqb s "" then Some s
      else if existsb (String.eqb last) ["h"; "d"; "w"]
      then Some (substring 0 (n - 1) s ++ upper last)
      else Some s
  end.

(** [int(r[0])] and [int(r["fundingTime"])]: sort keys and cursors. *)
Definition row_ts (r : jrow) : result Z :=
  v <- Py.idx r 0 ;; Py.int v.

Definition funding_ts (r : jrow) : result Z :=
  v <- Py.key r "fundingTime" ;; Py.int v.

(** [str(n)] of an integer, as a parameter. *)
Definition pdec (z : Z) : Http.pval := pstr (dec z).

Definition klines_loop (endpoint : string)
    (params_base : list (string * Http.pval)) (start_ms end_ms : Z)
    (limit : Z) : Http.M R (list jrow) :=
  Http.paginate
    (fun _ => true)
    (fun cursor =>
       Http.mkRequest (BASE_URL ++ endpoint)
         (params_base ++ [("after", pdec cursor);
                          ("limit", pdec limit)])%list)
    (fun resp cursor =>
       data <- _api_get resp ;;
       if Py.is_empty data then Ok ([], None)
       else
         last <- Py.last_row data ;;
         oldest_ts <- row_ts last ;;
         if (oldest_ts <=? start_ms) || (Py.len data <? limit)
         then Ok (data, None)
         else Ok (data, Some oldest_ts))
    end_ms.

Definition _paginate_klines (endpoint : string)
    (params_base : list (string * Http.pval)) (start_ms end_ms : Z)
    (limit : Z) : Http.M R (list jrow) :=
  all_data <~ klines_loop endpoint params_base start_ms end_ms limit ;;
  Http.lift (sort_key row_ts all_data).

Definition funding_loop (params_base : list (string * Http.pval))
    (start_ms end_ms : Z) (limit : Z) : Http.M R (list jrow) :=
  Http.paginate
    (fun _ => true)
    (fun cursor =>
       Http.mkRequest (BASE_URL ++ "/api/v5/public/funding-rate-history")
         (params_base ++ [("after", pdec cursor);
                          ("limit", pdec limit)])%list)
    (fun resp cursor =>
       data <- _api_get resp ;;
       if Py.is_empty data then Ok ([], None)
       else
         last <- Py.last_row data ;;
         oldest_ts <- funding_ts last ;;
         if (oldest_ts <=? start_ms) || (Py.len data <? limit)
         then Ok (data, None)
         else Ok (data, Some oldest_ts))
    end_ms.

Definition _paginate_funding (params_base : list (string * Http.pval))
    (start_ms end_ms : Z) (limit : Z) : Http.M R (list jrow) :=
  all_data <~ funding_loop params_base start_ms end_ms limit ;;
  Http.lift (sort_key funding_ts all_data).

Definition rubik_loop (endpoint : string)
    (params_base : list (string * Http.pval)) (start_ms end_ms : Z)
  : Http.M R (list jrow) :=
  Http.paginate
    (fun _ => true)
    (fun current_end =>
       Http.mkRequest (BASE_URL ++ endpoint)
         (params_base ++ [("begin", pdec start_ms);
                          ("end", pdec current_end)])%list)
    (fun resp current_end =>
       data <- _api_get resp ;;
       if Py.is_empty data then Ok ([], None)
       else
         last <- Py.last_row data ;;
         oldest_ts <- row_ts last ;;
         if (oldest_ts <=? start_ms) || (Py.len data <? 100)
         then Ok (data, None)
         else Ok (data, Some (oldest_ts - 1)))
    end_ms.

Definition _paginate_rubik (endpoint : string)
    (params_base : list (string * Http.pval)) (start_ms end_ms : Z)
  : Http.M R (list jrow) :=
  all_data <~ rubik_loop endpoint params_base start_ms end_ms ;;
  Http.lift (sort_key row_ts all_data).

(** The requests of the three loops at a cursor. *)
Definition klines_request (endpoint : string)
    (params_base : list (string * Http.pval)) (limit cursor : Z)
  : Http.request :=
  Http.mkRequest (BASE_URL ++ endpoint)
    (params_base ++ [("after", pdec cursor); ("limit", pdec limit)])%list.

Definition funding_request (params_base : list (string * Http.pval))
    (limit cursor : Z) : Http.request :=
  Http.mkRequest (BASE_URL ++ "/api/v5/public/funding-rate-history")
    (params_base ++ [("after", pdec cursor); ("limit", pdec limit)])%list.


(** A response after which the kline loop asks again, for what is older
    than [next]: a success with a full page whose last, oldest, row is of
    [next], after the start of the window. *)
Definition klines_goes_on (limit start_ms : Z) (resp : R) (next : Z) : Prop :=
  exists data last,
    _api_get resp = Ok data
    /\ Http.full_page limit data
    /\ Py.last_row data = Ok last
    /\ row_ts last = Ok next
    /\ start_ms < next.

Definition funding_goes_on (limit start_ms : Z) (resp : R) (next : Z) : Prop :=
  exists data last,
    _api_get resp = Ok data
    /\ Http.full_page limit data
    /\ Py.last_row data = Ok last
    /\ funding_ts last = Ok next
    /\ start_ms < next.


(** [pd.to_datetime(series.astype(int), unit="ms", utc=True)] on one
    element. *)
Definition ts_cell (x : scalar) : result cell :=
  z <- Py.astype_int x ;; Ok (CTime (z * ns_per_ms)).

Definition ohlcv_row (r : jrow) : result (list cell) :=
  match r with
  | JArr [t; o; h; l; c; v; _; qv; _] =>
      timestamp <- ts_cell t ;;
      open <- Py.astype_float o ;;
      high <- Py.astype_float h ;;
      low <- Py.astype_float l ;;
      close <- Py.astype_float c ;;
      volume <- Py.astype_float v ;;
      quote_volume <- Py.astype_float qv ;;
      Ok [timestamp; CFloat open; CFloat high; CFloat low; CFloat close;
          CFloat volume; timestamp; CFloat quote_volume; CInt 0;
          CFloat nan; CFloat nan]
  | _ => Raise (Unmodelled "kline row that is not a 9-element array")
  end.

Definition _klines_to_ohlcv_df (raw : list jrow) : result DataFrame :=
  frame_of (Schema.columns OHLCV) ohlcv_row raw.

Definition price_row (r : jrow) : result (list cell) :=
  match r with
  | JArr [t; o; h; l; c; _; _; _; _] =>
      timestamp <- ts_cell t ;;
      open <- Py.astype_float o ;;
      high <- Py.astype_float h ;;
      low <- Py.astype_float l ;;
      close <- Py.astype_float c ;;
      Ok [timestamp; CFloat open; CFloat high; CFloat low; CFloat close]
  | _ => Raise (Unmodelled "kline row that is not a 9-element array")
  end.

Definition _klines_to_price_df (raw : list jrow) : result DataFrame :=
  frame_of ["timestamp"; "open"; "high"; "low"; "close"] price_row raw.

Definition funding_row (symbol : string) (r : jrow) : result (list cell) :=
  t <- field r "fundingTime" ;;
  timestamp <- ts_cell t ;;
  x <- field r "fundingRate" ;;
  funding_rate <- Py.astype_float x ;;
  Ok [timestamp; CStr symbol; CFloat funding_rate; CFloat nan].

Definition oi_row (symbol : string) (r : jrow) : result (list cell) :=
  match r with
  | JArr [ts; oi; oiCcy] =>
      timestamp <- ts_cell ts ;;
      open_interest <- Py.astype_float oi ;;
      open_interest_value <- Py.astype_float oiCcy ;;
      Ok [timestamp; CStr symbol; CFloat open_interest;
          CFloat open_interest_value]
  | _ => Raise (Unmodelled "row that is not a 3-element array")
  end.

Definition ls_row (symbol : string) (r : jrow) : result (list cell) :=
  match r with
  | JArr [ts; ratio] =>
      timestamp <- ts_cell ts ;;
      long_short_ratio <- Py.astype_float ratio ;;
      let one := Fin 1 in
      let long_account :=
        np_div long_short_ratio (float_add one long_short_ratio) in
      let short_account := np_div one (float_add one long_short_ratio) in
      Ok [timestamp; CStr symbol; CFloat long_short_ratio;
          CFloat long_account; CFloat short_account]
  | _ => Raise (Unmodelled "row that is not a 2-element array")
  end.

Definition taker_row (r : jrow) : result (list cell) :=
  match r with
  | JArr [ts; sellVol; buyVol] =>
      timestamp <- ts_cell ts ;;
      buy_vol <- Py.astype_float buyVol ;;
      sell_vol <- Py.astype_float sellVol ;;
      let buy_sell_ratio := np_div buy_vol sell_vol in
      Ok [timestamp; CFloat buy_sell_ratio; CFloat buy_vol; CFloat sell_vol]
  | _ => Raise (Unmodelled "row that is not a 3-element array")
  end.

Definition klines_handler (endpoint : string)
    (to_id : string -> result string) (symbol : string)
    (start_time end_time : Transport.pyval) (interval : option string)
    (convert : list jrow -> result DataFrame) : Http.M R DataFrame :=
  inst_id <~ Http.lift (to_id symbol) ;;
  let bar := _convert_bar interval in
  start_ms <~ Http.lift (Transport.to_milliseconds start_time) ;;
  end_ms <~ Http.lift (Transport.to_milliseconds end_time) ;;
  raw <~ _paginate_klines endpoint
           [("instId", pstr inst_id); ("bar", opt bar)] start_ms end_ms 100 ;;
  Http.lift (convert raw).

Definition _fetch_funding_rate (symbol : string)
    (start_time end_time : Transport.pyval) : Http.M R DataFrame :=
  inst_id <~ Http.lift (_to_inst_id symbol) ;;
  start_ms <~ Http.lift (Transport.to_milliseconds start_time) ;;
  end_ms <~ Http.lift (Transport.to_milliseconds end_time) ;;
  raw <~ _paginate_funding [("instId", pstr inst_id)] start_ms end_ms 100 ;;
  Http.lift (frame_of (Schema.columns FUNDING_RATE) (funding_row symbol) raw).

Definition rubik_handler (endpoint : string)
    (params_base : result (list (string * Http.pval)))
    (start_time end_time : Transport.pyval)
    (convert : list jrow -> result DataFrame) : Http.M R DataFrame :=
  params <~ Http.lift params_base ;;
  start_ms <~ Http.lift (Transport.to_milliseconds start_time) ;;
  end_ms <~ Http.lift (Transport.to_milliseconds end_time) ;;
  raw <~ _paginate_rubik endpoint params start_ms end_ms ;;
  Http.lift (convert raw).

Definition fetch (data_type : DataType) (symbol : string)
    (start_time end_time : Transport.pyval)
    (interval period : option string) : Http.M R DataFrame :=
  match data_type with
  | OHLCV =>
      klines_handler "/api/v5/market/history-candles" _to_inst_id symbol
                     start_time end_time interval _klines_to_ohlcv_df
  | INDEX_PRICE =>
      klines_handler "/api/v5/market/index-candles" _to_index_inst_id symbol
                     start_time end_time interval _klines_to_price_df
  | MARK_PRICE =>
      klines_handler "/api/v5/market/mark-price-candles" _to_inst_id symbol
                     start_time end_time interval _klines_to_price_df
  | FUNDING_RATE => _fetch_funding_rate symbol start_time end_time
  | OPEN_INTEREST =>
      rubik_handler "/api/v5/rubik/stat/contracts-open-interest-history"
        (inst_id <- _to_inst_id symbol ;;
         Ok [("instId", pstr inst_id); ("period", opt (_convert_bar period))])
        start_time end_time
        (frame_of (Schema.columns OPEN_INTEREST) (oi_row symbol))
  | LONG_SHORT_RATIO =>
      rubik_handler "/api/v5/rubik/stat/contracts-long-short-account-ratio"
        (inst_id <- _to_inst_id symbol ;;
         Ok [("instId", pstr inst_id); ("period", opt (_convert_bar period))])
        start_time end_time
        (frame_of (Schema.columns LONG_SHORT_RATIO) (ls_row symbol))
  | TAKER_BUY_SELL =>
      rubik_handler "/api/v5/rubik/stat/taker-volume"
        (ccy <- _to_ccy symbol ;;
         Ok [("ccy", pstr ccy); ("instType", pstr "CONTRACTS");
             ("period", opt (_convert_bar period))])
        start_time end_time
        (frame_of (Schema.columns TAKER_BUY_SELL) taker_row)
  | _ =>
      Http.lift (Raise (ValueError
                          ("OKX adapter does not support <DataType."
                           ++ name data_type ++ ": '" ++ value data_type
                           ++ "'>")))
  end.

End WithRuntime.

End Okx.

(** ** infra/kraken.py *)

Module Kraken.

Import Schema Frame Conv.

Definition SPOT_BASE_URL : string := "https://api.kraken.com/0/public".
Definition FUTURES_BASE_URL : string :=
  "https://futures.kraken.com/derivatives/api/v3".

Definition _INTERVAL_MAP : list (string * Z) :=
  [("1m", 1); ("5m", 5); ("15m", 15); ("30m", 30); ("1h", 60); ("4h", 240);
   ("1d", 1440); ("1w", 10080)].

(** A value of the Spot [result] object: the rows of a pair, or a scalar
    such as [last]. *)
Inductive entry : Type :=
| ERows (rows : page)
| EVal (x : scalar).

(** The ["result"] member: an object for the Spot API, the string
    ["success"] for the Futures API. *)
Inductive result_member : Type :=
| RObject (entries : list (string * entry))
| RString (s : string).

(** [R]: a body of either API. *)
Record R : Type := mkR {
  error : list string;
  result_ : option result_member;
  rates : option page
}.

(** [_api_get_spot] applied to the body [get] returned. *)
Definition _api_get_spot (data : R) : result (list (string * entry)) :=
  if negb (Py.is_empty (error data)) then Raise (RuntimeError "Kraken API error")
  else
    match result_ data with
    | None => Raise (KeyError "result")
    | Some (RObject entries) => Ok entries
    | Some (RString _) =>
        Raise (AttributeError "'str' object has no attribute 'get'")
    end.

(** The rows a Spot response carries: those of the first key that is not
    ["last"]. *)
Definition page_of (data : R) : page :=
  match result_ data with
  | Some (RObject entries) =>
      match filter (fun kv => negb (String.eqb (fst kv) "last")) entries with
      | (_, ERows rows) :: _ => rows
      | _ => []
      end
  | _ => []
  end.

(** The [last] of a Spot response is not a float: an integer, as the
    exchange sends it, absent, or a value the comparison with the cursor
    refuses. *)
Definition integral_last (data : R) : Prop :=
  match result_ data with
  | Some (RObject entries) =>
      forall f,
        Py.get_default "last" entries (EVal (SInt 0)) <> EVal (SFloat f)
  | _ => True
  end.

(** [_api_get_futures] applied to the body [get] returned. *)
Definition _api_get_futures (data : R) : result R :=
  match result_ data with
  | Some (RString s) =>
      if String.eqb s "success" then Ok data
      else Raise (RuntimeError "Kraken Futures API error")
  | _ => Raise (RuntimeError "Kraken Futures API error")
  end.

Section WithRuntime.
Context `{RT : PyRuntime}.

(** [r[0]], the second a candle opens at. *)
Definition opens_at (r : jrow) : result Z :=
  x <- Py.idx r 0 ;; Py.num x.

(** [[r for r in rows if r[0] < end_s]] *)
Fixpoint before (end_s : Z) (rows : page) : result page :=
  match rows with
  | [] => Ok []
  | r :: rows' =>
      x <- Py.idx r 0 ;;
      t <- Py.number_of x ;;
      rest <- before end_s rows' ;;
      Ok (if Py.num_lt t (Py.NInt end_s) then r :: rest else rest)
  end.

(** The body of the OHLC loop after the call.  [current_since] is the
    integer [start_s] at first and then whatever number [last] was. *)
Definition ohlc_step (end_s : Z) (resp : R) (current_since : Py.number)
  : result (list jrow * option Py.number) :=
  result <- _api_get_spot resp ;;
  let last := Py.get_default "last" result (EVal (SInt 0)) in
  let pair_keys :=
    filter (fun k => negb (String.eqb k "last")) (map fst result) in
  match pair_keys with
  | [] => Ok ([], None)
  | k :: _ =>
      match Py.get_default k result (EVal SNull) with
      | EVal x =>
          if negb (Py.truthy x) then Ok ([], None)
          else Raise (TypeError "rows of a pair are not a list of arrays")
      | ERows rows =>
          if Py.is_empty rows then Ok ([], None)
          else
            rows <- before end_s rows ;;
            last <- match last with
                    | EVal x => Py.number_of x
                    | ERows _ =>
                        Raise (TypeError
                                 "'<=' not supported between 'list' and 'int'")
                    end ;;
            if Py.num_le last current_since then Ok (rows, None)
            else Ok (rows, Some last)
      end
  end.

Definition ohlc_loop (symbol : string) (kraken_interval : Z)
    (start_s end_s : Z) : Http.M R (list jrow) :=
  Http.paginate
    (fun current_since => Py.num_lt current_since (Py.NInt end_s))
    (fun current_since =>
       Http.mkRequest (SPOT_BASE_URL ++ "/OHLC")
         [("pair", pstr symbol); ("interval", pint kraken_interval);
          ("since", Http.PVal (Py.scalar_of current_since))])
    (ohlc_step end_s)
    (Py.NInt start_s).



Definition ohlcv_row (r : jrow) : result (list cell) :=
  match r with
  | JArr [t; o; h; l; c; _; v; count] =>
      timestamp <- to_datetime ns_per_s t ;;
      open <- Py.astype_float o ;;
      high <- Py.astype_float h ;;
      low <- Py.astype_float l ;;
      close <- Py.astype_float c ;;
      volume <- Py.astype_float v ;;
      trades <- Py.astype_int count ;;
      Ok [timestamp; CFloat open; CFloat high; CFloat low; CFloat close;
          CFloat volume; CFloat nan; CFloat nan; CInt trades; CFloat nan;
          CFloat nan]
  | _ => Raise (Unmodelled "OHLC row that is not an 8-element array")
  end.

Definition _ohlcv_to_df (raw : list jrow) : result DataFrame :=
  frame_of (Schema.columns OHLCV) ohlcv_row raw.

Definition _fetch_ohlcv (symbol : string)
    (start_time end_time : Transport.pyval) (interval : option string)
  : Http.M R DataFrame :=
  match match interval with
        | Some i => Py.lookup i _INTERVAL_MAP
        | None => None
        end with
  | None =>
      Http.lift (Raise (ValueError
        ("Unsupported interval: "
         ++ match interval with Some i => repr i | None => "None" end
         ++ ". Supported: "
         ++ join ", " (sorted_strs (map fst _INTERVAL_MAP)))))
  | Some kraken_interval =>
      start_ms <~ Http.lift (Transport.to_milliseconds start_time) ;;
      let start_s := start_ms / 1000 in
      end_ms <~ Http.lift (Transport.to_milliseconds end_time) ;;
      let end_s := end_ms / 1000 in
      all_rows <~ ohlc_loop symbol kraken_interval start_s end_s ;;
      Http.lift (_ohlcv_to_df all_rows)
  end.

(** [pd.to_datetime(series, utc=True)] on one element of the [timestamp]
    column of the rates. *)
Definition rate_time (r : jrow) : result (option Z) :=
  x <- field r "timestamp" ;;
  match x with
  | SStr s => t <- of_option (to_datetime_str s)
                     (ValueError "time data does not match a known format") ;;
              Ok (Some t)
  | SInt z => Ok (Some z)
  | SNull => Ok None
  | SFloat _ => Raise (Unmodelled "to_datetime of a float")
  end.

(** The mask [(df["timestamp"] >= start_dt) & (df["timestamp"] < end_dt)];
    [NaT] compares false. *)
Definition in_window (start_ms end_ms : Z) (t : option Z) : bool :=
  match t with
  | Some t => (start_ms * ns_per_ms <=? t) && (t <? end_ms * ns_per_ms)
  | None => false
  end.

Definition rate_row (symbol : string) (tr : option Z * jrow)
  : result (list cell) :=
  x <- field (snd tr) "fundingRate" ;;
  funding_rate <- Py.astype_float x ;;
  Ok [match fst tr with Some t => CTime t | None => CNaT end;
      CStr symbol; CFloat funding_rate; CFloat nan].

Definition _fetch_funding_rate (symbol : string)
    (start_time end_time : Transport.pyval) : Http.M R DataFrame :=
  resp <~ Http.get (Http.mkRequest
                      (FUTURES_BASE_URL ++ "/historicalfundingrates")
                      [("symbol", pstr symbol)]) ;;
  data <~ Http.lift (_api_get_futures resp) ;;
  let rates := match rates data with Some l => l | None => [] end in
  if Py.is_empty rates then Http.ret empty
  else
    times <~ Http.lift (mapM rate_time rates) ;;
    start_ms <~ Http.lift (Transport.to_milliseconds start_time) ;;
    end_ms <~ Http.lift (Transport.to_milliseconds end_time) ;;
    let kept := filter (fun tr => in_window start_ms end_ms (fst tr))
                       (combine times rates) in
    if Py.is_empty kept then Http.ret empty
    else
      rs <~ Http.lift (mapM (rate_row symbol) kept) ;;
      Http.ret (mkFrame (Schema.columns FUNDING_RATE) rs).

Definition fetch (data_type : DataType) (symbol : string)
    (start_time end_time : Transport.pyval)
    (interval period : option string) : Http.M R DataFrame :=
  match data_type with
  | OHLCV => _fetch_ohlcv symbol start_time end_time interval
  | FUNDING_RATE => _fetch_funding_rate symbol start_time end_time
  | _ => Http.lift (Raise (KeyError ("DataType." ++ name data_type)))
  end.

End WithRuntime.

End Kraken.

(** ** infra/coinbase.py *)

Module Coinbase.

Import Schema Frame Conv.

Definition BASE_URL : string := "https://api.exchange.coinbase.com".

Definition _INTERVAL_TO_GRANULARITY : list (string * Z) :=
  [("1m", 60); ("5m", 300); ("15m", 900); ("1h", 3600); ("6h", 21600);
   ("1d", 86400)].

Definition _MAX_CANDLES : Z := 300.

(** [get] returns the JSON array of candles. *)
Definition R : Type := page.

Section WithRuntime.
Context `{RT : PyRuntime}.

Definition _to_product_id (symbol : string) : result string :=
  if contains "-" symbol then Ok (upper symbol)
  else
    let sym := upper symbol in
    match Okx.split_quote sym ["USDT"; "USD"] with
    | Some (base, quote) => Ok (base ++ "-" ++ quote)
    | None =>
        Raise (ValueError
          ("Cannot convert symbol " ++ repr symbol
           ++ " to Coinbase product ID. "
           ++ "Expected format like 'BTCUSDT', 'BTCUSD', or 'BTC-USD'."))
    end.

Definition chunk_end (granularity end_s current_start_s : Z) : Z :=
  Z.min (current_start_s + granularity * _MAX_CANDLES) end_s.

Definition _paginate_candles (product_id : string) (granularity : Z)
    (start_ms end_ms : Z) : Http.M R (list jrow) :=
  let end_s := end_ms / 1000 in
  Http.paginate
    (fun current_start_s => current_start_s <? end_s)
    (fun current_start_s =>
       Http.mkRequest (BASE_URL ++ "/products/" ++ product_id ++ "/candles")
         [("start", Http.PTime (current_start_s * 1000));
          ("end", Http.PTime (chunk_end granularity end_s current_start_s
                              * 1000));
          ("granularity", pint granularity)])
    (fun data current_start_s =>
       if Py.is_empty data then Ok ([], None)
       else Ok (data, Some (chunk_end granularity end_s current_start_s)))
    (start_ms / 1000).

Definition candles_request (product_id : string) (granularity end_s : Z)
    (current_start_s : Z) : Http.request :=
  Http.mkRequest (BASE_URL ++ "/products/" ++ product_id ++ "/candles")
    [("start", Http.PTime (current_start_s * 1000));
     ("end", Http.PTime (chunk_end granularity end_s current_start_s * 1000));
     ("granularity", pint granularity)].

(** A page after which the candle loop, asked from [cur], asks again from
    [next]: any page that is not empty, when the chunk asked for ends
    before the window does. *)
Definition candles_goes_on (granularity end_s : Z) (cur : Z) (data : R)
    (next : Z) : Prop :=
  data <> [] /\ next = chunk_end granularity end_s cur /\ next < end_s.

(** The value [sort_values("time")] orders a candle by. *)
Definition candle_time (r : jrow) : result Z :=
  match r with
  | JArr [SInt t; _; _; _; _; _] => Ok t
  | JArr [_; _; _; _; _; _] => Raise (Unmodelled "non-integer candle time")
  | _ => Raise (Unmodelled "candle that is not a 6-element array")
  end.

Definition candle_row (r : jrow) : result (list cell) :=
  match r with
  | JArr [time; low; high; open; close; volume] =>
      timestamp <- to_datetime ns_per_s time ;;
      open <- Py.astype_float open ;;
      high <- Py.astype_float high ;;
      low <- Py.astype_float low ;;
      close <- Py.astype_float close ;;
      volume <- Py.astype_float volume ;;
      Ok [timestamp; CFloat open; CFloat high; CFloat low; CFloat close;
          CFloat volume; CNaT; CFloat nan; CInt 0; CFloat nan; CFloat nan]
  | _ => Raise (Unmodelled "candle that is not a 6-element array")
  end.

Definition _candles_to_df (raw : list jrow) : result DataFrame :=
  if Py.is_empty raw then Ok empty
  else
    sorted <- sort_key candle_time raw ;;
    rs <- mapM candle_row sorted ;;
    Ok (mkFrame (Schema.columns OHLCV) rs).

Definition _fetch_ohlcv (symbol : string)
    (start_time end_time : Transport.pyval) (interval : option string)
  : Http.M R DataFrame :=
  match match interval with
        | Some i => Py.lookup i _INTERVAL_TO_GRANULARITY
        | None => None
        end with
  | None =>
      Http.lift (Raise (ValueError
        ("Unsupported interval "
         ++ match interval with Some i => repr i | None => "None" end
         ++ " for Coinbase. Supported: "
         ++ join ", " (sorted_strs (map fst _INTERVAL_TO_GRANULARITY)))))
  | Some granularity =>
      product_id <~ Http.lift (_to_product_id symbol) ;;
      start_ms <~ Http.lift (Transport.to_milliseconds start_time) ;;
      end_ms <~ Http.lift (Transport.to_milliseconds end_time) ;;
      raw <~ _paginate_candles product_id granularity start_ms end_ms ;;
      Http.lift (_candles_to_df raw)
  end.

Definition fetch (data_type : DataType) (symbol : string)
    (start_time end_time : Transport.pyval)
    (interval period : option string) : Http.M R DataFrame :=
  match data_type with
  | OHLCV => _fetch_ohlcv symbol start_time end_time interval
  | _ => Http.lift (Raise (KeyError ("DataType." ++ name data_type)))
  end.

End WithRuntime.

End Coinbase.

(** ** infra/phemex.py *)

Module Phemex.

Import Schema Frame Conv.

Definition BASE_URL : string := "https://api.phemex.com".

Definition _INTERVAL_MAP : list (string * Z) :=
  [("1m", 60); ("5m", 300); ("15m", 900); ("30m", 1800); ("1h", 3600);
   ("4h", 14400); ("1d", 86400)].

Definition _SUPPORTED_TYPES : list DataType := [OHLCV; FUNDING_RATE].

(** [R]: the envelope; [data_rows] is [data["rows"]], absent when [data]
    or [rows] is. *)
Record R : Type := mkR {
  code : option scalar;
  msg : option string;
  data_rows : option page
}.

(** [_api_get] applied to the body [get] returned, followed by
    [data.get("rows", [])]. *)
Definition _api_get_rows (resp : R) : result page :=
  let code := match code resp with
              | Some x => x
              | None => SInt (-1)
              end in
  if negb (Py.eq_int code 0) then
    Raise (RuntimeError ("Phemex API error: "
                         ++ match msg resp with
                            | Some m => m
                            | None => "unknown"
                            end))
  else Ok (match data_rows resp with Some l => l | None => [] end).

(** The page a response carries. *)
Definition page_of (resp : R) : page :=
  match data_rows resp with
  | Some l => l
  | None => []
  end.

(** The time of the last row of the page is not a float. *)
Definition integral_times (resp : R) : Prop :=
  forall last f,
    Py.last_row (page_of resp) = Ok last -> Py.idx last 0 <> Ok (SFloat f).

Section WithRuntime.
Context `{RT : PyRuntime}.

Definition _paginate_klines (symbol : string) (resolution : Z)
    (start_s end_s : Z) : Http.M R (list jrow) :=
  Http.paginate
    (fun current => Py.num_lt current (Py.NInt end_s))
    (fun current =>
       Http.mkRequest (BASE_URL ++ "/exchange/public/md/v2/kline/list")
         [("symbol", pstr symbol); ("resolution", pint resolution);
          ("from", Http.PVal (Py.scalar_of current)); ("to", pint end_s)])
    (fun resp current =>
       rows <- _api_get_rows resp ;;
       if Py.is_empty rows then Ok ([], None)
       else
         last <- Py.last_row rows ;;
         x <- Py.idx last 0 ;;
         last_ts <- Py.number_of x ;;
         next_start <- Py.add_int last_ts resolution ;;
         if Py.num_le next_start current then Ok (rows, None)
         else Ok (rows, Some next_start))
    (Py.NInt start_s).

Definition klines_request (symbol : string) (resolution end_s : Z)
    (current : Py.number) : Http.request :=
  Http.mkRequest (BASE_URL ++ "/exchange/public/md/v2/kline/list")
    [("symbol", pstr symbol); ("resolution", pint resolution);
     ("from", Http.PVal (Py.scalar_of current)); ("to", pint end_s)].

(** A response after which the kline loop, asked from [cur], asks again
    from [next]: a success with rows, the time of the last of them plus
    the resolution being [next], not at or before [cur] and before the
    end. *)
Definition klines_goes_on (resolution end_s : Z) (cur : Py.number) (resp : R)
    (next : Py.number) : Prop :=
  exists rows last x last_ts,
    _api_get_rows resp = Ok rows
    /\ rows <> []
    /\ Py.last_row rows = Ok last
    /\ Py.idx last 0 = Ok x
    /\ Py.number_of x = Ok last_ts
    /\ Py.add_int last_ts resolution = Ok next
    /\ Py.num_le next cur = false
    /\ Py.num_lt next (Py.NInt end_s) = true.

Definition kline_row (row : jrow) : result (list cell) :=
  t <- Py.idx row 0 ;;
  open <- (v <- Py.idx row 3 ;; Py.float v) ;;
  high <- (v <- Py.idx row 4 ;; Py.float v) ;;
  low <- (v <- Py.idx row 5 ;; Py.float v) ;;
  close <- (v <- Py.idx row 6 ;; Py.float v) ;;
  volume <- (v <- Py.idx row 7 ;; Py.float v) ;;
  quote_volume <- (v <- Py.idx row 8 ;; Py.float v) ;;
  timestamp <- to_datetime ns_per_s t ;;
  Ok [timestamp; CFloat open; CFloat high; CFloat low; CFloat close;
      CFloat volume; CNaT; CFloat quote_volume; CInt 0; CFloat nan;
      CFloat nan].

Definition _klines_to_df (raw : list jrow) : result DataFrame :=
  frame_of (Schema.columns OHLCV) kline_row raw.

Definition _fetch_ohlcv (symbol : string)
    (start_time end_time : Transport.pyval) (interval : option string)
  : Http.M R DataFrame :=
  match interval with
  | None => Http.lift (Raise (ValueError "interval is required for OHLCV"))
  | Some i =>
      match Py.lookup i _INTERVAL_MAP with
      | None =>
          Http.lift (Raise (ValueError
            ("Unsupported interval " ++ repr i ++ ". Supported: "
             ++ join ", " (map fst _INTERVAL_MAP))))
      | Some resolution =>
          start_ms <~ Http.lift (Transport.to_milliseconds start_time) ;;
          let start_s := start_ms / 1000 in
          end_ms <~ Http.lift (Transport.to_milliseconds end_time) ;;
          let end_s := end_ms / 1000 in
          raw <~ _paginate_klines symbol resolution start_s end_s ;;
          Http.lift (_klines_to_df raw)
      end
  end.

Definition _paginate_funding_rate (fr_symbol : string) (start_ms end_ms : Z)
    (limit : Z) : Http.M R (list jrow) :=
  Http.paginate
    (fun current => current <? end_ms)
    (fun current =>
       Http.mkRequest
         (BASE_URL ++ "/api-data/public/data/funding-rate-history")
         [("symbol", pstr fr_symbol); ("start", pint current);
          ("end", pint end_ms); ("limit", pint limit)])
    (fun resp current =>
       rows <- _api_get_rows resp ;;
       if Py.is_empty rows then Ok ([], None)
       else if Py.len rows <? limit then Ok (rows, None)
       else
         last <- Py.last_row rows ;;
         x <- Py.key last "fundingTime" ;;
         t <- Py.num x ;;
         Ok (rows, Some (t + 1)))
    start_ms.

Definition funding_request (fr_symbol : string) (end_ms limit current : Z)
  : Http.request :=
  Http.mkRequest (BASE_URL ++ "/api-data/public/data/funding-rate-history")
    [("symbol", pstr fr_symbol); ("start", pint current);
     ("end", pint end_ms); ("limit", pint limit)].

(** A response after which the funding loop asks again, from [next]: a
    success with a full page whose last row is of [next - 1], and [next]
    is before the end. *)
Definition funding_goes_on (limit end_ms : Z) (resp : R) (next : Z) : Prop :=
  exists rows last,
    _api_get_rows resp = Ok rows
    /\ Http.full_page limit rows
    /\ Py.last_row rows = Ok last
    /\ Py.key last "fundingTime" = Ok (SInt (next - 1))
    /\ next < end_ms.

Definition funding_row (symbol : string) (r : jrow) : result (list cell) :=
  t <- field r "fundingTime" ;;
  timestamp <- to_datetime ns_per_ms t ;;
  x <- field r "fundingRate" ;;
  funding_rate <- Py.astype_float x ;;
  Ok [timestamp; CStr symbol; CFloat funding_rate; CFloat nan].

Definition _fetch_funding_rate (symbol : string)
    (start_time end_time : Transport.pyval) : Http.M R DataFrame :=
  start_ms <~ Http.lift (Transport.to_milliseconds start_time) ;;
  end_ms <~ Http.lift (Transport.to_milliseconds end_time) ;;
  let fr_symbol := "." ++ symbol ++ "FR8H" in
  raw <~ _paginate_funding_rate fr_symbol start_ms end_ms 100 ;;
  Http.lift (frame_of (Schema.columns FUNDING_RATE) (funding_row symbol) raw).

Definition fetch (data_type : DataType) (symbol : string)
    (start_time end_time : Transport.pyval)
    (interval period : option string) : Http.M R DataFrame :=
  if negb (existsb (DataType_eqb data_type) _SUPPORTED_TYPES) then
    Http.lift (Raise (ValueError
      ("Phemex does not support " ++ repr (value data_type)
       ++ ". Supported: " ++ join ", " (map value _SUPPORTED_TYPES))))
  else
    match data_type with
    | OHLCV => _fetch_ohlcv symbol start_time end_time interval
    | FUNDING_RATE => _fetch_funding_rate symbol start_time end_time
    | _ => Http.lift (Raise (KeyError ("DataType." ++ name data_type)))
    end.

End WithRuntime.

End Phemex.

(** ** infra/upbit.py *)

Module Upbit.

Import Schema Frame Conv.

Definition BASE_URL : string := "https://api.upbit.com/v1".

Definition _INTERVAL_ENDPOINTS : list (string * string) :=
  [("1m", "/candles/minutes/1"); ("3m", "/candles/minutes/3");
   ("5m", "/candles/minutes/5"); ("15m", "/candles/minutes/15");
   ("30m", "/candles/minutes/30"); ("1h", "/candles/minutes/60");
   ("4h", "/candles/minutes/240"); ("1d", "/candles/days");
   ("1w", "/candles/weeks"); ("1M", "/candles/months")].

(** [get] returns the JSON array of candle records. *)
Definition R : Type := page.

Definition is_upper_alnum (c : ascii) : bool :=
  let n := nat_of_ascii c in
  is_upper c || ((48 <=? n)%nat && (n <=? 57)%nat).

Fixpoint all_chars (p : ascii -> bool) (s : string) : bool :=
  match s with
  | EmptyString => true
  | String c s' => p c && all_chars p s'
  end.

(** [_SYMBOL_PATTERN.match]: a non-empty run of [[A-Z0-9]] followed by one
    of the four quotes; [$] also matches before one final newline. *)
Definition match_symbol (s : string) : option (string * string) :=
  let nl := String (ascii_of_nat 10) EmptyString in
  let s := if Py.ends_with nl s then Py.drop_suffix nl s else s in
  match Okx.split_quote s ["KRW"; "USDT"; "BTC"; "ETH"] with
  | Some (base, quote) =>
      if negb (String.eqb base "") && all_chars is_upper_alnum base
      then Some (base, quote) else None
  | None => None
  end.

Section WithRuntime.
Context `{RT : PyRuntime}.

Definition _to_upbit_market (symbol : string) : result string :=
  if contains "-" symbol then Ok symbol
  else
    match match_symbol (upper symbol) with
    | None =>
        Raise (ValueError
          ("Cannot parse symbol " ++ repr symbol ++ ". "
           ++ "Use Binance format (e.g. 'BTCUSDT') or Upbit format "
           ++ "(e.g. 'KRW-BTC')."))
    | Some (base, quote) => Ok (quote ++ "-" ++ base)
    end.

(** [c["timestamp"]] as the integer the loop compares. *)
Definition candle_ts (c : jrow) : result Z :=
  x <- Py.key c "timestamp" ;; Py.num x.

(** [[c for c in data if c["timestamp"] >= start_ms]] *)
Fixpoint not_before (start_ms : Z) (data : page) : result page :=
  match data with
  | [] => Ok []
  | c :: data' =>
      t <- candle_ts c ;;
      rest <- not_before start_ms data' ;;
      Ok (if t >=? start_ms then c :: rest else rest)
  end.

(** [min(data, key=...)["timestamp"]] of a non-empty page. *)
Definition oldest_of (data : page) : result Z :=
  ts <- mapM candle_ts data ;;
  match ts with
  | [] => Raise (ValueError "min() arg is an empty sequence")
  | t :: ts' => Ok (fold_left Z.min ts' t)
  end.

Definition _paginate_candles (endpoint market : string)
    (start_ms end_ms : Z) (count : Z) : Http.M R (list jrow) :=
  Http.paginate
    (fun _ => true)
    (fun current_to_ms =>
       Http.mkRequest (BASE_URL ++ endpoint)
         [("market", pstr market); ("to", Http.PTime current_to_ms);
          ("count", pint count)])
    (fun data current_to_ms =>
       if Py.is_empty data then Ok ([], None)
       else
         filtered <- not_before start_ms data ;;
         if Py.len data <? count then Ok (filtered, None)
         else
           oldest_ms <- oldest_of data ;;
           if oldest_ms <=? start_ms then Ok (filtered, None)
           else Ok (filtered, Some oldest_ms))
    end_ms.

Definition candles_request (endpoint market : string) (count : Z)
    (current_to_ms : Z) : Http.request :=
  Http.mkRequest (BASE_URL ++ endpoint)
    [("market", pstr market); ("to", Http.PTime current_to_ms);
     ("count", pint count)].

(** A page after which the candle loop asks again, for what is before
    [next]: a full page whose oldest candle is of [next], after the start
    of the window. *)
Definition candles_goes_on (count start_ms : Z) (data : R) (next : Z)
  : Prop :=
  Http.full_page count data
  /\ oldest_of data = Ok next
  /\ start_ms < next.

(** The column names assigned to [result], in order of assignment. *)
Definition result_columns : list string :=
  ["timestamp"; "open"; "high"; "low"; "close"; "volume"; "close_time";
   "quote_volume"; "trades"; "taker_buy_volume"; "taker_buy_quote_volume"].

Definition candle_time (r : jrow) : result cell :=
  x <- field r "candle_date_time_utc" ;;
  match x with
  | SStr s => t <- of_option (to_datetime_str s)
                     (ValueError "time data does not match a known format") ;;
              Ok (CTime t)
  | SInt z => Ok (CTime z)
  | SNull => Ok CNaT
  | SFloat _ => Raise (Unmodelled "to_datetime of a float")
  end.

Definition candle_row (r : jrow) : result (list cell) :=
  timestamp <- candle_time r ;;
  open <- (x <- field r "opening_price" ;; Py.astype_float x) ;;
  high <- (x <- field r "high_price" ;; Py.astype_float x) ;;
  low <- (x <- field r "low_price" ;; Py.astype_float x) ;;
  close <- (x <- field r "trade_price" ;; Py.astype_float x) ;;
  volume <- (x <- field r "candle_acc_trade_volume" ;; Py.astype_float x) ;;
  quote_volume <-
    (x <- field r "candle_acc_trade_price" ;; Py.astype_float x) ;;
  Ok [timestamp; CFloat open; CFloat high; CFloat low; CFloat close;
      CFloat volume; CFloat nan; CFloat quote_volume; CInt 0; CFloat nan;
      CFloat nan].

Definition _candles_to_df (raw : list jrow) : result DataFrame :=
  if Py.is_empty raw then Ok empty
  else
    rs <- mapM candle_row raw ;;
    sort_values_timestamp (mkFrame result_columns rs).

Definition _fetch_ohlcv (symbol : string)
    (start_time end_time : Transport.pyval) (interval : option string)
  : Http.M R DataFrame :=
  match interval with
  | None =>
      Http.lift (Raise (ValueError "interval is required for OHLCV data"))
  | Some i =>
      match Py.lookup i _INTERVAL_ENDPOINTS with
      | None =>
          Http.lift (Raise (ValueError
            ("Unsupported interval " ++ repr i ++ ". Supported: "
             ++ join ", " (sorted_strs (map fst _INTERVAL_ENDPOINTS)))))
      | Some endpoint =>
          market <~ Http.lift (_to_upbit_market symbol) ;;
          start_ms <~ Http.lift (Transport.to_milliseconds start_time) ;;
          end_ms <~ Http.lift (Transport.to_milliseconds end_time) ;;
          raw <~ _paginate_candles endpoint market start_ms end_ms 200 ;;
          Http.lift (_candles_to_df raw)
      end
  end.

Definition fetch (data_type : DataType) (symbol : string)
    (start_time end_time : Transport.pyval)
    (interval period : option string) : Http.M R DataFrame :=
  match data_type with
  | OHLCV => _fetch_ohlcv symbol start_time end_time interval
  | _ =>
      Http.lift (Raise (KeyError
        ("Upbit does not support " ++ name data_type ++ ". "
         ++ "Only OHLCV is available (spot exchange).")))
  end.

End WithRuntime.

End Upbit.

(** ** binance_client/futures.py

    The client calls [self._request] where the adapters call
    [self._http.get]; the mocked client stands for it, as in the tests,
    which patch [_request]. *)

Module FuturesClient.

Import Conv.

Definition FUTURES_BASE_URL : string := "https://fapi.binance.com".

Definition HOUR_MS : Z := 3600000.

(** The body of [/fapi/v1/exchangeInfo], as far as the client reads it. *)
Record exchange_info : Type := mkInfo {
  symbols : option page
}.

(** The comprehension of [get_futures_symbols], in its order of
    evaluation: the status, then the quote asset if the status is
    ["TRADING"], then the symbol if both match. *)
Fixpoint trading_usdt (entries : page) : result (list scalar) :=
  match entries with
  | [] => Ok []
  | s :: entries' =>
      status <- Py.key s "status" ;;
      keep <- (if Py.eq_str status "TRADING"
               then quote <- Py.key s "quoteAsset" ;;
                    Ok (Py.eq_str quote "USDT")
               else Ok false) ;;
      head <- (if keep : bool then sym <- Py.key s "symbol" ;; Ok [sym]
               else Ok []) ;;
      rest <- trading_usdt entries' ;;
      Ok (head ++ rest)%list
  end.

(** An entry that is trading against USDT under the name [sym]. *)
Definition listed (s : jrow) (sym : string) : Prop :=
  Py.key s "status" = Ok (SStr "TRADING")
  /\ Py.key s "quoteAsset" = Ok (SStr "USDT")
  /\ Py.key s "symbol" = Ok (SStr sym).

(** The order of [sorted] on strings. *)
Definition le_str (a b : string) : Prop := String.leb a b = true.

(** [sorted] on a list of strings. *)
Definition sorted_symbols (l : list scalar) : result (list string) :=
  names <- mapM (fun x => match x with
                          | SStr s => Ok s
                          | _ => Raise (Unmodelled "symbol that is not a string")
                          end) l ;;
  Ok (sorted_strs names).

Definition get_futures_symbols : Http.M exchange_info (list string) :=
  info <~ Http.get (Http.mkRequest
                      (FUTURES_BASE_URL ++ "/fapi/v1/exchangeInfo") []) ;;
  Http.lift
    (entries <- of_option (symbols info) (KeyError "symbols") ;;
     kept <- trading_usdt entries ;;
     sorted_symbols kept).

(** Where [get_agg_trades] stands when it is about to call: at the top of
    the loop over the hours, or inside an hour, paging by trade id. *)
Inductive cursor : Type :=
| Hour (chunk_start : Z)
| FromId (chunk_end : Z) (from_id : Z).

Definition chunk_end_of (end_ms chunk_start : Z) : Z :=
  Z.min (chunk_start + HOUR_MS) end_ms.

(** [t["T"]] where it is compared with a time. *)
Definition trade_time (t : jrow) : result Z :=
  x <- Py.key t "T" ;; Py.num x.

(** [[t for t in batch if t["T"] <= chunk_end]] *)
Fixpoint up_to (chunk_end : Z) (batch : page) : result page :=
  match batch with
  | [] => Ok []
  | t :: batch' =>
      time <- trade_time t ;;
      rest <- up_to chunk_end batch' ;;
      Ok (if time <=? chunk_end then t :: rest else rest)
  end.

(** [[t for t in all_data if start_ms <= t["T"] <= end_ms]] *)
Fixpoint in_range (start_ms end_ms : Z) (all_data : page) : result page :=
  match all_data with
  | [] => Ok []
  | t :: all_data' =>
      time <- trade_time t ;;
      rest <- in_range start_ms end_ms all_data' ;;
      Ok (if (start_ms <=? time) && (time <=? end_ms) then t :: rest
          else rest)
  end.

(** The test [len(batch) >= limit] of the inner loop and, when it holds,
    the [fromId] of its next request. *)
Definition after_batch (limit chunk_end : Z) (batch : page) : result cursor :=
  if Py.len batch >=? limit then
    last <- Py.last_row batch ;;
    a <- Py.key last "a" ;;
    n <- Py.num a ;;
    Ok (FromId chunk_end (n + 1))
  else Ok (Hour chunk_end).

(** What follows a call: the trades added to [all_data] and where the
    loops stand next. *)
Definition agg_step (end_ms limit : Z) (batch : page) (at_ : cursor)
  : result (list jrow * option cursor) :=
  match at_ with
  | Hour chunk_start =>
      let chunk_end := chunk_end_of end_ms chunk_start in
      if Py.is_empty batch then Ok ([], Some (Hour chunk_end))
      else
        next <- after_batch limit chunk_end batch ;;
        Ok (batch, Some next)
  | FromId chunk_end _ =>
      match batch with
      | [] => Ok ([], Some (Hour chunk_end))
      | first :: _ =>
          time <- trade_time first ;;
          if time >? chunk_end then Ok ([], Some (Hour chunk_end))
          else
            batch <- up_to chunk_end batch ;;
            next <- after_batch limit chunk_end batch ;;
            Ok (batch, Some next)
      end
  end.

Definition agg_request (symbol : string) (end_ms limit : Z) (at_ : cursor)
  : Http.request :=
  Http.mkRequest (FUTURES_BASE_URL ++ "/fapi/v1/aggTrades")
    match at_ with
    | Hour chunk_start =>
        [("symbol", pstr symbol); ("startTime", pint chunk_start);
         ("endTime", pint (chunk_end_of end_ms chunk_start));
         ("limit", pint limit)]
    | FromId _ from_id =>
        [("symbol", pstr symbol); ("fromId", pint from_id);
         ("limit", pint limit)]
    end.

(** The two loops of [get_agg_trades], one call per step. *)
Definition agg_loop (symbol : string) (start_ms end_ms limit : Z)
  : Http.M page (list jrow) :=
  Http.paginate
    (fun at_ => match at_ with
                | Hour chunk_start => chunk_start <? end_ms
                | FromId _ _ => true
                end)
    (agg_request symbol end_ms limit)
    (agg_step end_ms limit)
    (Hour start_ms).

Section WithRuntime.
Context `{RT : PyRuntime}.

(** [get_agg_trades] up to the point where it builds the table: the
    trades it hands to [pd.DataFrame], none when it returns the empty
    table. *)
Definition agg_trades (symbol : string)
    (start_time end_time : Transport.pyval) (limit : Z)
  : Http.M page (list jrow) :=
  start_ms <~ Http.lift (Transport.to_milliseconds start_time) ;;
  end_ms <~ Http.lift (Transport.to_milliseconds end_time) ;;
  all_data <~ agg_loop symbol start_ms end_ms limit ;;
  Http.lift (in_range start_ms end_ms all_data).

End WithRuntime.

End FuturesClient.

(** ** Inputs used by the examples of Part II *)

Module Examples.

Import Transport.

(** A server that answers 429 to every request. *)
Definition always_429 : nat -> outcome unit :=
  fun _ => Responds (mkResponse 429 "Too many requests" tt).

(** A server that answers 429 once and then [status] with [body]. *)
Definition then_status (status : Z) (body : string) : nat -> outcome unit :=
  fun i =>
    match i with
    | O => Responds (mkResponse 429 "Too many requests" tt)
    | _ => Responds (mkResponse status body tt)
    end.

Definition url : string := "https://example.com/api".

(** The kline row of the Binance tests: opened [offset] minutes after
    [open_time_ms]. *)
Definition kline_row (open_time_ms offset : Z) : jrow :=
  let t := open_time_ms + offset * 60000 in
  JArr [SInt t; SStr "50000.00"; SStr "51000.00"; SStr "49000.00";
        SStr "50500.00"; SStr "100.500"; SInt (t + 59999);
        SStr "5050000.00"; SInt 1234; SStr "60.300"; SStr "3030000.00";
        SStr "0"].

Definition t0 : Z := 1700000000000.

(** The two batches of the Binance pagination test. *)
Definition batch1 : page := map (kline_row t0) [0; 1; 2].
Definition batch2 : page := map (kline_row t0) [3; 4].

(** A page whose rows arrive newest first. *)
Definition descending_page : page := [kline_row t0 1; kline_row t0 0].

(** A Bybit kline row and a successful V5 response around a page. *)
Definition bybit_row (ts : Z) : jrow :=
  JArr [SStr (dec ts); SStr "50000"; SStr "51000"; SStr "49000";
        SStr "50500"; SStr "100.5"; SStr "5050000"].

Definition bybit_response (rows : page) : Bybit.R :=
  Bybit.mkR (Some (SInt 0)) (Some (Bybit.mkPayload (Some rows) None)).

(** An entry of the exchange information and an aggregated trade. *)
Definition listing (symbol status quote : string) : jrow :=
  JObj [("symbol", SStr symbol); ("status", SStr status);
        ("quoteAsset", SStr quote)].

Definition agg_trade (id time : Z) : jrow :=
  JObj [("a", SInt id); ("p", SStr "50000.00"); ("q", SStr "0.500");
        ("f", SInt (2 * id)); ("l", SInt (2 * id + 1)); ("T", SInt time)].

Definition bybit_descending : page :=
  [bybit_row (t0 + 120000); bybit_row (t0 + 60000); bybit_row t0].

(** A record of Bybit's account-ratio endpoint. *)
Definition bybit_ratio (buy_ratio sell_ratio : string) (ts : Z) : jrow :=
  JObj [("symbol", SStr "BTCUSDT"); ("buyRatio", SStr buy_ratio);
        ("sellRatio", SStr sell_ratio); ("timestamp", SStr (dec ts))].

(** Records far from any requested window, newest first, one of them with
    no short side. *)
Definition bybit_ratios : page :=
  [bybit_ratio "1" "0" (t0 + 3600000); bybit_ratio "0.5556" "0.4444" t0].

(** The response of the Kraken funding-rate test: one record before, one
    inside and one after 2024-01-01. *)
Definition kraken_rate (timestamp : string) (funding_rate : Q) : jrow :=
  JObj [("timestamp", SStr timestamp);
        ("fundingRate", SFloat (Fin funding_rate));
        ("relativeFundingRate", SFloat (Fin funding_rate))].

(** A Kraken OHLC row opening at second [t], and a Spot response around
    the rows of a pair. *)
Definition kraken_ohlc_row (t : Z) : jrow :=
  JArr [SInt t; SStr "50000.00"; SStr "51000.00"; SStr "49000.00";
        SStr "50500.00"; SStr "50250.00"; SStr "100.500"; SInt 1234].

Definition kraken_ohlc_response (rows : page) (last : Z) : Kraken.R :=
  Kraken.mkR [] (Some (Kraken.RObject [("XXBTZUSD", Kraken.ERows rows);
                                       ("last", Kraken.EVal (SInt last))]))
             None.

(** A Spot response whose [last] is a float, and a Phemex kline page of
    one row whose time is a float. *)
Definition kraken_float_response (rows : page) (last : Q) : Kraken.R :=
  Kraken.mkR [] (Some (Kraken.RObject
                         [("XXBTZUSD", Kraken.ERows rows);
                          ("last", Kraken.EVal (SFloat (Fin last)))]))
             None.

Definition phemex_float_page (time : Q) : Phemex.R :=
  Phemex.mkR (Some (SInt 0)) None
    (Some [JArr [SFloat (Fin time); SInt 60; SStr "50000"; SStr "50000";
                 SStr "51000"; SStr "49000"; SStr "50500"; SStr "100";
                 SStr "5000000"]]).

(** The candle record of the Upbit tests. *)
Definition upbit_candle (timestamp_ms : Z) (utc : string) : jrow :=
  JObj [("market", SStr "KRW-BTC"); ("candle_date_time_utc", SStr utc);
        ("opening_price", SInt 50000000); ("high_price", SInt 51000000);
        ("low_price", SInt 49000000); ("trade_price", SInt 50500000);
        ("timestamp", SInt timestamp_ms);
        ("candle_acc_trade_price", SInt 1234567890);
        ("candle_acc_trade_volume", SFloat (Fin (123456 # 1000)))].

Definition kraken_funding_response : Kraken.R :=
  Kraken.mkR [] (Some (Kraken.RString "success"))
    (Some [kraken_rate "2023-12-31T16:00:00.000Z" (1 # 10000);
           kraken_rate "2024-01-01T00:00:00.000Z" (2 # 10000);
           kraken_rate "2024-01-02T08:00:00.000Z" (3 # 10000)]).

End Examples.


(* ================================================================== *)
(** * Part II. Properties                                              *)
(* ================================================================== *)

(** ** The error monad, sorting and the mocked client *)

Module Generic.

Lemma bind_ok {A B : Type} (m : result A) (k : A -> result B) (b : B) :
  bind m k = Ok b -> exists a, m = Ok a /\ k a = Ok b.
Proof. destruct m as [a|e]; cbn; [eauto|discriminate]. Qed.

(** Splits a hypothesis [x <- m ;; k = Ok b] as far as it goes. *)
Ltac inv_bind H :=
  repeat match type of H with
         | bind ?m _ = Ok _ =>
             let a := fresh "v" in
             let E := fresh "E" in
             apply bind_ok in H; destruct H as (a & E & H)
         end.

Lemma mapM_length {A B : Type} (f : A -> result B) :
  forall l bs, mapM f l = Ok bs -> List.length bs = List.length l.
Proof.
  induction l as [|a l IH]; cbn; intros bs H.
  - now inversion H.
  - inv_bind H. inversion H; subst. cbn. f_equal. eauto.
Qed.

Lemma mapM_Forall2 {A B : Type} (f : A -> result B) :
  forall l bs, mapM f l = Ok bs -> Forall2 (fun a b => f a = Ok b) l bs.
Proof.
  induction l as [|a l IH]; cbn; intros bs H.
  - inversion H. constructor.
  - inv_bind H. inversion H; subst. constructor; eauto.
Qed.

Lemma Forall2_mapM {A B : Type} (f : A -> result B) :
  forall l bs, Forall2 (fun a b => f a = Ok b) l bs -> mapM f l = Ok bs.
Proof.
  induction 1 as [|a b l bs E _ IH]; cbn; [reflexivity|].
  now rewrite E, IH.
Qed.

Lemma mapM_nonempty {A B : Type} (f : A -> result B) (l : list A)
    (bs : list B) :
  mapM f l = Ok bs -> l <> [] -> bs <> [].
Proof.
  intros H Hl Hbs. apply mapM_length in H. subst bs.
  destruct l; [congruence|discriminate].
Qed.

(** *** Insertion sort *)

Section Sorting.

Variable A : Type.
Variable key : A -> Z.

Lemma insert_by_perm (x : A) (l : list A) :
  Permutation (Frame.insert_by key x l) (x :: l).
Proof.
  induction l as [|y l IH]; cbn; [reflexivity|].
  destruct (key x <=? key y); [reflexivity|].
  rewrite IH. apply perm_swap.
Qed.

Lemma sort_by_perm (l : list A) : Permutation (Frame.sort_by key l) l.
Proof.
  induction l as [|x l IH]; cbn; [reflexivity|].
  rewrite insert_by_perm. now constructor.
Qed.

Lemma insert_by_sorted (x : A) (l : list A) :
  Sorted Z.le (map key l) -> Sorted Z.le (map key (Frame.insert_by key x l)).
Proof.
  induction l as [|y l IH]; cbn; intros S.
  - repeat constructor.
  - destruct (key x <=? key y) eqn:E.
    + cbn. constructor; [exact S|]. constructor. lia.
    + cbn. inversion S as [|? ? S' Hd]; subst.
      constructor; [auto|].
      destruct l as [|z l]; cbn.
      * constructor. lia.
      * destruct (key x <=? key z); cbn; constructor.
        -- lia.
        -- now inversion Hd.
Qed.

Lemma sort_by_sorted (l : list A) : Sorted Z.le (map key (Frame.sort_by key l)).
Proof.
  induction l as [|x l IH]; cbn; [constructor|].
  now apply insert_by_sorted.
Qed.

End Sorting.

Lemma Forall2_combine {A B : Type} (P : A -> B -> Prop) :
  forall l bs, Forall2 P l bs ->
    Forall (fun kb => P (snd kb) (fst kb)) (combine bs l)
    /\ map snd (combine bs l) = l.
Proof.
  induction 1 as [|a b l bs H _ [IH1 IH2]]; cbn; [split; auto|].
  split; [constructor; auto|]. now f_equal.
Qed.

(** [sort_key] reorders the list, and the keys of the result, which it
    computed, are in ascending order. *)
Lemma sort_key_spec {A : Type} (f : A -> result Z) (l l' : list A) :
  Frame.sort_key f l = Ok l' ->
  Permutation l' l
  /\ exists ks, mapM f l' = Ok ks /\ Sorted Z.le ks.
Proof.
  unfold Frame.sort_key. intros H. inv_bind H. inversion H; subst; clear H.
  apply mapM_Forall2 in E.
  destruct (Forall2_combine E) as [HF Hsnd].
  set (pairs := combine v l) in *.
  pose proof (sort_by_perm (@fst Z A) pairs) as HP.
  split.
  - rewrite <- Hsnd. now apply Permutation_map.
  - exists (map fst (Frame.sort_by fst pairs)). split.
    + apply Forall2_mapM.
      assert (HF' : Forall (fun kb => f (snd kb) = Ok (fst kb))
                           (Frame.sort_by fst pairs)).
      { eapply Permutation_Forall; [symmetry; exact HP|exact HF]. }
      revert HF'. generalize (Frame.sort_by fst pairs).
      induction 1; cbn; constructor; auto.
    + apply sort_by_sorted.
Qed.


(** *** The mocked client *)

Section Mock.

Variable R : Type.

Lemma bindM_ok {A B : Type} (c : Http.M R A) (k : A -> Http.M R B)
    (m m' : Http.mock R) (b : B) :
  Http.bindM c k m = (Ok b, m') ->
  exists a m1, c m = (Ok a, m1) /\ k a m1 = (Ok b, m').
Proof.
  unfold Http.bindM. destruct (c m) as [[a|e] m1]; intros H.
  - eauto.
  - discriminate.
Qed.

Lemma lift_ok {A : Type} (r : result A) (m m' : Http.mock R) (a : A) :
  Http.lift r m = (Ok a, m') -> r = Ok a /\ m' = m.
Proof. unfold Http.lift. intros H. inversion H. auto. Qed.

Lemma ret_ok {A : Type} (x a : A) (m m' : Http.mock R) :
  Http.ret x m = (Ok a, m') -> x = a /\ m' = m.
Proof. unfold Http.ret. intros H. inversion H. auto. Qed.

End Mock.


(** Splits every hypothesis about a successful run of the mocked client. *)
Ltac inv_run :=
  repeat match goal with
         | L : Http.bindM _ _ _ = (Ok _, _) |- _ =>
             let a := fresh "v" in
             let m1 := fresh "m" in
             let E := fresh "E" in
             apply bindM_ok in L; destruct L as (a & m1 & E & L)
         | L : Http.lift _ _ = (Ok _, _) |- _ =>
             apply lift_ok in L; destruct L as [L ?]
         | L : Http.ret _ _ = (Ok _, _) |- _ =>
             apply ret_ok in L; destruct L as [L ?]
         end.

End Generic.

(** ** The pagination loop *)

Module PaginateFacts.

Import Generic.

Section Paginate.

Variables R C : Type.
Variable cond : C -> bool.
Variable mkreq : C -> Http.request.
Variable step : R -> C -> result (list jrow * option C).

(** What the loop has accumulated satisfies whatever every step's rows
    satisfy. *)
Lemma paginate_from_Forall (P : jrow -> Prop) :
  (forall resp cur new_rows next,
      step resp cur = Ok (new_rows, next) -> Forall P new_rows) ->
  forall pending calls cur acc all m',
    Forall P acc ->
    Http.paginate_from cond mkreq step pending calls cur acc = (Ok all, m') ->
    Forall P all.
Proof.
  intros Hstep.
  induction pending as [|resp rest IH]; intros calls cur acc all m' Hacc H;
    cbn [Http.paginate_from] in H; destruct (cond cur).
  - discriminate H.
  - inversion H; subst. exact Hacc.
  - destruct (step resp cur) as [[new_rows [cur'|]]|err] eqn:E.
    + eapply IH; [|exact H]. apply Forall_app. split; eauto.
    + inversion H; subst. apply Forall_app. split; eauto.
    + discriminate H.
  - inversion H; subst. exact Hacc.
Qed.

Lemma paginate_Forall (P : jrow -> Prop) :
  (forall resp cur new_rows next,
      step resp cur = Ok (new_rows, next) -> Forall P new_rows) ->
  forall cur m all m',
    Http.paginate cond mkreq step cur m = (Ok all, m') -> Forall P all.
Proof.
  intros Hstep cur m all m' H. unfold Http.paginate in H.
  eapply paginate_from_Forall; eauto.
Qed.



End Paginate.

End PaginateFacts.

(** ** The GET primitive *)

Module TransportFacts.

Import Transport.

Section Request.

Variables J P : Type.

Lemma request_loop_retried c (net : nat -> outcome J) url (params : P) :
  forall k fuel a trace,
    (k <= fuel)%nat -> 0 <= a ->
    (forall i, (i < k)%nat ->
       retried_at c (a + Z.of_nat i) (net (Z.to_nat a + i)%nat)) ->
    request_loop c net url params fuel a trace
    = request_loop c net url params (fuel - k) (a + Z.of_nat k)
        (trace ++ backoff_trace url params a k).
Proof.
  induction k as [|k IH]; intros fuel a trace Hk Ha Hret.
  - simpl. rewrite Nat.sub_0_r, Z.add_0_r, app_nil_r. reflexivity.
  - destruct fuel as [|fuel]; [lia|].
    cbn [request_loop].
    pose proof (Hret 0%nat ltac:(lia)) as H0.
    rewrite Nat.add_0_r, Z.add_0_r in H0.
    assert (Hstep : request_loop c net url params fuel (a + 1)
                      ((trace ++ [EvGet url params])
                       ++ [EvSleep (inject_Z (2 ^ (a + 1)))])
                    = request_loop c net url params (S fuel - S k)
                        (a + Z.of_nat (S k))
                        (trace ++ backoff_trace url params a (S k))).
    { rewrite IH; try lia.
      - cbn [backoff_trace]. rewrite <- !app_assoc. cbn [app].
        replace (S fuel - S k)%nat with (fuel - k)%nat by lia.
        replace (a + 1 + Z.of_nat k) with (a + Z.of_nat (S k)) by lia.
        reflexivity.
      - intros i Hi.
        replace (Z.to_nat (a + 1) + i)%nat with (Z.to_nat a + S i)%nat by lia.
        replace (a + 1 + Z.of_nat i) with (a + Z.of_nat (S i)) by lia.
        apply Hret. lia. }
    destruct (net (Z.to_nat a)) as [resp|exc]; cbn [retried_at] in H0.
    + rewrite H0. cbn [Z.eqb Pos.eqb]. exact Hstep.
    + apply Z.eqb_neq in H0. rewrite H0. exact Hstep.
Qed.

Lemma requests_issued_app (t1 t2 : list (event P)) :
  requests_issued (t1 ++ t2) = (requests_issued t1 + requests_issued t2)%nat.
Proof. unfold requests_issued. rewrite filter_app, length_app. reflexivity. Qed.

Lemma requests_issued_backoff url (params : P) a k :
  requests_issued (backoff_trace url params a k) = k.
Proof.
  revert a. induction k as [|k IH]; intros a; [reflexivity|].
  cbn [backoff_trace]. unfold requests_issued in *. simpl. now rewrite IH.
Qed.


(** C6.  A response whose status is neither 200 nor 429 ends the call at
    once, whatever number [k] of retried attempts came before it: the
    error is the ban message for 418 and names the status and the body
    otherwise, and the request that received it is the last one issued. *)
Theorem request_fails_fast c (net : nat -> outcome J) url (params : P) (k : nat) resp :
  Z.of_nat k < max_retries c ->
  (forall i, (i < k)%nat -> retried_at c (Z.of_nat i) (net i)) ->
  net k = Responds resp ->
  status_code resp <> 200 ->
  status_code resp <> 429 ->
  _request c net url params
  = (Raise (RuntimeError
              (if status_code resp =? 418
               then "IP banned by Binance: " ++ text resp
               else "HTTP " ++ dec (status_code resp) ++ ": " ++ text resp)),
     (backoff_trace url params 0 k ++ [EvGet url params])%list)
  /\ requests_issued (snd (_request c net url params)) = S k.
Proof.
  intros Hk Hret Hnet H200 H429.
  assert (E : _request c net url params
    = (Raise (RuntimeError
              (if status_code resp =? 418
               then "IP banned by Binance: " ++ text resp
               else "HTTP " ++ dec (status_code resp) ++ ": " ++ text resp)),
     (backoff_trace url params 0 k ++ [EvGet url params])%list)).
  { unfold _request.
    rewrite (@request_loop_retried c net url params k); try lia.
    2:{ intros i Hi. cbn. apply Hret, Hi. }
    destruct (Z.to_nat (max_retries c) - k)%nat as [|fuel] eqn:Ef; [lia|].
    cbn [request_loop]. rewrite Z.add_0_l, Nat2Z.id, Hnet.
    apply Z.eqb_neq in H200, H429. rewrite H200, H429.
    destruct (status_code resp =? 418); reflexivity. }
  split; [exact E|].
  rewrite E. cbn [snd]. rewrite requests_issued_app, requests_issued_backoff.
  cbn. lia.
Qed.




Lemma backoff_trace_length url (params : P) k :
  forall a, List.length (backoff_trace url params a k) = (2 * k)%nat.
Proof.
  induction k as [|k IH]; intros a; [reflexivity|].
  cbn [backoff_trace List.length]. rewrite IH. lia.
Qed.


End Request.

Lemma request_fails_fast_witness :
  _request default_client (Examples.then_status 500 "Internal Server Error")
           Examples.url tt
  = (Raise (RuntimeError "HTTP 500: Internal Server Error"),
     [EvGet Examples.url tt; EvSleep (inject_Z 2); EvGet Examples.url tt])
  /\ requests_issued
       (snd (_request default_client
               (Examples.then_status 500 "Internal Server Error")
               Examples.url tt)) = 2%nat.
Proof.
  apply (@request_fails_fast unit unit default_client
           (Examples.then_status 500 "Internal Server Error") Examples.url tt
           1 (mkResponse 500 "Internal Server Error" tt)).
  - reflexivity.
  - intros i Hi. assert (i = 0%nat) as -> by lia. reflexivity.
  - reflexivity.
  - discriminate.
  - discriminate.
Defined.



End TransportFacts.

(** ** Time conversion *)

Module TimeFacts.

Import Transport.

(** *** Rounding to the nearest integer and to binary64 *)

Lemma round_half_even_exact (n d k : Z) :
  0 < d -> n = k * d -> round_half_even n d = k.
Proof.
  intros Hd ->. unfold round_half_even.
  rewrite Z.div_mul, Z.mod_mul by lia.
  assert (E : (2 * 0 <? d) = true) by (apply Z.ltb_lt; lia).
  now rewrite E.
Qed.

Lemma round_half_even_near (n d : Z) :
  0 < d -> Z.abs (2 * (round_half_even n d * d - n)) <= d.
Proof.
  intros Hd. unfold round_half_even.
  pose proof (Z.div_mod n d ltac:(lia)) as E.
  pose proof (Z.mod_pos_bound n d Hd) as B.
  destruct (2 * (n mod d) <? d) eqn:E1; [apply Z.ltb_lt in E1; nia|].
  apply Z.ltb_ge in E1.
  destruct (d <? 2 * (n mod d)) eqn:E2; [apply Z.ltb_lt in E2; nia|].
  apply Z.ltb_ge in E2.
  destruct (Z.even (n / d)); nia.
Qed.

Lemma round_half_even_le (n d b : Z) :
  0 < d -> n <= b * d -> round_half_even n d <= b.
Proof.
  intros Hd Hn. unfold round_half_even.
  pose proof (Z.div_mod n d ltac:(lia)) as E.
  pose proof (Z.mod_pos_bound n d Hd) as B.
  assert (Hq : n / d <= b) by nia.
  destruct (2 * (n mod d) <? d) eqn:E1; [exact Hq|].
  apply Z.ltb_ge in E1.
  assert (n / d < b) by nia.
  destruct (d <? 2 * (n mod d)); [lia|].
  destruct (Z.even (n / d)); lia.
Qed.

Lemma round_half_even_nonneg (n d : Z) :
  0 < d -> 0 <= n -> 0 <= round_half_even n d.
Proof.
  intros Hd Hn. unfold round_half_even.
  assert (0 <= n / d) by (apply Z.div_pos; lia).
  destruct (_ <? _); [lia|]. destruct (_ <? _); [lia|].
  destruct (Z.even _); lia.
Qed.

(** A datetime object is less than [2 ** 58] microseconds away from the
    epoch. *)
Lemma epoch_us_bound (d : datetime) :
  in_range d -> Z.abs (epoch_us d) < 2 ^ 58.
Proof.
  unfold in_range, epoch_us, days_from_civil.
  intros (Hy & Hm & Hd & Hh & Hmi & Hs & Hus & Hoff).
  assert (Ho : - 86400000000 < match tzinfo d with Some o => o | None => 0 end
               < 86400000000) by (destruct (tzinfo d); lia).
  clear Hoff. set (off := match tzinfo d with Some o => o | None => 0 end) in *.
  clearbody off.
  set (y' := if month d <=? 2 then year d - 1 else year d).
  assert (Hy' : 0 <= y' <= 9999) by (unfold y'; destruct (month d <=? 2); lia).
  clearbody y'.
  change (2 ^ 58) with 288230376151711744.
  cbv zeta.
  pose proof (Z.mod_pos_bound (month d + 9) 12 ltac:(lia)).
  set (mp := (month d + 9) mod 12) in *. clearbody mp.
  assert (0 <= (153 * mp + 2) / 5 <= 400).
  { split; [apply Z.div_pos; lia|]. apply Z.div_le_upper_bound; lia. }
  set (dd := (153 * mp + 2) / 5) in *. clearbody dd.
  assert (0 <= y' / 400 < 25).
  { split; [apply Z.div_pos; lia|]. apply Z.div_lt_upper_bound; lia. }
  set (era := y' / 400) in *.
  assert (0 <= y' - era * 400 < 400).
  { unfold era. pose proof (Z.mod_pos_bound y' 400 ltac:(lia)).
    rewrite Z.mod_eq in H2 by lia. lia. }
  clearbody era.
  set (yoe := y' - era * 400) in *. clearbody yoe.
  assert (0 <= yoe / 4 <= 100).
  { split; [apply Z.div_pos; lia|]. apply Z.div_le_upper_bound; lia. }
  assert (0 <= yoe / 100 <= 4).
  { split; [apply Z.div_pos; lia|]. apply Z.div_le_upper_bound; lia. }
  lia.
Qed.

(** Below [2 ** k] nothing overflows: the significand [m] is the
    magnitude in units of [2 ** (s - 1074)], rounded. *)
Lemma binary64_fin (x : Q) (k : Z) :
  0 <= k <= 1023 ->
  Z.abs (Qnum x) < 2 ^ k * Zpos (Qden x) ->
  exists m s,
    0 <= s <= k + 1021 /\ 0 <= m
    /\ Z.abs (2 * (m * (Zpos (Qden x) * 2 ^ s) - Z.abs (Qnum x) * 2 ^ 1074))
       <= Zpos (Qden x) * 2 ^ s
    /\ binary64 x
       = Fin (Qred (Qmake (Z.sgn (Qnum x) * m * 2 ^ s) (Z.to_pos (2 ^ 1074)))).
Proof.
  intros Hk Hx. unfold binary64.
  set (a0 := Z.abs (Qnum x)) in *.
  set (d := Zpos (Qden x)) in *.
  assert (Hd : 0 < d) by (unfold d; lia).
  assert (Ha0 : 0 <= a0) by (unfold a0; lia).
  assert (HT : 0 < 2 ^ 1074) by (apply Z.pow_pos_nonneg; lia).
  set (T := 2 ^ 1074) in *.
  assert (HkT : 2 ^ (k + 1074) = 2 ^ k * T)
    by (unfold T; apply Z.pow_add_r; lia).
  assert (Ha : a0 * T < 2 ^ (k + 1074) * d) by (rewrite HkT; nia).
  set (N := a0 * T / d).
  assert (HN : 0 <= N < 2 ^ (k + 1074)).
  { split; [apply Z.div_pos; nia|].
    apply Z.div_lt_upper_bound; [exact Hd|]. lia. }
  assert (HL : Z.log2 N <= k + 1073).
  { destruct (Z.eq_dec N 0) as [->|Hn]; [cbn; lia|].
    assert (Z.log2 N < k + 1074) by (apply Z.log2_lt_pow2; lia). lia. }
  set (s := Z.max (Z.log2 N - 52) 0).
  assert (Hs : 0 <= s <= k + 1021) by (unfold s; lia).
  assert (Hps : 0 < 2 ^ s) by (apply Z.pow_pos_nonneg; lia).
  set (m := round_half_even (a0 * T) (d * 2 ^ s)).
  assert (HD : 0 < d * 2 ^ s) by nia.
  assert (Hm : 0 <= m) by (apply round_half_even_nonneg; nia).
  assert (Hsplit : 2 ^ (k + 1074) = 2 ^ (k + 1074 - s) * 2 ^ s).
  { rewrite <- Z.pow_add_r by lia. f_equal. lia. }
  assert (Hmle : m <= 2 ^ (k + 1074 - s)).
  { apply round_half_even_le; [exact HD|].
    replace (2 ^ (k + 1074 - s) * (d * 2 ^ s))
      with (2 ^ (k + 1074) * d) by (rewrite Hsplit; ring).
    lia. }
  assert (Hno : (2 ^ 2098 <=? m * 2 ^ s) = false).
  { apply Z.leb_gt.
    assert (m * 2 ^ s <= 2 ^ (k + 1074)) by (rewrite Hsplit; nia).
    assert (2 ^ (k + 1074) < 2 ^ 2098) by (apply Z.pow_lt_mono_r; lia).
    lia. }
  rewrite Hno. exists m, s.
  split; [exact Hs|]. split; [exact Hm|]. split; [|reflexivity].
  apply round_half_even_near. exact HD.
Qed.

(** A rational below [2 ** k] in magnitude rounds to a float at most
    [2 ** (k - 54)] away. *)
Lemma binary64_close (x : Q) (k : Z) :
  0 <= k <= 53 ->
  Z.abs (Qnum x) < 2 ^ k * Zpos (Qden x) ->
  exists q,
    binary64 x = Fin q
    /\ (q <= x + (1 # Z.to_pos (2 ^ (54 - k))))%Q
    /\ (x <= q + (1 # Z.to_pos (2 ^ (54 - k))))%Q.
Proof.
  intros Hk Hx.
  destruct (@binary64_fin x k ltac:(lia) Hx) as (m & s & Hs & Hm & Hn & ->).
  eexists. split; [reflexivity|].
  rewrite Qred_correct.
  assert (HT : 0 < 2 ^ 1074) by (apply Z.pow_pos_nonneg; lia).
  assert (HP : 0 < 2 ^ (54 - k)) by (apply Z.pow_pos_nonneg; lia).
  assert (Hps : 0 < 2 ^ s) by (apply Z.pow_pos_nonneg; lia).
  assert (HsP : 2 ^ s * 2 ^ (54 - k) <= 2 * 2 ^ 1074).
  { rewrite <- Z.pow_add_r by lia.
    change (2 * 2 ^ 1074) with (2 ^ 1 * 2 ^ 1074).
    rewrite <- Z.pow_add_r by lia. apply Z.pow_le_mono_r; lia. }
  unfold Qle, Qplus. cbn [Qnum Qden].
  rewrite !Pos2Z.inj_mul, !Z2Pos.id by lia.
  set (T := 2 ^ 1074) in *. set (P := 2 ^ (54 - k)) in *.
  set (d := Zpos (Qden x)) in *. set (n := Qnum x) in *.
  assert (Hd : 0 < d) by (unfold d; lia).
  set (S := 2 ^ s) in *.
  clearbody T P S.
  assert (Hkey : 2 * Z.abs (m * (d * S) - Z.abs n * T) * P <= d * (2 * T)).
  { assert (2 * Z.abs (m * (d * S) - Z.abs n * T) <= d * S) by lia.
    nia. }
  destruct (Z.abs_spec n) as [[Hn0 E]|[Hn0 E]]; rewrite E in *.
  - assert (Z.sgn n * m = m \/ (n = 0 /\ Z.sgn n * m = 0)).
    { destruct (Z.eq_dec n 0) as [->|]; [right; split; reflexivity|left].
      rewrite Z.sgn_pos by lia. lia. }
    split; nia.
  - rewrite Z.sgn_neg by lia. split; nia.
Qed.

(** An integer below [2 ** 53] in magnitude is a binary64 number. *)
Lemma binary64_exact (x : Q) (n : Z) :
  Qnum x = n * Zpos (Qden x) ->
  Z.abs n < 2 ^ 53 ->
  exists q, binary64 x = Fin q /\ (q == inject_Z n)%Q.
Proof.
  intros Hx Hn. unfold binary64. rewrite Hx.
  set (d := Zpos (Qden x)) in *.
  assert (Hd : 0 < d) by (unfold d; lia).
  assert (HT : 0 < 2 ^ 1074) by (apply Z.pow_pos_nonneg; lia).
  rewrite Z.abs_mul, (Z.abs_eq d) by lia.
  replace (Z.abs n * d * 2 ^ 1074) with (Z.abs n * 2 ^ 1074 * d) by ring.
  rewrite Z.div_mul by lia.
  set (s := Z.max (Z.log2 (Z.abs n * 2 ^ 1074) - 52) 0).
  assert (Hs : 0 <= s <= 1074
               /\ Z.abs n * 2 ^ 1074 = Z.abs n * 2 ^ (1074 - s) * 2 ^ s).
  { destruct (Z.eq_dec n 0) as [->|Hn0].
    - unfold s. cbn. split; [lia|reflexivity].
    - assert (HL : 0 <= Z.log2 (Z.abs n) < 53).
      { split; [apply Z.log2_nonneg|]. apply Z.log2_lt_pow2; lia. }
      unfold s. rewrite Z.log2_mul_pow2 by lia. split; [lia|].
      rewrite <- Z.mul_assoc, <- Z.pow_add_r by lia. do 2 f_equal. lia. }
  destruct Hs as [Hs Hsplit]. clearbody s.
  assert (Hps : 0 < 2 ^ s) by (apply Z.pow_pos_nonneg; lia).
  rewrite (@round_half_even_exact _ _ (Z.abs n * 2 ^ (1074 - s)))
    by (try nia; rewrite Hsplit; ring).
  rewrite <- Hsplit.
  assert (Hno : (2 ^ 2098 <=? Z.abs n * 2 ^ 1074) = false).
  { apply Z.leb_gt.
    replace (2 ^ 2098) with (2 ^ 1024 * 2 ^ 1074)
      by (rewrite <- Z.pow_add_r by lia; reflexivity).
    assert (2 ^ 53 < 2 ^ 1024) by (apply Z.pow_lt_mono_r; lia). nia. }
  rewrite <- Z.mul_assoc, <- Hsplit, Hno.
  eexists. split; [reflexivity|].
  rewrite Qred_correct. unfold Qeq, inject_Z. cbn [Qnum Qden].
  rewrite Z2Pos.id by lia. rewrite Z.sgn_mul, (Z.sgn_pos d) by lia.
  set (T := 2 ^ 1074) in *. clearbody T.
  destruct (Z.sgn_spec n) as [[H E]|[[H E]|[H E]]]; rewrite E; lia.
Qed.

Lemma quot_close (N D u : Z) :
  0 < D ->
  (u - 1000) * D < 1000 * N < (u + 1000) * D ->
  Z.quot u 1000 - 1 <= Z.quot N D <= Z.quot u 1000 + 1.
Proof.
  intros HD H.
  pose proof (Z.quot_rem' N D) as EN.
  pose proof (Z.quot_rem' u 1000) as Eu.
  assert (RN : Z.abs (Z.rem N D) < D)
    by (pose proof (Z.rem_bound_abs N D ltac:(lia)); lia).
  assert (Ru : Z.abs (Z.rem u 1000) < 1000)
    by (pose proof (Z.rem_bound_abs u 1000 ltac:(lia)); lia).
  assert (SN : 0 <= N -> 0 <= Z.rem N D)
    by (intros; apply Z.rem_nonneg; lia).
  assert (SN' : N <= 0 -> Z.rem N D <= 0)
    by (intros; apply Z.rem_nonpos; lia).
  assert (Su : 0 <= u -> 0 <= Z.rem u 1000)
    by (intros; apply Z.rem_nonneg; lia).
  assert (Su' : u <= 0 -> Z.rem u 1000 <= 0)
    by (intros; apply Z.rem_nonpos; lia).
  set (qN := Z.quot N D) in *. set (rN := Z.rem N D) in *.
  set (qu := Z.quot u 1000) in *. set (ru := Z.rem u 1000) in *.
  clearbody qN rN qu ru.
  split; nia.
Qed.

(** Truncation toward zero does not depend on the fraction chosen to
    represent a rational. *)
Lemma trunc_Qeq (p q : Q) :
  Qeq p q ->
  Z.quot (Qnum p) (Zpos (Qden p)) = Z.quot (Qnum q) (Zpos (Qden q)).
Proof.
  unfold Qeq. intros E.
  rewrite <- (Z.quot_mul_cancel_r (Qnum p) (Zpos (Qden p)) (Zpos (Qden q)))
    by discriminate.
  rewrite <- (Z.quot_mul_cancel_r (Qnum q) (Zpos (Qden q)) (Zpos (Qden p)))
    by discriminate.
  rewrite E. f_equal. apply Z.mul_comm.
Qed.

(** On a whole second the two roundings are exact. *)
Lemma timestamp_ms_exact (d : datetime) :
  Z.abs (epoch_us d) < 2 ^ 58 ->
  epoch_us d mod 1000000 = 0 ->
  int_of_float (float_mul (timestamp d) (Fin 1000))
  = Ok (Z.quot (epoch_us d) 1000).
Proof.
  intros Hb Hw. unfold timestamp.
  set (us := epoch_us d) in *. clearbody us.
  apply Z.mod_divide in Hw; [|lia]. destruct Hw as [S ->].
  change (2 ^ 58) with 288230376151711744 in Hb.
  destruct (@binary64_exact (S * 1000000 # 1000000) S)
    as (q1 & -> & E1); [reflexivity|change (2 ^ 53) with 9007199254740992; lia|].
  cbn [float_mul].
  destruct (@binary64_exact (q1 * 1000) (S * 1000)) as (q2 & -> & E2).
  - unfold Qeq, inject_Z in E1. cbn [Qnum Qden] in E1.
    unfold Qmult. cbn [Qnum Qden]. rewrite Pos.mul_1_r. lia.
  - change (2 ^ 53) with 9007199254740992. lia.
  - cbn [int_of_float]. f_equal.
    rewrite (@trunc_Qeq _ _ E2). cbn [inject_Z Qnum Qden].
    rewrite Z.quot_1_r.
    replace (S * 1000000) with (S * 1000 * 1000) by ring.
    now rewrite Z.quot_mul by lia.
Qed.

(** Otherwise the product is less than one millisecond away from the
    instant, so that truncation gives its millisecond or a neighbour. *)
Lemma timestamp_ms_near (d : datetime) :
  Z.abs (epoch_us d) < 2 ^ 58 ->
  exists ms,
    int_of_float (float_mul (timestamp d) (Fin 1000)) = Ok ms
    /\ Z.quot (epoch_us d) 1000 - 1 <= ms <= Z.quot (epoch_us d) 1000 + 1.
Proof.
  intros Hb. unfold timestamp.
  set (us := epoch_us d) in *. clearbody us.
  change (2 ^ 58) with 288230376151711744 in Hb.
  destruct (@binary64_close (us # 1000000) 39) as (q1 & -> & U1 & L1);
    [lia|cbn [Qnum Qden]; change (2 ^ 39) with 549755813888; lia|].
  change (Z.to_pos (2 ^ (54 - 39))) with 32768%positive in U1, L1.
  cbn [float_mul].
  assert (B1 : (- (288230376152 # 1) <= q1 <= 288230376152 # 1)%Q).
  { assert (- (288230376151711744 # 1000000) <= us # 1000000
            <= 288230376151711744 # 1000000)%Q
      by (unfold Qle; cbn [Qnum Qden Qopp]; lia).
    split; lra. }
  destruct (@binary64_close (q1 * 1000) 50) as (q2 & -> & U2 & L2); [lia| |].
  - assert (H : (- (1125899906842624 # 1) < q1 * 1000
                 < 1125899906842624 # 1)%Q) by (split; lra).
    change (2 ^ 50) with 1125899906842624.
    destruct H as [H1 H2]. unfold Qlt in H1, H2. cbn [Qnum Qden Qopp] in H1, H2.
    lia.
  - change (Z.to_pos (2 ^ (54 - 50))) with 16%positive in U2, L2.
    cbn [int_of_float]. eexists. split; [reflexivity|].
    assert (H : ((us # 1000) - 1 < q2 < (us # 1000) + 1)%Q).
    { assert (E : (us # 1000 == (us # 1000000) * 1000)%Q)
        by (unfold Qeq, Qmult; cbn [Qnum Qden]; lia).
      rewrite E. split; lra. }
    apply quot_close; [lia|].
    destruct H as [H1 H2]. unfold Qlt, Qplus, Qminus, Qopp in H1, H2.
    cbn [Qnum Qden Qplus Qopp] in H1, H2.
    rewrite ?Pos2Z.inj_mul in H1, H2. lia.
Qed.

Lemma in_range_as_utc (d : datetime) : in_range d -> in_range (as_utc d).
Proof.
  unfold as_utc. destruct (tzinfo d) eqn:E; [exact (fun H => H)|].
  unfold in_range. cbn.
  intros (? & ? & ? & ? & ? & ? & ? & _). repeat split; lia.
Qed.

Section WithRuntime.
Context `{RT : PyRuntime}.

Lemma datetime_to_ms_near (d : datetime) :
  in_range d ->
  exists ms,
    datetime_to_ms d = Ok ms
    /\ epoch_ms d - 1 <= ms <= epoch_ms d + 1
    /\ (on_whole_second d -> ms = epoch_ms d).
Proof.
  intros Hr. apply in_range_as_utc, epoch_us_bound in Hr.
  unfold datetime_to_ms, epoch_ms, on_whole_second.
  destruct (timestamp_ms_near _ Hr) as (ms & E & B).
  exists ms. split; [exact E|]. split; [exact B|].
  intros Hw. rewrite (timestamp_ms_exact _ Hr Hw) in E. congruence.
Qed.

(** What [strptime] returns for a format without [%f]: once read as UTC
    it is converted to its millisecond epoch exactly. *)
Lemma datetime_to_ms_utc (d : datetime) :
  in_range d -> microsecond d = 0 ->
  datetime_to_ms (replace_tzinfo d utc) = Ok (utc_ms d).
Proof.
  intros Hr Hus.
  assert (Hr' : in_range (replace_tzinfo d utc)).
  { unfold in_range in *. cbn.
    destruct Hr as (? & ? & ? & ? & ? & ? & ? & _). repeat split; lia. }
  destruct (datetime_to_ms_near Hr') as (ms & E & _ & Hw).
  rewrite E. f_equal. rewrite Hw; [reflexivity|].
  unfold on_whole_second, as_utc, epoch_us. cbn. rewrite Hus.
  rewrite Z.add_0_r, Z.sub_0_r. apply Z.mod_mul. lia.
Qed.

(** C8, amended.  Integers are returned as they are and finite floats
    truncated; a string is read with the first of the two formats
    [strptime] accepts, as UTC, and gives its millisecond epoch (the
    formats carry no fraction of a second); a string neither format
    accepts raises the parse error that names it; a naive datetime is
    read as UTC; a datetime on a whole second gives its millisecond
    epoch, any other datetime that value or a neighbour of it, since the
    seconds are a binary64 number when they are multiplied by 1000; any
    other type raises a type error. *)
Theorem to_milliseconds_spec :
  (forall z, to_milliseconds (VInt z) = Ok z)
  /\ (forall b, to_milliseconds (VBool b) = Ok (if b then 1 else 0))
  /\ (forall q, to_milliseconds (VFloat (Fin q))
                = Ok (Z.quot (Qnum q) (Zpos (Qden q))))
  /\ (forall s d, strptime s "%Y-%m-%d %H:%M:%S" = Some d ->
                  in_range d -> microsecond d = 0 ->
                  to_milliseconds (VStr s) = Ok (utc_ms d))
  /\ (forall s d, strptime s "%Y-%m-%d %H:%M:%S" = None ->
                  strptime s "%Y-%m-%d" = Some d ->
                  in_range d -> microsecond d = 0 ->
                  to_milliseconds (VStr s) = Ok (utc_ms d))
  /\ (forall s, strptime s "%Y-%m-%d %H:%M:%S" = None ->
                strptime s "%Y-%m-%d" = None ->
                to_milliseconds (VStr s)
                = Raise (ValueError
                           ("Unsupported datetime format: " ++ repr s
                            ++ ". Use 'YYYY-MM-DD' or 'YYYY-MM-DD HH:MM:SS'")))
  /\ (forall d, tzinfo d = None ->
                to_milliseconds (VDatetime d)
                = to_milliseconds (VDatetime (replace_tzinfo d utc)))
  /\ (forall d, in_range d ->
                exists ms,
                  to_milliseconds (VDatetime d) = Ok ms
                  /\ epoch_ms d - 1 <= ms <= epoch_ms d + 1
                  /\ (on_whole_second d -> ms = epoch_ms d))
  /\ (forall type_name,
        to_milliseconds (VOther type_name)
        = Raise (TypeError ("Cannot convert " ++ type_name
                            ++ " to timestamp"))).
Proof.
  repeat match goal with |- _ /\ _ => split end.
  - reflexivity.
  - reflexivity.
  - reflexivity.
  - intros s d E Hr Hus. cbn [to_milliseconds try_formats]. rewrite E.
    now apply datetime_to_ms_utc.
  - intros s d E1 E2 Hr Hus. cbn [to_milliseconds try_formats].
    rewrite E1, E2. now apply datetime_to_ms_utc.
  - intros s E1 E2. cbn [to_milliseconds try_formats]. rewrite E1, E2.
    reflexivity.
  - intros d E. cbn [to_milliseconds]. unfold datetime_to_ms, as_utc.
    rewrite E. reflexivity.
  - intros d Hr. apply (datetime_to_ms_near Hr).
  - reflexivity.
Qed.

End WithRuntime.

Lemma to_milliseconds_spec_witness :
  @to_milliseconds RefRuntime.ref_runtime (VStr "2024-01-01")
  = Ok 1704067200000.
Proof.
  destruct (@to_milliseconds_spec RefRuntime.ref_runtime)
    as (_ & _ & _ & _ & Hdate & _).
  apply (Hdate "2024-01-01" (mkDatetime 2024 1 1 0 0 0 0 None));
    try reflexivity.
  unfold in_range. cbn. repeat split; lia.
Defined.

(** C8 as stated fails on a float that has no integer value: [int] of NaN
    raises, and it is [int]'s own error that comes out. *)
Lemma to_milliseconds_nan_raises :
  @to_milliseconds RefRuntime.ref_runtime (VFloat NaN)
  = Raise (ValueError "cannot convert float NaN to integer").
Proof. reflexivity. Qed.

Lemma to_milliseconds_inf_raises :
  @to_milliseconds RefRuntime.ref_runtime (VFloat PosInf)
  = Raise (OverflowError "cannot convert float infinity to integer").
Proof. reflexivity. Qed.

(** The values of the test-suite. *)
Example to_milliseconds_datetime_string :
  @to_milliseconds RefRuntime.ref_runtime (VStr "2024-01-01 12:30:00")
  = Ok 1704112200000.
Proof. vm_compute. reflexivity. Qed.

Example to_milliseconds_float_truncated :
  @to_milliseconds RefRuntime.ref_runtime
    (VFloat (Fin (3400000000001 # 2))) = Ok 1700000000000.
Proof. reflexivity. Qed.

(** Off the whole seconds the product can fall short of the instant or
    pass it: 36.061 seconds into the minute come out one millisecond
    early, and the last microsecond of the year 9999 one millisecond
    late. *)
Example to_milliseconds_datetime_rounds :
  let early := mkDatetime 1970 2 18 22 4 36 61000 utc in
  let late := mkDatetime 9999 12 31 23 59 59 999999 None in
  @to_milliseconds RefRuntime.ref_runtime (VDatetime early) = Ok 4226676060
  /\ epoch_ms early = 4226676061
  /\ @to_milliseconds RefRuntime.ref_runtime (VDatetime late)
     = Ok 253402300800000
  /\ epoch_ms late = 253402300799999.
Proof. vm_compute. repeat split; reflexivity. Qed.

End TimeFacts.

(** ** The factory *)

Module FactoryFacts.

Import Factory.

Section WithRuntime.
Context `{RT : PyRuntime}.

(** The name is looked up in lower case. *)
Lemma create_source_lower (exchange : string) (cls : Adapter) :
  registry_get _REGISTRY (lower exchange) = Some cls ->
  create_source exchange = Ok cls.
Proof. intros E. unfold create_source. now rewrite E. Qed.

Lemma create_source_registered (exchange : string) :
  (lower exchange = "binance" ->
   create_source exchange = Ok BinanceFuturesSource)
  /\ (lower exchange = "kraken" ->
      create_source exchange = Ok KrakenFuturesSource).
Proof.
  split; intros E; apply create_source_lower; rewrite E; reflexivity.
Qed.

(** A name the registry lacks raises the value error that enumerates the
    registry. *)
Lemma create_source_unknown (exchange : string) :
  registry_get _REGISTRY (lower exchange) = None ->
  create_source exchange
  = Raise (ValueError ("Unsupported exchange: " ++ repr exchange
                       ++ ". Supported: binance, kraken")).
Proof. intros E. unfold create_source. now rewrite E. Qed.

(** C4 at its failing inputs: five of the seven adapters are not in the
    registry, and asking for one of them raises. *)
Theorem create_source_unregistered :
  Forall (fun exchange =>
            create_source exchange
            = Raise (ValueError ("Unsupported exchange: " ++ repr exchange
                                 ++ ". Supported: binance, kraken")))
         ["bybit"; "okx"; "coinbase"; "phemex"; "upbit"].
Proof. repeat constructor. Qed.

End WithRuntime.

Example create_source_case_insensitive :
  @create_source RefRuntime.ref_runtime "Binance" = Ok BinanceFuturesSource
  /\ @create_source RefRuntime.ref_runtime "KRAKEN" = Ok KrakenFuturesSource.
Proof. split; reflexivity. Qed.

Example create_source_bybit :
  @create_source RefRuntime.ref_runtime "bybit"
  = Raise (ValueError
             "Unsupported exchange: 'bybit'. Supported: binance, kraken").
Proof. reflexivity. Qed.

End FactoryFacts.

(** ** Column lists of the returned tables *)

Module ColumnFacts.

Import Generic Frame.

Lemma frame_of_shaped (cols : list string) conv raw df :
  Conv.frame_of cols conv raw = Ok df -> shaped cols df.
Proof.
  unfold Conv.frame_of. destruct raw as [|r raw]; cbn [Py.is_empty].
  - intros H. inversion H. left. auto.
  - intros H. inv_bind H. inversion H; subst. right. cbn. split; [|reflexivity].
    eapply mapM_nonempty; [exact E|discriminate].
Qed.

Lemma sort_values_timestamp_spec (df df' : DataFrame) :
  sort_values_timestamp df = Ok df' ->
  columns df' = columns df
  /\ Permutation (rows df') (rows df)
  /\ ascending df'.
Proof.
  unfold sort_values_timestamp, ascending, timestamps.
  destruct (index_of "timestamp" (columns df)) as [i|] eqn:Ei; [|discriminate].
  intros H. inv_bind H. inversion H; subst; clear H. cbn [columns rows].
  apply sort_key_spec in E. destruct E as (HP & ks & Hks & HS).
  split; [reflexivity|]. split; [exact HP|].
  rewrite Ei. exists ks. split; [|exact HS].
  apply mapM_Forall2 in Hks. clear -Hks.
  induction Hks as [|r k rs ks Hr _ IH]; cbn; [reflexivity|].
  f_equal; [|exact IH].
  destruct (time_of (nth i r CNone)); cbn in Hr; congruence.
Qed.


Section WithRuntime.
Context `{RT : PyRuntime}.

Ltac finish H :=
  apply lift_ok in H; destruct H as [H _];
  first [ apply frame_of_shaped in H; exact H ].










End WithRuntime.

Import Transport Schema.



(** The converters the claim cites, on no rows. *)
Example converters_on_no_rows :
  @Binance._klines_to_df RefRuntime.ref_runtime [] true = Ok empty
  /\ @Bybit._klines_to_ohlcv_df RefRuntime.ref_runtime [] = Ok empty.
Proof. split; reflexivity. Qed.

End ColumnFacts.


(** ** Order of the returned rows *)

Module OrderFacts.

Import Generic Frame.

Lemma Sorted_scale (c : Z) (ks : list Z) :
  0 <= c -> Sorted Z.le ks -> Sorted Z.le (map (fun k => k * c) ks).
Proof.
  intros Hc. induction 1 as [|k ks _ IH Hd]; cbn; constructor; auto.
  destruct Hd; cbn; constructor. nia.
Qed.

Lemma ascending_empty : ascending empty.
Proof. exists []. split; [reflexivity|constructor]. Qed.

(** When every converted row starts with the instant [g k] of the raw
    row's key [k], the timestamps of the table are the keys' instants. *)
Lemma rows_timestamps (key : jrow -> result Z) (g : Z -> Z)
    (conv : jrow -> result (list cell)) (cols : list string) :
  index_of "timestamp" cols = Some 0%nat ->
  (forall r k row, key r = Ok k -> conv r = Ok row ->
                   nth 0 row CNone = CTime (g k)) ->
  forall raw rs ks,
    mapM conv raw = Ok rs -> mapM key raw = Ok ks ->
    timestamps (mkFrame cols rs) = map Some (map g ks).
Proof.
  intros Hi Hrow. unfold timestamps. cbn [columns rows]. rewrite Hi.
  induction raw as [|r raw IH]; cbn; intros rs ks Hc Hk.
  - inversion Hc; inversion Hk. reflexivity.
  - inv_bind Hc. inv_bind Hk. inversion Hc; inversion Hk; subst. cbn.
    f_equal; [|eauto].
    match goal with
    | K1 : key r = Ok _, C1 : conv r = Ok _ |- _ =>
        rewrite (Hrow _ _ _ K1 C1)
    end. reflexivity.
Qed.

Lemma frame_of_ascending (key : jrow -> result Z) (c : Z)
    (conv : jrow -> result (list cell)) (cols : list string)
    (raw : list jrow) (ks : list Z) (df : DataFrame) :
  0 <= c ->
  index_of "timestamp" cols = Some 0%nat ->
  (forall r k row, key r = Ok k -> conv r = Ok row ->
                   nth 0 row CNone = CTime (k * c)) ->
  mapM key raw = Ok ks -> Sorted Z.le ks ->
  Conv.frame_of cols conv raw = Ok df -> ascending df.
Proof.
  intros Hc Hi Hrow Hk HS. unfold Conv.frame_of.
  destruct (Py.is_empty raw).
  - intros H. inversion H. apply ascending_empty.
  - intros H. inv_bind H. inversion H; subst.
    exists (map (fun k => k * c) ks). split.
    + eapply rows_timestamps with (g := fun k => k * c); eauto.
    + now apply Sorted_scale.
Qed.

(** A frame built on a list that [sort_key] ordered is ascending. *)
Lemma sorted_frame_ascending (key : jrow -> result Z) (c : Z)
    (conv : jrow -> result (list cell)) (cols : list string)
    (all_data raw : list jrow) (df : DataFrame) :
  0 <= c ->
  index_of "timestamp" cols = Some 0%nat ->
  (forall r k row, key r = Ok k -> conv r = Ok row ->
                   nth 0 row CNone = CTime (k * c)) ->
  sort_key key all_data = Ok raw ->
  Conv.frame_of cols conv raw = Ok df -> ascending df.
Proof.
  intros Hc Hi Hrow Hs Hf. apply sort_key_spec in Hs.
  destruct Hs as (_ & ks & Hk & HS).
  eapply frame_of_ascending; eauto.
Qed.

Section WithRuntime.
Context `{RT : PyRuntime}.

Lemma field_key (r : jrow) (k : string) (x : scalar) :
  Conv.field r k = Ok x -> Py.key r k = Ok x.
Proof.
  destruct r as [items|fields]; cbn; [discriminate|].
  destruct (Py.lookup k fields); cbn; congruence.
Qed.

(** The first cell of a row, once the conversion has succeeded. *)
Ltac head_cell H K :=
  inv_bind H; inv_bind K; inversion H; subst; cbn; congruence.

Lemma bybit_ohlcv_head r k row :
  Bybit.kline_ts r = Ok k -> Bybit.ohlcv_row r = Ok row ->
  nth 0 row CNone = CTime (k * ns_per_ms).
Proof.
  intros K H. unfold Bybit.ohlcv_row in H. inv_bind H.
  inversion H; subst. cbn. congruence.
Qed.

Lemma bybit_price_head r k row :
  Bybit.kline_ts r = Ok k -> Bybit.price_row r = Ok row ->
  nth 0 row CNone = CTime (k * ns_per_ms).
Proof.
  intros K H. unfold Bybit.price_row in H. inv_bind H.
  inversion H; subst. cbn. congruence.
Qed.

Lemma bybit_funding_head r k row :
  Bybit.funding_ts r = Ok k -> Bybit.funding_row r = Ok row ->
  nth 0 row CNone = CTime (k * ns_per_ms).
Proof.
  intros K H. unfold Bybit.funding_row in H. inv_bind H.
  inversion H; subst. cbn. congruence.
Qed.

Lemma sorted_frame_of_ascending cols conv raw df :
  Bybit.sorted_frame_of cols conv raw = Ok df -> ascending df.
Proof.
  unfold Bybit.sorted_frame_of. destruct (Py.is_empty raw).
  - intros H. inversion H. apply ascending_empty.
  - intros H. inv_bind H. apply ColumnFacts.sort_values_timestamp_spec in H.
    tauto.
Qed.

(** Closes [ascending df] for a frame built on a [sort_key]ed list, given
    the lemma on the first cell of its rows. *)
Ltac by_sort_key head :=
  match goal with
  | K : sort_key _ _ = Ok ?raw, F : Conv.frame_of _ _ ?raw = Ok _ |- _ =>
      refine (@sorted_frame_ascending _ _ _ _ _ _ _ _ _ head K F);
      [unfold ns_per_ms, ns_per_s; lia | reflexivity]
  end.

Lemma bybit_fetch_ascending dt sym s e i p m df m' :
  Bybit.fetch dt sym s e i p m = (Ok df, m') -> ascending df.
Proof.
  intros H.
  destruct dt;
    cbv [Bybit.fetch Bybit.klines_handler Bybit._fetch_funding_rate
         Bybit._fetch_open_interest Bybit._fetch_long_short_ratio
         Bybit._paginate_klines Bybit._paginate_funding
         Bybit._klines_to_ohlcv_df Bybit._klines_to_price_df] in H;
    inv_run; try discriminate H.
  - by_sort_key (@bybit_ohlcv_head).
  - by_sort_key (@bybit_price_head).
  - by_sort_key (@bybit_price_head).
  - by_sort_key (@bybit_funding_head).
  - eapply sorted_frame_of_ascending; exact H.
  - eapply sorted_frame_of_ascending; exact H.
Qed.


(** Takes an array row apart until the converter's pattern is decided. *)
Ltac split_row r H :=
  destruct r as [items|fields]; [|discriminate H];
  repeat (destruct items as [|? items]; try discriminate H).

Ltac okx_head K H :=
  match type of H with
  | context [match ?r with JArr _ => _ | JObj _ => _ end] => split_row r H
  end;
  inv_bind H; inversion H; subst; cbn;
  unfold Okx.row_ts in K; cbn in K;
  match goal with
  | T : Okx.ts_cell _ = Ok _ |- _ =>
      unfold Okx.ts_cell, Py.astype_int in T; inv_bind T; inversion T;
      congruence
  end.

Lemma okx_ohlcv_head r k row :
  Okx.row_ts r = Ok k -> Okx.ohlcv_row r = Ok row ->
  nth 0 row CNone = CTime (k * ns_per_ms).
Proof. intros K H. unfold Okx.ohlcv_row in H. okx_head K H. Qed.

Lemma okx_price_head r k row :
  Okx.row_ts r = Ok k -> Okx.price_row r = Ok row ->
  nth 0 row CNone = CTime (k * ns_per_ms).
Proof. intros K H. unfold Okx.price_row in H. okx_head K H. Qed.

Lemma okx_oi_head sym r k row :
  Okx.row_ts r = Ok k -> Okx.oi_row sym r = Ok row ->
  nth 0 row CNone = CTime (k * ns_per_ms).
Proof. intros K H. unfold Okx.oi_row in H. okx_head K H. Qed.

Lemma okx_ls_head sym r k row :
  Okx.row_ts r = Ok k -> Okx.ls_row sym r = Ok row ->
  nth 0 row CNone = CTime (k * ns_per_ms).
Proof. intros K H. unfold Okx.ls_row in H. okx_head K H. Qed.

Lemma okx_taker_head r k row :
  Okx.row_ts r = Ok k -> Okx.taker_row r = Ok row ->
  nth 0 row CNone = CTime (k * ns_per_ms).
Proof. intros K H. unfold Okx.taker_row in H. okx_head K H. Qed.

Lemma okx_funding_head sym r k row :
  Okx.funding_ts r = Ok k -> Okx.funding_row sym r = Ok row ->
  nth 0 row CNone = CTime (k * ns_per_ms).
Proof.
  intros K H. unfold Okx.funding_row in H. inv_bind H.
  inversion H; subst. cbn.
  match goal with
  | F : Conv.field r "fundingTime" = Ok _ |- _ => apply field_key in F
  end.
  unfold Okx.funding_ts in K. inv_bind K.
  match goal with
  | T : Okx.ts_cell _ = Ok _ |- _ =>
      unfold Okx.ts_cell, Py.astype_int in T; inv_bind T; inversion T;
      congruence
  end.
Qed.

Lemma okx_fetch_ascending dt sym s e i p m df m' :
  Okx.fetch dt sym s e i p m = (Ok df, m') -> ascending df.
Proof.
  intros H.
  destruct dt;
    cbv [Okx.fetch Okx.klines_handler Okx._fetch_funding_rate
         Okx.rubik_handler Okx._paginate_klines Okx._paginate_funding
         Okx._paginate_rubik Okx._klines_to_ohlcv_df
         Okx._klines_to_price_df] in H;
    inv_run; try discriminate H.
  - by_sort_key (@okx_ohlcv_head).
  - by_sort_key (@okx_price_head).
  - by_sort_key (@okx_price_head).
  - by_sort_key (@okx_funding_head sym).
  - by_sort_key (@okx_oi_head sym).
  - by_sort_key (@okx_ls_head sym).
  - by_sort_key (@okx_taker_head).
Qed.

Lemma coinbase_candle_head r k row :
  Coinbase.candle_time r = Ok k -> Coinbase.candle_row r = Ok row ->
  nth 0 row CNone = CTime (k * ns_per_s).
Proof.
  intros K H. unfold Coinbase.candle_row in H. split_row r H.
  inv_bind H. inversion H; subst. cbn.
  unfold Coinbase.candle_time in K.
  destruct s as [t| | |]; try discriminate K.
  inversion K; subst. cbn in *. congruence.
Qed.

Lemma coinbase_fetch_ascending dt sym s e i p m df m' :
  Coinbase.fetch dt sym s e i p m = (Ok df, m') -> ascending df.
Proof.
  intros H.
  destruct dt; cbv [Coinbase.fetch] in H; inv_run; try discriminate H.
  unfold Coinbase._fetch_ohlcv in H.
  destruct (match i with
            | Some i0 => Py.lookup i0 Coinbase._INTERVAL_TO_GRANULARITY
            | None => None
            end); inv_run; [|discriminate H].
  unfold Coinbase._candles_to_df in H.
  destruct (Py.is_empty _).
  - inversion H. apply ascending_empty.
  - inv_bind H. inversion H; subst.
    match goal with
    | K : sort_key _ _ = Ok ?raw, C : mapM _ ?raw = Ok _ |- _ =>
        apply sort_key_spec in K; destruct K as (_ & ks & Hk & HS);
        exists (map (fun k => k * ns_per_s) ks); split;
        [ eapply rows_timestamps with (g := fun k => k * ns_per_s);
          [reflexivity|exact (@coinbase_candle_head)|exact C|exact Hk]
        | apply Sorted_scale; [unfold ns_per_s; lia|exact HS] ]
    end.
Qed.

Lemma upbit_fetch_ascending dt sym s e i p m df m' :
  Upbit.fetch dt sym s e i p m = (Ok df, m') -> ascending df.
Proof.
  intros H.
  destruct dt; cbv [Upbit.fetch] in H; inv_run; try discriminate H.
  unfold Upbit._fetch_ohlcv in H.
  destruct i as [i|]; inv_run; [|discriminate H].
  destruct (Py.lookup i Upbit._INTERVAL_ENDPOINTS); inv_run;
    [|discriminate H].
  unfold Upbit._candles_to_df in H.
  destruct (Py.is_empty _).
  - inversion H. apply ascending_empty.
  - inv_bind H. apply ColumnFacts.sort_values_timestamp_spec in H. tauto.
Qed.

(** C2, amended.  The Bybit, OKX, Coinbase and Upbit adapters sort what
    they accumulated before they return it: every table they return is
    non-decreasing by timestamp, whatever the order of the rows in the
    pages. *)
Theorem sorting_adapters_ascending :
  (forall dt sym s e i p m df m',
      Bybit.fetch dt sym s e i p m = (Ok df, m') -> ascending df)
  /\ (forall dt sym s e i p m df m',
        Okx.fetch dt sym s e i p m = (Ok df, m') -> ascending df)
  /\ (forall dt sym s e i p m df m',
        Coinbase.fetch dt sym s e i p m = (Ok df, m') -> ascending df)
  /\ (forall dt sym s e i p m df m',
        Upbit.fetch dt sym s e i p m = (Ok df, m') -> ascending df).
Proof.
  repeat match goal with |- _ /\ _ => split end.
  - exact bybit_fetch_ascending.
  - exact okx_fetch_ascending.
  - exact coinbase_fetch_ascending.
  - exact upbit_fetch_ascending.
Qed.

End WithRuntime.

Import Transport Schema.

(** C2 as stated fails for Binance, which does not sort: a page that
    arrives newest first comes back newest first. *)
Lemma binance_keeps_page_order :
  match fst (@Binance.fetch RefRuntime.ref_runtime OHLCV "BTCUSDT"
               (VInt Examples.t0) (VInt (Examples.t0 + 600000))
               (Some "1m") None (Http.serving [Examples.descending_page]))
  with
  | Ok df =>
      timestamps df = [Some 1700000060000000000; Some 1700000000000000000]
      /\ ~ ascending df
  | Raise _ => False
  end.
Proof.
  destruct (fst (@Binance.fetch RefRuntime.ref_runtime OHLCV "BTCUSDT"
                   (VInt Examples.t0) (VInt (Examples.t0 + 600000))
                   (Some "1m") None (Http.serving [Examples.descending_page])))
    as [df|err] eqn:E; vm_compute in E; [|discriminate E].
  inversion E; subst df; clear E.
  split; [reflexivity|].
  intros (ts & Hts & HS). cbn in Hts.
  destruct ts as [|a [|b [|c ts]]]; try discriminate Hts.
  inversion Hts; subst.
  inversion HS as [|? ? _ Hd]; subst. inversion Hd; subst. lia.
Qed.

(** Scenario 2 of the specification: a descending Bybit page comes back
    ascending. *)
Lemma sorting_adapters_ascending_witness :
  match @Bybit.fetch RefRuntime.ref_runtime OHLCV "BTCUSDT"
          (VInt Examples.t0) (VInt (Examples.t0 + 600000)) (Some "1m") None
          (Http.serving [Examples.bybit_response Examples.bybit_descending])
  with
  | (Ok df, _) =>
      timestamps df = [Some 1700000000000000000; Some 1700000060000000000;
                       Some 1700000120000000000]
      /\ ascending df
  | (Raise _, _) => False
  end.
Proof.
  destruct (@Bybit.fetch RefRuntime.ref_runtime OHLCV "BTCUSDT"
              (VInt Examples.t0) (VInt (Examples.t0 + 600000)) (Some "1m")
              None
              (Http.serving
                 [Examples.bybit_response Examples.bybit_descending]))
    as [[df|err] m'] eqn:E.
  - split.
    + vm_compute in E. inversion E. reflexivity.
    + destruct (@sorting_adapters_ascending RefRuntime.ref_runtime)
        as (HB & _).
      exact (HB _ _ _ _ _ _ _ _ _ E).
  - vm_compute in E. discriminate E.
Defined.

End OrderFacts.


(** ** Termination of the pagination loops *)

Module PaginationFacts.

Import Generic PaginateFacts.









Section Through.

Variables R C : Type.
Variable cond : C -> bool.
Variable mkreq : C -> Http.request.
Variable step : R -> C -> result (list jrow * option C).
Variable rel : C -> R -> C -> Prop.

Hypothesis rel_step :
  forall cur resp next,
    rel cur resp next ->
    cond next = true /\ exists rows, step resp cur = Ok (rows, Some next).



End Through.



Section WithRuntime.
Context `{RT : PyRuntime}.



















End WithRuntime.


End PaginationFacts.

(** ** The requested window *)

Module WindowFacts.

Import Generic Schema Frame Conv Transport.

(** Filtering pairs on their first component filters the first
    components. *)
Lemma filter_combine_fst {A B : Type} (f : A -> bool) :
  forall (l : list A) (bs : list B),
    List.length l = List.length bs ->
    map fst (filter (fun ab => f (fst ab)) (combine l bs)) = filter f l.
Proof.
  induction l as [|a l IH]; intros [|b bs] Hl; try discriminate Hl;
    [reflexivity|].
  cbn [combine filter fst]. destruct (f a); cbn [map fst];
    rewrite IH by (cbn in Hl; lia); reflexivity.
Qed.

(** The instants that pass the mask are instants inside the window. *)
Lemma in_window_bounds (start_ms end_ms : Z) :
  forall l : list (option Z),
    exists ts, filter (Kraken.in_window start_ms end_ms) l = map Some ts
      /\ Forall (fun t => start_ms * ns_per_ms <= t < end_ms * ns_per_ms) ts.
Proof.
  induction l as [|[t|] l (ts & E & F)]; cbn [filter Kraken.in_window].
  - exists []. split; [reflexivity|constructor].
  - destruct ((start_ms * ns_per_ms <=? t) && (t <? end_ms * ns_per_ms))
      eqn:Ew.
    + exists (t :: ts). cbn [map]. rewrite E. split; [reflexivity|].
      constructor; [|exact F].
      apply andb_true_iff in Ew. destruct Ew as [E1 E2].
      apply Z.leb_le in E1. apply Z.ltb_lt in E2. lia.
    + exists ts. split; assumption.
  - exists ts. split; assumption.
Qed.

Section WithRuntime.
Context `{RT : PyRuntime}.

(** The timestamp cell of a rate row is the instant the mask was applied
    to. *)
Lemma rate_rows_times (symbol : string) :
  forall kept rs,
    mapM (Kraken.rate_row symbol) kept = Ok rs ->
    map (fun r => time_of (nth 0 r CNone)) rs = map fst kept.
Proof.
  induction kept as [|[t r] kept IH]; cbn [mapM]; intros rs H.
  - inversion H. reflexivity.
  - inv_bind H. inversion H; subst; clear H.
    unfold Kraken.rate_row in E. inv_bind E. inversion E; subst; clear E.
    cbn [map fst nth]. rewrite (IH _ E0). destruct t; reflexivity.
Qed.

(** C3, amended.  The Kraken funding-rate fetch makes exactly one call,
    with the symbol as its only parameter, and the table it returns holds
    exactly the records whose timestamp passes the mask
    [start <= timestamp < end]: every row lies in the requested window. *)
Theorem kraken_funding_within_window :
  forall symbol start_time end_time interval period pages df m'
         start_ms end_ms,
    Kraken.fetch FUNDING_RATE symbol start_time end_time interval period
                 (Http.serving pages) = (Ok df, m') ->
    to_milliseconds start_time = Ok start_ms ->
    to_milliseconds end_time = Ok end_ms ->
    Http.calls m'
    = [Http.mkRequest (Kraken.FUTURES_BASE_URL ++ "/historicalfundingrates")
                      [("symbol", pstr symbol)]]
    /\ within start_ms end_ms df
    /\ exists resp rest times,
         pages = resp :: rest
         /\ mapM Kraken.rate_time
                 (match Kraken.rates resp with Some l => l | None => [] end)
            = Ok times
         /\ timestamps df = filter (Kraken.in_window start_ms end_ms) times.
Proof.
  intros symbol start_time end_time interval period pages df m'
         start_ms end_ms H Hs He.
  cbn [Kraken.fetch] in H. unfold Kraken._fetch_funding_rate in H.
  apply bindM_ok in H. destruct H as (resp & m1 & Eg & H).
  unfold Http.get, Http.serving in Eg. cbn [Http.pending Http.calls] in Eg.
  destruct pages as [|resp0 rest]; [discriminate Eg|].
  inversion Eg; subst resp0 m1; clear Eg.
  apply bindM_ok in H. destruct H as (data & m2 & Ed & H).
  apply lift_ok in Ed. destruct Ed as [Ed ->].
  assert (data = resp) as ->.
  { unfold Kraken._api_get_futures in Ed.
    destruct (Kraken.result_ resp) as [[es|s]|]; try discriminate Ed.
    destruct (String.eqb s "success"); congruence. }
  cbv zeta in H.
  set (rates := match Kraken.rates resp with Some l => l | None => [] end)
    in *.
  assert (Hfilter : forall times,
             mapM Kraken.rate_time rates = Ok times ->
             timestamps df = filter (Kraken.in_window start_ms end_ms) times ->
             within start_ms end_ms df
             /\ exists resp' rest' times',
                 resp :: rest = resp' :: rest'
                 /\ mapM Kraken.rate_time
                      (match Kraken.rates resp' with
                       | Some l => l | None => [] end) = Ok times'
                 /\ timestamps df
                    = filter (Kraken.in_window start_ms end_ms) times').
  { intros times Ht Hdf. split.
    - unfold within. rewrite Hdf. apply in_window_bounds.
    - exists resp, rest, times. auto. }
  destruct (Py.is_empty rates) eqn:Er.
  - apply ret_ok in H. destruct H as [<- ->]. split; [reflexivity|].
    apply (Hfilter []); [|reflexivity].
    destruct rates; [reflexivity|discriminate Er].
  - apply bindM_ok in H. destruct H as (times & m3 & Et & H).
    apply lift_ok in Et. destruct Et as [Et ->].
    apply bindM_ok in H. destruct H as (s & m4 & Es & H).
    apply lift_ok in Es. destruct Es as [Es ->].
    apply bindM_ok in H. destruct H as (e & m5 & Ee & H).
    apply lift_ok in Ee. destruct Ee as [Ee ->].
    assert (s = start_ms) as -> by congruence.
    assert (e = end_ms) as -> by congruence.
    pose proof (mapM_length _ _ Et) as Hlen.
    pose proof (@filter_combine_fst _ jrow
                  (Kraken.in_window start_ms end_ms) times rates Hlen) as Hk.
    set (kept := filter _ (combine times rates)) in *.
    destruct (Py.is_empty kept) eqn:Ek.
    + apply ret_ok in H. destruct H as [<- ->]. split; [reflexivity|].
      apply (Hfilter times Et). rewrite <- Hk.
      destruct kept; [reflexivity|discriminate Ek].
    + apply bindM_ok in H. destruct H as (rs & m6 & Ers & H).
      apply lift_ok in Ers. destruct Ers as [Ers ->].
      apply ret_ok in H. destruct H as [<- ->]. split; [reflexivity|].
      apply (Hfilter times Et). rewrite <- Hk.
      unfold timestamps. cbn. exact (rate_rows_times _ _ Ers).
Qed.

End WithRuntime.

(** C3 as stated fails for an adapter that trusts the exchange: asked
    for the first minute, Binance returns all three rows of the page it
    was served, two of them at or after the end. *)
Lemma binance_returns_rows_outside_window :
  match fst (@Binance.fetch RefRuntime.ref_runtime OHLCV "BTCUSDT"
               (VInt Examples.t0) (VInt (Examples.t0 + 60000))
               (Some "1m") None (Http.serving [Examples.batch1]))
  with
  | Ok df =>
      timestamps df = [Some 1700000000000000000; Some 1700000060000000000;
                       Some 1700000120000000000]
      /\ ~ within Examples.t0 (Examples.t0 + 60000) df
  | Raise _ => False
  end.
Proof.
  destruct (fst (@Binance.fetch RefRuntime.ref_runtime OHLCV "BTCUSDT"
                   (VInt Examples.t0) (VInt (Examples.t0 + 60000))
                   (Some "1m") None (Http.serving [Examples.batch1])))
    as [df|err] eqn:E; vm_compute in E; [|discriminate E].
  inversion E; subst df; clear E.
  split; [reflexivity|].
  intros (ts & Hts & HF). cbn in Hts.
  destruct ts as [|a [|b [|c ts]]]; try discriminate Hts.
  inversion Hts; subst.
  inversion HF as [|? ? _ HF1]; subst. inversion HF1 as [|? ? Hb _]; subst.
  unfold Examples.t0, ns_per_ms in Hb. lia.
Qed.

(** The funding-rate test of the Kraken adapter: of the three records the
    exchange returns, the one inside 2024-01-01 is kept. *)
Lemma kraken_funding_within_window_witness :
  match @Kraken.fetch RefRuntime.ref_runtime FUNDING_RATE "PF_XBTUSD"
          (VStr "2024-01-01") (VStr "2024-01-02") None None
          (Http.serving [Examples.kraken_funding_response])
  with
  | (Ok df, m') =>
      timestamps df = [Some 1704067200000000000]
      /\ List.length (Http.calls m') = 1%nat
      /\ within 1704067200000 1704153600000 df
  | (Raise _, _) => False
  end.
Proof.
  destruct (@Kraken.fetch RefRuntime.ref_runtime FUNDING_RATE "PF_XBTUSD"
              (VStr "2024-01-01") (VStr "2024-01-02") None None
              (Http.serving [Examples.kraken_funding_response]))
    as [[df|err] m'] eqn:E.
  - destruct (@kraken_funding_within_window RefRuntime.ref_runtime
                "PF_XBTUSD" (VStr "2024-01-01") (VStr "2024-01-02") None None
                [Examples.kraken_funding_response] df m'
                1704067200000 1704153600000 E)
      as (Hc & Hw & _); [vm_compute; reflexivity|vm_compute; reflexivity|].
    split; [vm_compute in E; inversion E; reflexivity|].
    split; [rewrite Hc; reflexivity|exact Hw].
  - vm_compute in E. discriminate E.
Defined.

End WindowFacts.

(** ** Bybit's long/short ratio *)

Module BybitRatioFacts.

Import Generic Schema Frame Conv Transport.

Lemma nzd_ok {A : Type} (a : A) : no_zero_division (Ok a).
Proof. intros msg. discriminate. Qed.

Lemma nzd_bind {A B : Type} (m : result A) (k : A -> result B) :
  no_zero_division m ->
  (forall a, m = Ok a -> no_zero_division (k a)) ->
  no_zero_division (bind m k).
Proof.
  intros Hm Hk. destruct m as [a|e]; cbn; [now apply Hk|].
  intros msg H. apply (Hm msg). congruence.
Qed.

Lemma nzd_mapM {A B : Type} (f : A -> result B) :
  (forall a, no_zero_division (f a)) ->
  forall l, no_zero_division (mapM f l).
Proof.
  intros Hf. induction l as [|a l IH]; cbn [mapM]; [apply nzd_ok|].
  apply nzd_bind; [apply Hf|]. intros b _.
  apply nzd_bind; [exact IH|]. intros bs _. apply nzd_ok.
Qed.

Lemma nzd_sort_values (df : DataFrame) :
  no_zero_division (sort_values_timestamp df).
Proof.
  unfold sort_values_timestamp.
  destruct (index_of "timestamp" (columns df)) as [i|];
    [|intros msg; discriminate].
  apply nzd_bind; [|intros; apply nzd_ok].
  unfold sort_key. apply nzd_bind; [|intros; apply nzd_ok].
  apply nzd_mapM. intros r.
  destruct (time_of (nth i r CNone)); intros msg; discriminate.
Qed.

Section WithRuntime.
Context `{RT : PyRuntime}.

Lemma nzd_key (r : jrow) (k : string) : no_zero_division (Py.key r k).
Proof.
  destruct r as [items|fields]; cbn; intros msg; try discriminate.
  destruct (Py.lookup k fields); discriminate.
Qed.

Lemma nzd_float (x : scalar) : no_zero_division (Py.float x).
Proof.
  destruct x as [z|f|s|]; cbn; intros msg; try discriminate.
  destruct (float_of_str s); discriminate.
Qed.

Lemma nzd_int (x : scalar) : no_zero_division (Py.int x).
Proof.
  destruct x as [z|f|s|]; cbn; intros msg; try discriminate.
  - destruct f; discriminate.
  - destruct (int_of_str s); discriminate.
Qed.

(** The guard of the ratio: the division is reached with a divisor that
    is not zero only. *)
Lemma nzd_ls_row (item : jrow) : no_zero_division (Bybit.ls_row item).
Proof.
  unfold Bybit.ls_row.
  apply nzd_bind; [apply nzd_bind; [apply nzd_key|intros; apply nzd_float]|].
  intros buy_ratio _.
  apply nzd_bind; [apply nzd_bind; [apply nzd_key|intros; apply nzd_float]|].
  intros sell_ratio _.
  apply nzd_bind; [apply nzd_bind; [apply nzd_key|intros; apply nzd_int]|].
  intros timestamp _.
  apply nzd_bind; [apply nzd_key|]. intros symbol _.
  apply nzd_bind; [|intros; apply nzd_ok].
  destruct (float_is_zero sell_ratio) eqn:Ez; cbn [negb]; [apply nzd_ok|].
  unfold float_div. rewrite Ez. intros msg.
  destruct buy_ratio, sell_ratio; discriminate.
Qed.

(** C10.  A record whose sellRatio parses to zero gets NaN as its
    long_short_ratio, without dividing; no conversion of a record raises
    ZeroDivisionError, and neither does fetch(LONG_SHORT_RATIO, ...),
    whatever the response. *)
Theorem bybit_ratio_guards_zero_sell_ratio :
  (forall item buy_ratio sell_ratio timestamp symbol,
      (v <- Py.key item "buyRatio" ;; Py.float v) = Ok buy_ratio ->
      (v <- Py.key item "sellRatio" ;; Py.float v) = Ok sell_ratio ->
      (v <- Py.key item "timestamp" ;; Py.int v) = Ok timestamp ->
      Py.key item "symbol" = Ok symbol ->
      float_is_zero sell_ratio = true ->
      Bybit.ls_row item
      = Ok [CTime (timestamp * ns_per_ms); of_scalar symbol; CFloat nan;
            CFloat buy_ratio; CFloat sell_ratio])
  /\ (forall item, no_zero_division (Bybit.ls_row item))
  /\ (forall symbol start_time end_time interval period m,
        no_zero_division
          (fst (Bybit.fetch LONG_SHORT_RATIO symbol start_time end_time
                            interval period m))).
Proof.
  split; [|split].
  - intros item buy_ratio sell_ratio timestamp symbol Hb Hs Ht Hy Hz.
    unfold Bybit.ls_row. rewrite Hb, Hs, Ht, Hy. cbn [bind].
    rewrite Hz. reflexivity.
  - exact nzd_ls_row.
  - intros symbol start_time end_time interval period m.
    cbn [Bybit.fetch]. unfold Bybit._fetch_long_short_ratio. cbv zeta.
    unfold Http.bindM at 1. unfold Http.get.
    destruct (Http.pending m) as [|resp rest];
      [intros msg; discriminate|].
    unfold Http.bindM, Http.lift.
    destruct (Bybit._api_get resp) as [payload|e] eqn:Ea.
    + cbn [fst]. unfold Bybit.sorted_frame_of.
      destruct (Py.is_empty (Bybit.items_of payload)); [apply nzd_ok|].
      apply nzd_bind; [apply nzd_mapM, nzd_ls_row|].
      intros rs _. apply nzd_sort_values.
    + cbn [fst]. intros msg Hm. inversion Hm; subst e.
      unfold Bybit._api_get in Ea.
      destruct (negb _); [discriminate Ea|].
      destruct (Bybit.result_ resp); discriminate Ea.
Qed.

(** C9.  The long/short fetch does not depend on the start and end
    arguments; it issues exactly one request, with limit 500 and no time
    parameter; and the table it returns holds the conversion of every
    record of the response, whatever its timestamp, in ascending order. *)
Theorem bybit_long_short_ignores_window :
  forall symbol start_time end_time interval period,
    (forall start_time' end_time' m,
        Bybit.fetch LONG_SHORT_RATIO symbol start_time' end_time'
                    interval period m
        = Bybit.fetch LONG_SHORT_RATIO symbol start_time end_time
                      interval period m)
    /\ (forall m,
          Http.calls
            (snd (Bybit.fetch LONG_SHORT_RATIO symbol start_time end_time
                              interval period m))
          = (Http.calls m
             ++ [Http.mkRequest
                   (Bybit.BASE_URL ++ "/v5/market/account-ratio")
                   [("category", pstr "linear"); ("symbol", pstr symbol);
                    ("period",
                     opt (Bybit.translate Bybit._PERIOD_MAP period));
                    ("limit", pint 500)]])%list)
    /\ (forall resp rest calls df m',
          Bybit.fetch LONG_SHORT_RATIO symbol start_time end_time
                      interval period (Http.mkMock (resp :: rest) calls)
          = (Ok df, m') ->
          exists converted,
            mapM Bybit.ls_row (Bybit.page_of resp) = Ok converted
            /\ Permutation (rows df) converted
            /\ ascending df).
Proof.
  intros symbol start_time end_time interval period.
  split; [reflexivity|]. split.
  - intros m. cbn [Bybit.fetch]. unfold Bybit._fetch_long_short_ratio.
    cbv zeta. unfold Http.bindM at 1. unfold Http.get.
    destruct (Http.pending m) as [|resp rest]; [reflexivity|].
    unfold Http.bindM, Http.lift.
    destruct (Bybit._api_get resp); reflexivity.
  - intros resp rest calls df m' H.
    cbn [Bybit.fetch] in H. unfold Bybit._fetch_long_short_ratio in H.
    cbv zeta in H.
    apply bindM_ok in H. destruct H as (resp' & m1 & Eg & H).
    unfold Http.get in Eg. cbn [Http.pending Http.calls] in Eg.
    inversion Eg; subst resp' m1; clear Eg.
    apply bindM_ok in H. destruct H as (payload & m2 & Ea & H).
    apply lift_ok in Ea. destruct Ea as [Ea _].
    apply lift_ok in H. destruct H as [H _].
    assert (Hp : Bybit.page_of resp = Bybit.items_of payload).
    { unfold Bybit._api_get in Ea. destruct (negb _); [discriminate Ea|].
      unfold Bybit.page_of.
      destruct (Bybit.result_ resp); cbn in Ea; congruence. }
    rewrite Hp. unfold Bybit.sorted_frame_of in H.
    destruct (Bybit.items_of payload) as [|item items] eqn:Ei;
      cbn [Py.is_empty] in H.
    + inversion H; subst df. exists []. split; [reflexivity|].
      split; [constructor|]. exists []. split; [reflexivity|constructor].
    + inv_bind H. exists v. split; [exact E|].
      apply ColumnFacts.sort_values_timestamp_spec in H.
      destruct H as (_ & HP & HA).
      split; assumption.
Qed.

End WithRuntime.

(** Two records weeks before the requested day, newest first and one with
    no short side: both come back, oldest first, and the ratio of the one
    without a short side is NaN. *)
Lemma bybit_long_short_ignores_window_witness :
  match @Bybit.fetch RefRuntime.ref_runtime LONG_SHORT_RATIO "BTCUSDT"
          (VStr "2024-01-01") (VStr "2024-01-02") None (Some "1h")
          (Http.mkMock [Examples.bybit_response Examples.bybit_ratios] [])
  with
  | (Ok df, _) =>
      timestamps df = [Some 1700000000000000000; Some 1700003600000000000]
      /\ ascending df
      /\ ~ within 1704067200000 1704153600000 df
  | (Raise _, _) => False
  end.
Proof.
  destruct (@Bybit.fetch RefRuntime.ref_runtime LONG_SHORT_RATIO "BTCUSDT"
              (VStr "2024-01-01") (VStr "2024-01-02") None (Some "1h")
              (Http.mkMock [Examples.bybit_response Examples.bybit_ratios]
                           []))
    as [[df|err] m'] eqn:E.
  - destruct (@bybit_long_short_ignores_window RefRuntime.ref_runtime
                "BTCUSDT" (VStr "2024-01-01") (VStr "2024-01-02") None
                (Some "1h")) as (_ & _ & Hrows).
    destruct (Hrows _ _ _ _ _ E) as (converted & _ & _ & HA).
    vm_compute in E. inversion E; subst df; clear E.
    split; [reflexivity|]. split; [exact HA|].
    intros (ts & Hts & HF). cbn in Hts.
    destruct ts as [|a [|b [|c ts]]]; try discriminate Hts.
    inversion Hts; subst.
    inversion HF as [|? ? Ha _]; subst. unfold ns_per_ms in Ha. lia.
  - vm_compute in E. discriminate E.
Defined.

Lemma bybit_ratio_guards_zero_sell_ratio_witness :
  @Bybit.ls_row RefRuntime.ref_runtime
     (Examples.bybit_ratio "1" "0" Examples.t0)
  = Ok [CTime 1700000000000000000; CStr "BTCUSDT"; CFloat nan;
        CFloat (Fin 1); CFloat (Fin 0)].
Proof.
  exact (proj1 (@bybit_ratio_guards_zero_sell_ratio RefRuntime.ref_runtime)
           (Examples.bybit_ratio "1" "0" Examples.t0) (Fin 1) (Fin 0)
           1700000000000 (SStr "BTCUSDT")
           eq_refl eq_refl eq_refl eq_refl eq_refl).
Defined.

End BybitRatioFacts.

(** ** The GET primitive: success, exhaustion and the time spent waiting *)

Module RetryFacts.

Import Transport TransportFacts.

Section Request.

Variables J P : Type.

Lemma total_sleep_app (t1 t2 : list (event P)) :
  (total_sleep (t1 ++ t2) == total_sleep t1 + total_sleep t2)%Q.
Proof.
  induction t1 as [|[u p|s] t1 IH]; cbn [app total_sleep].
  - now rewrite Qplus_0_l.
  - exact IH.
  - rewrite IH. now rewrite Qplus_assoc.
Qed.

(** The waits of [k] retried attempts double from [2 ** (a + 1)]: they
    add up to [2 ** (a + k + 1) - 2 ** (a + 1)] seconds. *)
Lemma total_sleep_backoff url (params : P) :
  forall k a, 0 <= a ->
    (total_sleep (backoff_trace url params a k)
     == inject_Z (2 ^ (a + Z.of_nat k + 1) - 2 ^ (a + 1)))%Q.
Proof.
  induction k as [|k IH]; intros a Ha; cbn [backoff_trace total_sleep].
  - rewrite Z.add_0_r, Z.sub_diag. reflexivity.
  - rewrite IH by lia. rewrite <- inject_Z_plus.
    replace (a + 1 + Z.of_nat k + 1) with (a + Z.of_nat (S k) + 1) by lia.
    replace (2 ^ (a + 1 + 1)) with (2 * 2 ^ (a + 1))
      by (rewrite <- Z.pow_succ_r by lia; f_equal; lia).
    apply inject_Z_injective. lia.
Qed.


(** X2.  When the last attempt of the budget ends in a request exception,
    the call fails at once, without sleeping again: the error names the
    budget and the exception, and [max_retries] requests were issued. *)
Theorem request_fails_on_last_exception c (net : nat -> outcome J) url
    (params : P) (n : nat) exc :
  max_retries c = Z.of_nat (S n) ->
  (forall i, (i < n)%nat -> retried_at c (Z.of_nat i) (net i)) ->
  net n = Throws exc ->
  _request c net url params
  = (Raise (RuntimeError ("Request failed after " ++ dec (max_retries c)
                          ++ " retries: " ++ exc)),
     (backoff_trace url params 0 n ++ [EvGet url params])%list)
  /\ requests_issued (snd (_request c net url params)) = S n
  /\ (total_sleep (snd (_request c net url params))
      == inject_Z (2 ^ (Z.of_nat n + 1) - 2))%Q.
Proof.
  intros Hmax Hret Hnet.
  assert (E : _request c net url params
              = (Raise (RuntimeError ("Request failed after "
                                      ++ dec (max_retries c)
                                      ++ " retries: " ++ exc)),
                 (backoff_trace url params 0 n ++ [EvGet url params])%list)).
  { unfold _request.
    rewrite (@request_loop_retried J P c net url params n); try lia.
    2:{ intros i Hi. cbn. apply Hret, Hi. }
    destruct (Z.to_nat (max_retries c) - n)%nat as [|fuel] eqn:Ef; [lia|].
    cbn [request_loop]. rewrite Z.add_0_l, Nat2Z.id, Hnet.
    replace (Z.of_nat n =? max_retries c - 1) with true
      by (symmetry; apply Z.eqb_eq; lia).
    reflexivity. }
  split; [exact E|]. rewrite E. cbn [snd]. split.
  - rewrite requests_issued_app, requests_issued_backoff. cbn. lia.
  - rewrite total_sleep_app, total_sleep_backoff by lia.
    cbn [total_sleep]. rewrite Qplus_0_r.
    replace (2 ^ (0 + 1)) with 2 by reflexivity.
    rewrite Z.add_0_l. reflexivity.
Qed.

(** X3.  A client that is answered 429 throughout uses its whole budget: it
    issues [max_retries] requests, sleeps after every one of them, the last
    included, [2 ** (max_retries + 1) - 2] seconds in all, and then raises
    the error that names the budget and the URL. With no budget it raises
    without a request. *)
Theorem persistent_rate_limit_waits c (net : nat -> outcome J) url
    (params : P) :
  (forall i, Z.of_nat i < max_retries c -> rate_limited (net i)) ->
  let n := Z.to_nat (max_retries c) in
  _request c net url params
  = (Raise (RuntimeError ("Max retries (" ++ dec (max_retries c)
                          ++ ") exceeded for " ++ url)),
     backoff_trace url params 0 n)
  /\ requests_issued (backoff_trace url params 0 n) = n
  /\ List.length (backoff_trace url params 0 n) = (2 * n)%nat
  /\ (total_sleep (backoff_trace url params 0 n)
      == inject_Z (2 ^ (Z.of_nat n + 1) - 2))%Q.
Proof.
  intros Hnet n. split; [|split; [|split]].
  - unfold _request. fold n.
    rewrite (@request_loop_retried J P c net url params n); try lia.
    + rewrite Nat.sub_diag. reflexivity.
    + intros i Hi. cbn [Z.to_nat Nat.add Z.add].
      specialize (Hnet i ltac:(lia)).
      destruct (net i); cbn in *; [exact Hnet|contradiction].
  - apply requests_issued_backoff.
  - apply backoff_trace_length.
  - rewrite total_sleep_backoff by lia.
    replace (2 ^ (0 + 1)) with 2 by reflexivity.
    rewrite Z.add_0_l. reflexivity.
Qed.

End Request.


Lemma request_fails_on_last_exception_witness :
  @_request unit unit default_client (fun _ => Throws "connection reset")
            Examples.url tt
  = (Raise (RuntimeError
              "Request failed after 3 retries: connection reset"),
     [EvGet Examples.url tt; EvSleep (inject_Z 2); EvGet Examples.url tt;
      EvSleep (inject_Z 4); EvGet Examples.url tt]).
Proof.
  destruct (@request_fails_on_last_exception unit unit default_client
              (fun _ => Throws "connection reset") Examples.url tt
              2 "connection reset") as (E & _).
  - reflexivity.
  - intros i Hi. cbn. lia.
  - reflexivity.
  - exact E.
Defined.

Lemma persistent_rate_limit_waits_witness :
  (total_sleep (snd (_request default_client Examples.always_429
                              Examples.url tt)) == 14)%Q.
Proof.
  destruct (@persistent_rate_limit_waits unit unit default_client
              Examples.always_429 Examples.url tt) as (E & _ & _ & Hs).
  - intros i _. reflexivity.
  - rewrite E. cbn [snd]. rewrite Hs. reflexivity.
Defined.

End RetryFacts.

(** ** The pagination loops: requests made, rows accumulated *)

Module LoopFacts.

Import Generic PaginateFacts.

Section Paginate.

Variables R C : Type.
Variable cond : C -> bool.
Variable mkreq : C -> Http.request.
Variable step : R -> C -> result (list jrow * option C).

(** A loop whose condition fails at entry returns nothing and leaves the
    client untouched. *)
Lemma paginate_idle cur m :
  cond cur = false -> Http.paginate cond mkreq step cur m = (Ok [], m).
Proof.
  intros Hc. unfold Http.paginate. destruct m as [pending calls].
  destruct pending; cbn; rewrite Hc; reflexivity.
Qed.



(** Each cursor after the first is the one a step handed on from the
    cursor before it. *)
Lemma paginate_from_linked :
  forall pending calls cur acc,
    exists cursors,
      Http.calls (snd (Http.paginate_from cond mkreq step pending calls cur acc))
      = (calls ++ map mkreq cursors)%list
      /\ Forall (fun c => cond c = true) cursors
      /\ (forall c, hd_error cursors = Some c -> c = cur)
      /\ Http.linked
           (fun c c' => exists resp new_rows,
                step resp c = Ok (new_rows, Some c'))
           cursors.
Proof.
  induction pending as [|resp rest IH]; intros calls cur acc;
    cbn [Http.paginate_from]; destruct (cond cur) eqn:Hc.
  - exists [cur]. cbn. repeat split; auto. intros c H. now inversion H.
  - exists []. cbn. rewrite app_nil_r. repeat split; auto. discriminate.
  - destruct (step resp cur) as [[new_rows [cur'|]]|err] eqn:E.
    + destruct (IH (calls ++ [mkreq cur])%list cur' (acc ++ new_rows)%list)
        as (cs & Hcs & HF & Hhd & HL).
      exists (cur :: cs). rewrite Hcs. cbn [map]. rewrite <- app_assoc.
      split; [reflexivity|]. split; [constructor; assumption|].
      split; [intros c H; now inversion H|].
      cbn [Http.linked]. destruct cs as [|c' cs']; [exact I|].
      split; [|exact HL]. rewrite (Hhd c' eq_refl). eauto.
    + exists [cur]. cbn. repeat split; auto. intros c H. now inversion H.
    + exists [cur]. cbn. repeat split; auto. intros c H. now inversion H.
  - exists []. cbn. rewrite app_nil_r. repeat split; auto. discriminate.
Qed.

Lemma paginate_linked cur m :
  exists cursors,
    Http.calls (snd (Http.paginate cond mkreq step cur m))
    = (Http.calls m ++ map mkreq cursors)%list
    /\ Forall (fun c => cond c = true) cursors
    /\ (forall c, hd_error cursors = Some c -> c = cur)
    /\ Http.linked
         (fun c c' => exists resp new_rows,
              step resp c = Ok (new_rows, Some c'))
         cursors.
Proof. unfold Http.paginate. apply paginate_from_linked. Qed.

(** When every step hands on the page it was given, what the loop returns
    is the pages it took, one after the other. *)
Lemma paginate_from_concat (f : R -> list jrow) :
  (forall resp cur new_rows next,
      step resp cur = Ok (new_rows, next) -> new_rows = f resp) ->
  forall pending calls cur acc all m',
    Http.paginate_from cond mkreq step pending calls cur acc = (Ok all, m') ->
    exists n,
      Http.served (Http.mkMock pending calls) m' n
      /\ all = (acc ++ List.concat (map f (firstn n pending)))%list.
Proof.
  intros Hstep.
  induction pending as [|resp rest IH]; intros calls cur acc all m' H;
    cbn [Http.paginate_from] in H; destruct (cond cur).
  - discriminate H.
  - inversion H; subst. exists 0%nat. unfold Http.served. cbn.
    rewrite app_nil_r. repeat split; lia.
  - destruct (step resp cur) as [[new_rows [cur'|]]|err] eqn:E.
    + apply IH in H. destruct H as (n & (Hp & Hn & Hc) & Hall).
      cbn in Hp, Hn, Hc. exists (S n). unfold Http.served. cbn.
      rewrite length_app in Hc. cbn in Hc.
      rewrite (Hstep _ _ _ _ E) in Hall. rewrite Hall, <- app_assoc.
      repeat split; try lia. exact Hp.
    + inversion H; subst. exists 1%nat. unfold Http.served. cbn.
      rewrite length_app, app_nil_r, (Hstep _ _ _ _ E). cbn.
      repeat split; lia.
    + discriminate H.
  - inversion H; subst. exists 0%nat. unfold Http.served. cbn.
    rewrite app_nil_r. repeat split; lia.
Qed.

Lemma paginate_concat (f : R -> list jrow) :
  (forall resp cur new_rows next,
      step resp cur = Ok (new_rows, next) -> new_rows = f resp) ->
  forall cur m all m',
    Http.paginate cond mkreq step cur m = (Ok all, m') ->
    exists n,
      Http.served m m' n
      /\ all = List.concat (map f (firstn n (Http.pending m))).
Proof.
  intros Hstep cur m all m' H. unfold Http.paginate in H.
  apply (paginate_from_concat f Hstep) in H.
  destruct m as [pending calls]. exact H.
Qed.

(** A measure of the cursor that is positive while the loop condition
    holds and decreases at every step bounds the number of requests,
    whatever the responses. *)
Lemma paginate_from_bound (mu : C -> nat) :
  (forall cur, cond cur = true -> (0 < mu cur)%nat) ->
  (forall resp cur new_rows cur',
      cond cur = true -> step resp cur = Ok (new_rows, Some cur') ->
      (mu cur' < mu cur)%nat) ->
  forall pending calls cur acc,
    (List.length
       (Http.calls (snd (Http.paginate_from cond mkreq step pending calls
                                            cur acc)))
     <= List.length calls + mu cur)%nat.
Proof.
  intros Hpos Hdec.
  induction pending as [|resp rest IH]; intros calls cur acc;
    cbn [Http.paginate_from]; destruct (cond cur) eqn:Hc.
  - cbn. rewrite length_app. cbn. specialize (Hpos _ Hc). lia.
  - cbn. lia.
  - specialize (Hpos _ Hc).
    destruct (step resp cur) as [[new_rows [cur'|]]|err] eqn:E.
    + specialize (Hdec _ _ _ _ Hc E).
      eapply Nat.le_trans; [apply IH|]. rewrite length_app. cbn. lia.
    + cbn. rewrite length_app. cbn. lia.
    + cbn. rewrite length_app. cbn. lia.
  - cbn. lia.
Qed.

Lemma paginate_bound (mu : C -> nat) :
  (forall cur, cond cur = true -> (0 < mu cur)%nat) ->
  (forall resp cur new_rows cur',
      cond cur = true -> step resp cur = Ok (new_rows, Some cur') ->
      (mu cur' < mu cur)%nat) ->
  forall cur m,
    (List.length (Http.calls (snd (Http.paginate cond mkreq step cur m)))
     <= List.length (Http.calls m) + mu cur)%nat.
Proof.
  intros Hpos Hdec cur m. unfold Http.paginate.
  now apply paginate_from_bound.
Qed.

(** The same bound when the decrease holds for the responses in hand and
    for the cursors an invariant admits. *)
Lemma paginate_from_bound_in (Inv : C -> Prop) (Good : R -> Prop)
    (mu : C -> nat) :
  (forall cur, Inv cur -> cond cur = true -> (0 < mu cur)%nat) ->
  (forall resp cur new_rows cur',
      Good resp -> Inv cur -> cond cur = true ->
      step resp cur = Ok (new_rows, Some cur') ->
      Inv cur' /\ (mu cur' < mu cur)%nat) ->
  forall pending calls cur acc,
    Forall Good pending -> Inv cur ->
    (List.length
       (Http.calls (snd (Http.paginate_from cond mkreq step pending calls
                                            cur acc)))
     <= List.length calls + mu cur)%nat.
Proof.
  intros Hpos Hdec.
  induction pending as [|resp rest IH]; intros calls cur acc HG HI;
    cbn [Http.paginate_from]; destruct (cond cur) eqn:Hc.
  - cbn. rewrite length_app. cbn. specialize (Hpos _ HI Hc). lia.
  - cbn. lia.
  - specialize (Hpos _ HI Hc). inversion HG as [|? ? Hg HG']; subst.
    destruct (step resp cur) as [[new_rows [cur'|]]|err] eqn:E.
    + destruct (Hdec _ _ _ _ Hg HI Hc E) as [HI' Hlt].
      eapply Nat.le_trans; [apply IH; assumption|].
      rewrite length_app. cbn. lia.
    + cbn. rewrite length_app. cbn. lia.
    + cbn. rewrite length_app. cbn. lia.
  - cbn. lia.
Qed.

(** A step that raises on the first response ends the loop there, after
    the one request that fetched it. *)
Lemma paginate_aborts cur resp rest calls e :
  cond cur = true -> step resp cur = Raise e ->
  Http.paginate cond mkreq step cur (Http.mkMock (resp :: rest) calls)
  = (Raise e, Http.mkMock rest (calls ++ [mkreq cur])).
Proof.
  intros Hc He. unfold Http.paginate. cbn. now rewrite Hc, He.
Qed.

End Paginate.

Section WithRuntime.
Context `{RT : PyRuntime}.

(** X4.  While the [last] that Kraken serves is not a float, the OHLC
    cursor is an integer that only moves forward: whatever else the
    exchange answers, the loop makes at most one request per second of
    the window. *)
Theorem kraken_ohlc_calls_bounded symbol kraken_interval start_s end_s m :
  Forall Kraken.integral_last (Http.pending m) ->
  (List.length
     (Http.calls (snd (Kraken.ohlc_loop symbol kraken_interval start_s end_s
                                        m)))
   <= List.length (Http.calls m) + Z.to_nat (end_s - start_s))%nat.
Proof.
  intros Hint. unfold Kraken.ohlc_loop, Http.paginate.
  apply paginate_from_bound_in
    with (Inv := fun cur => exists z, cur = Py.NInt z)
         (Good := Kraken.integral_last)
         (mu := fun cur => match cur with
                           | Py.NInt z => Z.to_nat (end_s - z)
                           | Py.NFloat _ => 0%nat
                           end);
    [| |exact Hint|eauto].
  - intros cur (z & ->) Hc. cbn in Hc. apply Z.ltb_lt in Hc. lia.
  - intros resp cur new_rows cur' Hg (z & ->) Hc Hs.
    cbn in Hc. apply Z.ltb_lt in Hc.
    unfold Kraken.ohlc_step in Hs.
    apply bind_ok in Hs. destruct Hs as (entries & He & Hs).
    assert (Hr : Kraken.result_ resp = Some (Kraken.RObject entries)).
    { unfold Kraken._api_get_spot in He. destruct (negb _); [discriminate|].
      destruct (Kraken.result_ resp) as [[es|s]|]; congruence. }
    unfold Kraken.integral_last in Hg. rewrite Hr in Hg.
    cbv zeta in Hs.
    destruct (filter _ (map fst entries)) as [|k ks]; [discriminate Hs|].
    destruct (Py.get_default k entries (Kraken.EVal SNull)) as [rows|x].
    + destruct (Py.is_empty rows); [discriminate Hs|].
      apply bind_ok in Hs. destruct Hs as (kept & _ & Hs).
      apply bind_ok in Hs. destruct Hs as (last & Hl & Hs).
      destruct (Py.get_default "last" entries (Kraken.EVal (SInt 0)))
        as [rs|[l|f|t|]]; try discriminate Hl.
      * inversion Hl; subst last. cbn [Py.num_le] in Hs.
        destruct (l <=? z) eqn:El; inversion Hs; subst.
        apply Z.leb_gt in El. split; [eauto|lia].
      * exfalso. now apply (Hg f).
    + destruct (negb (Py.truthy x)); discriminate Hs.
Qed.

(** X5.  While the time of the last row of every page Phemex serves is
    not a float, the kline cursor is an integer that only moves forward:
    whatever else the exchange answers, the loop makes at most one request
    per second of the window. *)
Theorem phemex_klines_calls_bounded symbol resolution start_s end_s m :
  Forall Phemex.integral_times (Http.pending m) ->
  (List.length
     (Http.calls (snd (Phemex._paginate_klines symbol resolution start_s
                                               end_s m)))
   <= List.length (Http.calls m) + Z.to_nat (end_s - start_s))%nat.
Proof.
  intros Hint. unfold Phemex._paginate_klines, Http.paginate.
  apply paginate_from_bound_in
    with (Inv := fun cur => exists z, cur = Py.NInt z)
         (Good := Phemex.integral_times)
         (mu := fun cur => match cur with
                           | Py.NInt z => Z.to_nat (end_s - z)
                           | Py.NFloat _ => 0%nat
                           end);
    [| |exact Hint|eauto].
  - intros cur (z & ->) Hc. cbn in Hc. apply Z.ltb_lt in Hc. lia.
  - intros resp cur new_rows cur' Hg (z & ->) Hc Hs.
    cbn in Hc. apply Z.ltb_lt in Hc. cbn beta in Hs.
    apply bind_ok in Hs. destruct Hs as (rows & Hrows & Hs).
    assert (Hp : Phemex.page_of resp = rows).
    { unfold Phemex._api_get_rows, Phemex.page_of in *.
      destruct (negb _); [discriminate|]. congruence. }
    destruct (Py.is_empty rows); [discriminate Hs|].
    apply bind_ok in Hs. destruct Hs as (last & Hlast & Hs).
    apply bind_ok in Hs. destruct Hs as (x & Hx & Hs).
    apply bind_ok in Hs. destruct Hs as (last_ts & Hts & Hs).
    apply bind_ok in Hs. destruct Hs as (next_start & Hn & Hs).
    rewrite <- Hp in Hlast.
    destruct x as [t|f|t|]; try discriminate Hts.
    + inversion Hts; subst last_ts. cbn in Hn. inversion Hn; subst.
      cbn [Py.num_le] in Hs.
      destruct (t + resolution <=? z) eqn:El; inversion Hs; subst.
      apply Z.leb_gt in El. split; [eauto|lia].
    + exfalso. now apply (Hg last f Hlast).
Qed.

(** Cursors linked by a fixed stride are an arithmetic progression. *)
Lemma linked_stride (w : Z) (bound : Z) :
  forall cursors start,
    (forall c, hd_error cursors = Some c -> c = start) ->
    Forall (fun c => (c <? bound) = true) cursors ->
    Http.linked (fun c c' => c' = Z.min (c + w) bound) cursors ->
    forall i c, nth_error cursors i = Some c -> c = start + Z.of_nat i * w.
Proof.
  induction cursors as [|c0 cs IH]; intros start Hhd HF HL i c Hi.
  - destruct i; discriminate Hi.
  - pose proof (Hhd c0 eq_refl) as ->.
    destruct i as [|i]; cbn in Hi.
    + inversion Hi. lia.
    + destruct cs as [|c1 cs']; [destruct i; discriminate Hi|].
      cbn [Http.linked] in HL. destruct HL as [H1 HL].
      inversion HF as [|? ? _ HF']; subst.
      assert (Hc1 : (Z.min (start + w) bound <? bound) = true)
        by (inversion HF'; assumption).
      apply Z.ltb_lt in Hc1.
      rewrite (IH (Z.min (start + w) bound)
                  ltac:(intros ? H; now inversion H) HF' HL i c Hi).
      lia.
Qed.

(** X6.  Coinbase asks for the window in consecutive chunks of 300 candles:
    request number [i] starts [i * 300 * granularity] seconds after the
    start and ends 300 candles later or at the end of the window, whichever
    comes first; the number of requests is at most the number of such chunks
    in the window, whatever the exchange answers. *)
Theorem coinbase_windows_tile product_id granularity start_ms end_ms m :
  0 < granularity ->
  let start_s := start_ms / 1000 in
  let end_s := end_ms / 1000 in
  let w := granularity * Coinbase._MAX_CANDLES in
  exists cursors,
    Http.calls (snd (Coinbase._paginate_candles product_id granularity
                                                start_ms end_ms m))
    = (Http.calls m
       ++ map (fun cur =>
                 Http.mkRequest
                   (Coinbase.BASE_URL ++ "/products/" ++ product_id
                    ++ "/candles")
                   [("start", Http.PTime (cur * 1000));
                    ("end", Http.PTime (Z.min (cur + w) end_s * 1000));
                    ("granularity", Conv.pint granularity)])
              cursors)%list
    /\ (forall i cur, nth_error cursors i = Some cur ->
                      cur = start_s + Z.of_nat i * w /\ cur < end_s)
    /\ (Z.of_nat (List.length cursors) <= (end_s - start_s + w - 1) / w
        \/ cursors = []).
Proof.
  intros Hg start_s end_s w.
  assert (Hw : 0 < w) by (unfold w, Coinbase._MAX_CANDLES; lia).
  unfold Coinbase._paginate_candles. fold end_s start_s.
  match goal with
  | |- context [Http.paginate ?c ?q ?s ?cur m] =>
      destruct (paginate_linked c q s cur m) as (cs & Hc & HF & Hhd & HL)
  end.
  exists cs. split; [exact Hc|].
  assert (HL' : Http.linked (fun c c' => c' = Z.min (c + w) end_s) cs).
  { clear -HL. induction cs as [|c0 [|c1 cs'] IH]; cbn [Http.linked] in *;
      auto.
    destruct HL as [(resp & rows & Hs) HL]. split; [|apply IH, HL].
    destruct (Py.is_empty resp); inversion Hs. reflexivity. }
  assert (Hnth : forall i cur, nth_error cs i = Some cur ->
                   cur = start_s + Z.of_nat i * w /\ cur < end_s).
  { intros i cur Hi. split.
    - eapply linked_stride; eauto.
    - rewrite Forall_forall in HF. apply Z.ltb_lt, HF.
      eapply nth_error_In, Hi. }
  split; [exact Hnth|].
  destruct cs as [|c0 cs0] eqn:Ecs; [right; reflexivity|left].
  rewrite <- Ecs in *.
  assert (Hlast : exists cl, nth_error cs (List.length cs - 1) = Some cl).
  { destruct (nth_error cs (List.length cs - 1)) eqn:El; [eauto|].
    apply nth_error_None in El. rewrite Ecs in El. cbn in El. lia. }
  destruct Hlast as (cl & Hcl). destruct (Hnth _ _ Hcl) as [E L].
  assert (Hlen : (0 < List.length cs)%nat) by (rewrite Ecs; cbn; lia).
  apply Z.div_le_lower_bound; [exact Hw|]. nia.
Qed.

(** X7.  Binance adds every page it is served to the result as it is: what a
    fetch returns is one table row per served row, converted, in the order
    in which the pages and their rows arrived. *)
Theorem binance_rows_are_served_rows dt symbol start_time end_time interval
    period m df m' :
  Binance.fetch dt symbol start_time end_time interval period m
  = (Ok df, m') ->
  exists n,
    Http.served m m' n
    /\ mapM (Binance.row_of dt) (List.concat (firstn n (Http.pending m)))
       = Ok (Frame.rows df)
    /\ Frame.len df = List.length (List.concat (firstn n (Http.pending m))).
Proof.
  intros H.
  assert (Hrec : forall endpoint params s e limit tf raw m0 m1,
             Binance._paginate_records endpoint params s e limit tf m0
             = (Ok raw, m1) ->
             exists n, Http.served m0 m1 n
                       /\ raw = List.concat (firstn n (Http.pending m0))).
  { intros endpoint params s e limit tf raw m0 m1 Hp.
    unfold Binance._paginate_records in Hp.
    apply paginate_concat with (f := fun p : page => p) in Hp.
    - destruct Hp as (n & Hs & ->). exists n. now rewrite map_id.
    - intros resp cur new_rows next Hs.
      destruct resp as [|r resp]; cbn [Py.is_empty] in Hs;
        [now inversion Hs|].
      destruct (Py.len (r :: resp) <? limit); [now inversion Hs|].
      inv_bind Hs. now inversion Hs. }
  assert (Hkl : forall endpoint params s e limit raw m0 m1,
             Binance._paginate_klines endpoint params s e limit m0
             = (Ok raw, m1) ->
             exists n, Http.served m0 m1 n
                       /\ raw = List.concat (firstn n (Http.pending m0))).
  { intros endpoint params s e limit raw m0 m1 Hp.
    unfold Binance._paginate_klines in Hp.
    apply paginate_concat with (f := fun p : page => p) in Hp.
    - destruct Hp as (n & Hs & ->). exists n. now rewrite map_id.
    - intros resp cur new_rows next Hs.
      destruct resp as [|r resp]; cbn [Py.is_empty] in Hs;
        [now inversion Hs|].
      destruct (Py.len (r :: resp) <? limit); [now inversion Hs|].
      inv_bind Hs. now inversion Hs. }
  assert (Hframe : forall cols conv raw df0,
             Conv.frame_of cols conv raw = Ok df0 ->
             mapM conv raw = Ok (Frame.rows df0)
             /\ Frame.len df0 = List.length raw).
  { intros cols conv raw df0 Hf. unfold Conv.frame_of in Hf.
    destruct raw as [|r raw]; cbn [Py.is_empty] in Hf.
    - inversion Hf. split; reflexivity.
    - inv_bind Hf. inversion Hf; subst. cbn [Frame.rows]. split; [exact E|].
      unfold Frame.len. cbn [Frame.rows]. now apply mapM_length in E. }
  destruct dt;
    cbv [Binance.fetch Binance.klines_handler Binance.records_handler
         Binance._klines_to_df Binance._records_to_ls_df] in H;
    inv_run;
    match goal with
    | L : Binance._paginate_klines _ _ _ _ _ _ = (Ok _, _) |- _ =>
        apply Hkl in L; destruct L as (n & Hs & ->)
    | L : Binance._paginate_records _ _ _ _ _ _ _ = (Ok _, _) |- _ =>
        apply Hrec in L; destruct L as (n & Hs & ->)
    end;
    subst; exists n; (split; [exact Hs|]);
    apply Hframe in H; destruct H as [Hm Hl]; split; assumption.
Qed.

End WithRuntime.

(** Two pages of Kraken candles whose [last] is an integer, asked for
    over three minutes. *)
Lemma kraken_ohlc_calls_bounded_witness :
  let m := Http.serving
             [Examples.kraken_ohlc_response
                [Examples.kraken_ohlc_row 1700000000] 1700000060;
              Examples.kraken_ohlc_response
                [Examples.kraken_ohlc_row 1700000060] 1700000060] in
  Forall Kraken.integral_last (Http.pending m)
  /\ (List.length
        (Http.calls (snd (Kraken.ohlc_loop "XBTUSD" 1
                            1700000000 1700000180 m)))
      <= List.length (Http.calls m) + Z.to_nat (1700000180 - 1700000000))%nat.
Proof.
  intros m.
  assert (H : Forall Kraken.integral_last (Http.pending m))
    by (repeat constructor; intros f; discriminate).
  split; [exact H|].
  exact (@kraken_ohlc_calls_bounded "XBTUSD" 1
           1700000000 1700000180 m H).
Defined.

(** Without that condition the bound fails, in the code as in the model:
    a [last] that is a float moves the cursor by a quarter of a second,
    and a window of one second costs four requests. *)
Example kraken_float_cursor_creeps :
  let page last :=
    Examples.kraken_float_response [Examples.kraken_ohlc_row 0] last in
  List.length
    (Http.calls
       (snd (Kraken.ohlc_loop "XBTUSD" 1 0 1
               (Http.serving [page (1 # 4); page (1 # 2); page (3 # 4);
                              page (1 # 1); page (2 # 1)]))))
  = 4%nat.
Proof. vm_compute. reflexivity. Qed.

(** A page of Phemex klines whose time is an integer, then an empty
    one. *)
Lemma phemex_klines_calls_bounded_witness :
  let m := Http.serving
             [Phemex.mkR (Some (SInt 0)) None
                (Some [JArr [SInt 1700000000; SInt 60; SStr "50000"]]);
              Phemex.mkR (Some (SInt 0)) None (Some [])] in
  Forall Phemex.integral_times (Http.pending m)
  /\ (List.length
        (Http.calls (snd (Phemex._paginate_klines
                            "BTCUSDT" 60 1700000000 1700000180 m)))
      <= List.length (Http.calls m) + Z.to_nat (1700000180 - 1700000000))%nat.
Proof.
  intros m.
  assert (H : Forall Phemex.integral_times (Http.pending m)).
  { repeat constructor; intros last f Hl; cbn in Hl; inversion Hl; subst;
      cbn; discriminate. }
  split; [exact H|].
  exact (@phemex_klines_calls_bounded "BTCUSDT" 60
           1700000000 1700000180 m H).
Defined.

Example phemex_float_cursor_creeps :
  List.length
    (Http.calls
       (snd (Phemex._paginate_klines "BTCUSDT" 60 0 1
               (Http.serving
                  [Examples.phemex_float_page (- 239 # 4);
                   Examples.phemex_float_page (- 119 # 2);
                   Examples.phemex_float_page (- 237 # 4);
                   Examples.phemex_float_page (- 59 # 1);
                   Examples.phemex_float_page (0 # 1)]))))
  = 4%nat.
Proof. vm_compute. reflexivity. Qed.

(** The first page of the Binance tests is shorter than the limit of
    1500: its three rows come back after one call, and the second page is
    left unserved. *)
Lemma binance_rows_are_served_rows_witness :
  match @Binance.fetch RefRuntime.ref_runtime Schema.OHLCV "BTCUSDT"
          (Transport.VInt Examples.t0)
          (Transport.VInt (Examples.t0 + 600000)) (Some "1m") None
          (Http.serving [Examples.batch1; Examples.batch2])
  with
  | (Ok df, m') =>
      Frame.len df = 3%nat /\ Http.pending m' = [Examples.batch2]
  | (Raise _, _) => False
  end.
Proof.
  destruct (@Binance.fetch RefRuntime.ref_runtime Schema.OHLCV "BTCUSDT"
              (Transport.VInt Examples.t0)
              (Transport.VInt (Examples.t0 + 600000)) (Some "1m") None
              (Http.serving [Examples.batch1; Examples.batch2]))
    as [[df|err] m'] eqn:E.
  - destruct (@binance_rows_are_served_rows RefRuntime.ref_runtime _ _ _ _
                _ _ _ _ _ E) as (n & (Hp & Hn & Hc) & _ & Hl).
    vm_compute in E. inversion E; subst df m'; clear E.
    split; reflexivity.
  - vm_compute in E. discriminate E.
Defined.

Lemma coinbase_windows_tile_witness :
  exists cursors,
    Http.calls (snd (Coinbase._paginate_candles "BTC-USD" 60 0 40000000
                       (Http.serving [[JArr [SInt 0]]; [JArr [SInt 18000]]; []])))
    = map (fun cur =>
             Http.mkRequest
               (Coinbase.BASE_URL ++ "/products/" ++ "BTC-USD" ++ "/candles")
               [("start", Http.PTime (cur * 1000));
                ("end", Http.PTime (Z.min (cur + 18000) 40000 * 1000));
                ("granularity", Conv.pint 60)])
          cursors
    /\ (forall i cur, nth_error cursors i = Some cur ->
                      cur = Z.of_nat i * 18000 /\ cur < 40000)
    /\ (List.length cursors <= 3)%nat.
Proof.
  destruct (@coinbase_windows_tile "BTC-USD" 60 0 40000000
              (Http.serving [[JArr [SInt 0]]; [JArr [SInt 18000]]; []]))
    as (cs & Hc & Hn & Hb); [reflexivity|].
  exists cs. split; [exact Hc|]. split; [exact Hn|].
  destruct Hb as [Hb| ->]; [|cbn; lia].
  change ((40000000 / 1000 - 0 / 1000 + 60 * Coinbase._MAX_CANDLES - 1)
          / (60 * Coinbase._MAX_CANDLES)) with 3 in Hb. lia.
Defined.

End LoopFacts.

(** ** Fetches at the edges: empty windows, unconditional first calls *)

Module EdgeFacts.

Import Generic PaginateFacts LoopFacts Schema Frame Transport.

Section Mock.

Variable R : Type.

Lemma bindM_lift_ok {A B : Type} (r : result A) (k : A -> Http.M R B)
    (m : Http.mock R) (a : A) :
  r = Ok a -> Http.bindM (Http.lift r) k m = k a m.
Proof. intros ->. reflexivity. Qed.

Lemma bindM_run_ok {A B : Type} (c : Http.M R A) (k : A -> Http.M R B)
    (m m1 : Http.mock R) (a : A) :
  c m = (Ok a, m1) -> Http.bindM c k m = k a m1.
Proof. unfold Http.bindM. intros ->. reflexivity. Qed.

(** Post-processing makes no call. *)
Lemma snd_then_lift {A B : Type} (c : Http.M R A) (f : A -> result B)
    (m : Http.mock R) :
  snd (Http.bindM c (fun a => Http.lift (f a)) m) = snd (c m).
Proof.
  unfold Http.bindM, Http.lift. destruct (c m) as [[a|e] m1]; reflexivity.
Qed.


Lemma bindM_run_raise {A B : Type} (c : Http.M R A) (k : A -> Http.M R B)
    (m m1 : Http.mock R) (e : pyerr) :
  c m = (Raise e, m1) -> Http.bindM c k m = (Raise e, m1).
Proof. unfold Http.bindM. intros ->. reflexivity. Qed.

End Mock.

Section WithRuntime.
Context `{RT : PyRuntime}.

Ltac enter Hs He :=
  repeat first [ rewrite (bindM_lift_ok _ _ Hs)
               | rewrite (bindM_lift_ok _ _ He) ].

(** X8.  A window that ends no later than it starts costs no request: the
    loops that test the window before they call return the empty table and
    leave the client as it was. *)
Theorem empty_window_makes_no_call start_time end_time start_ms end_ms :
  to_milliseconds start_time = Ok start_ms ->
  to_milliseconds end_time = Ok end_ms ->
  end_ms <= start_ms ->
  (forall dt symbol interval period m,
      Binance.fetch dt symbol start_time end_time interval period m
      = (Ok empty, m))
  /\ (forall dt symbol interval period m,
        In dt [OHLCV; INDEX_PRICE; MARK_PRICE; FUNDING_RATE] ->
        Bybit.fetch dt symbol start_time end_time interval period m
        = (Ok empty, m))
  /\ (forall symbol interval period kraken_interval m,
        Py.lookup interval Kraken._INTERVAL_MAP = Some kraken_interval ->
        Kraken.fetch OHLCV symbol start_time end_time (Some interval) period m
        = (Ok empty, m))
  /\ (forall symbol interval period granularity product_id m,
        Py.lookup interval Coinbase._INTERVAL_TO_GRANULARITY
        = Some granularity ->
        Coinbase._to_product_id symbol = Ok product_id ->
        Coinbase.fetch OHLCV symbol start_time end_time (Some interval)
                       period m
        = (Ok empty, m))
  /\ (forall symbol interval period resolution m,
        Py.lookup interval Phemex._INTERVAL_MAP = Some resolution ->
        Phemex.fetch OHLCV symbol start_time end_time (Some interval) period m
        = (Ok empty, m))
  /\ (forall symbol interval period m,
        Phemex.fetch FUNDING_RATE symbol start_time end_time interval period m
        = (Ok empty, m)).
Proof.
  intros Hs He Hw.
  assert (Hlt : (start_ms <? end_ms) = false) by (apply Z.ltb_ge; lia).
  assert (Hgt : (end_ms >? start_ms) = false)
    by (rewrite Z.gtb_ltb; apply Z.ltb_ge; lia).
  assert (Hdiv : (start_ms / 1000 <? end_ms / 1000) = false).
  { apply Z.ltb_ge. apply Z.div_le_mono; lia. }
  repeat match goal with |- _ /\ _ => split end.
  - intros dt symbol interval period m.
    destruct dt;
      cbv [Binance.fetch Binance.klines_handler Binance.records_handler
           Binance._paginate_klines Binance._paginate_records];
      enter Hs He;
      (erewrite bindM_run_ok; [|apply paginate_idle; exact Hlt]);
      reflexivity.
  - intros dt symbol interval period m Hin.
    cbn [In] in Hin.
    destruct Hin as [<-|[<-|[<-|[<-|[]]]]];
      cbv [Bybit.fetch Bybit.klines_handler Bybit._fetch_funding_rate
           Bybit._paginate_klines Bybit._paginate_funding
           Bybit.klines_loop Bybit.funding_loop];
      enter Hs He;
      (erewrite bindM_run_ok;
       [|erewrite bindM_run_ok; [|apply paginate_idle; exact Hgt];
         reflexivity]);
      reflexivity.
  - intros symbol interval period kraken_interval m Hi.
    cbn [Kraken.fetch]. unfold Kraken._fetch_ohlcv. rewrite Hi.
    enter Hs He. cbv zeta. enter Hs He. unfold Kraken.ohlc_loop.
    erewrite bindM_run_ok; [|apply paginate_idle; exact Hdiv]. reflexivity.
  - intros symbol interval period granularity product_id m Hi Hp.
    cbn [Coinbase.fetch]. unfold Coinbase._fetch_ohlcv. rewrite Hi.
    rewrite (bindM_lift_ok _ _ Hp). enter Hs He.
    unfold Coinbase._paginate_candles.
    erewrite bindM_run_ok; [|apply paginate_idle; exact Hdiv]. reflexivity.
  - intros symbol interval period resolution m Hi.
    unfold Phemex.fetch.
    match goal with |- context [negb ?b] => change (negb b) with false end.
    cbv beta iota. unfold Phemex._fetch_ohlcv. rewrite Hi.
    enter Hs He. cbv zeta. enter Hs He. unfold Phemex._paginate_klines.
    erewrite bindM_run_ok; [|apply paginate_idle; exact Hdiv]. reflexivity.
  - intros symbol interval period m.
    unfold Phemex.fetch.
    match goal with |- context [negb ?b] => change (negb b) with false end.
    cbv beta iota. unfold Phemex._fetch_funding_rate.
    enter Hs He. cbv zeta. unfold Phemex._paginate_funding_rate.
    erewrite bindM_run_ok; [|apply paginate_idle; exact Hlt]. reflexivity.
Qed.


(** X10.  A data type an adapter has no handler for is refused before any
    request; the error class differs from adapter to adapter. *)
Theorem unsupported_types_raise_without_request symbol start_time end_time
    interval period :
  (forall dt m,
      In dt [TOP_LS_ACCOUNTS; TOP_LS_POSITIONS; TAKER_BUY_SELL] ->
      exists msg,
        Bybit.fetch dt symbol start_time end_time interval period m
        = (Raise (NotImplementedError msg), m))
  /\ (forall dt m,
        In dt [TOP_LS_ACCOUNTS; TOP_LS_POSITIONS] ->
        exists msg,
          Okx.fetch dt symbol start_time end_time interval period m
          = (Raise (ValueError msg), m))
  /\ (forall dt (m : Http.mock Kraken.R),
        dt <> OHLCV -> dt <> FUNDING_RATE ->
        exists msg,
          Kraken.fetch dt symbol start_time end_time interval period m
          = (Raise (KeyError msg), m))
  /\ (forall dt (m : Http.mock Coinbase.R),
        dt <> OHLCV ->
        exists msg,
          Coinbase.fetch dt symbol start_time end_time interval period m
          = (Raise (KeyError msg), m))
  /\ (forall dt (m : Http.mock Phemex.R),
        dt <> OHLCV -> dt <> FUNDING_RATE ->
        exists msg,
          Phemex.fetch dt symbol start_time end_time interval period m
          = (Raise (ValueError msg), m))
  /\ (forall dt (m : Http.mock Upbit.R),
        dt <> OHLCV ->
        exists msg,
          Upbit.fetch dt symbol start_time end_time interval period m
          = (Raise (KeyError msg), m)).
Proof.
  repeat match goal with |- _ /\ _ => split end.
  - intros dt m Hin. cbn [In] in Hin.
    destruct Hin as [<-|[<-|[<-|[]]]]; eexists; reflexivity.
  - intros dt m Hin. cbn [In] in Hin.
    destruct Hin as [<-|[<-|[]]]; eexists; reflexivity.
  - intros dt m H1 H2. destruct dt; try congruence; eexists; reflexivity.
  - intros dt m H1. destruct dt; try congruence; eexists; reflexivity.
  - intros dt m H1 H2. destruct dt; try congruence; eexists; reflexivity.
  - intros dt m H1. destruct dt; try congruence; eexists; reflexivity.
Qed.

(** X11.  Intervals and symbols are checked before the first request: an
    interval outside the adapter's table (or no interval) and a symbol the
    adapter cannot convert raise [ValueError] and leave the client
    untouched. *)
Theorem invalid_arguments_raise_before_request symbol start_time end_time
    interval period :
  (forall m : Http.mock Kraken.R,
      Py.unknown_in Kraken._INTERVAL_MAP interval ->
      exists msg,
        Kraken.fetch OHLCV symbol start_time end_time interval period m
        = (Raise (ValueError msg), m))
  /\ (forall m : Http.mock Coinbase.R,
        Py.unknown_in Coinbase._INTERVAL_TO_GRANULARITY interval ->
        exists msg,
          Coinbase.fetch OHLCV symbol start_time end_time interval period m
          = (Raise (ValueError msg), m))
  /\ (forall (m : Http.mock Coinbase.R) i granularity,
        Py.lookup i Coinbase._INTERVAL_TO_GRANULARITY = Some granularity ->
        contains "-" symbol = false ->
        Okx.split_quote (upper symbol) ["USDT"; "USD"] = None ->
        exists msg,
          Coinbase.fetch OHLCV symbol start_time end_time (Some i) period m
          = (Raise (ValueError msg), m))
  /\ (forall m : Http.mock Phemex.R,
        Py.unknown_in Phemex._INTERVAL_MAP interval ->
        exists msg,
          Phemex.fetch OHLCV symbol start_time end_time interval period m
          = (Raise (ValueError msg), m))
  /\ (forall m : Http.mock Upbit.R,
        Py.unknown_in Upbit._INTERVAL_ENDPOINTS interval ->
        exists msg,
          Upbit.fetch OHLCV symbol start_time end_time interval period m
          = (Raise (ValueError msg), m))
  /\ (forall (m : Http.mock Upbit.R) i endpoint,
        Py.lookup i Upbit._INTERVAL_ENDPOINTS = Some endpoint ->
        contains "-" symbol = false ->
        Upbit.match_symbol (upper symbol) = None ->
        exists msg,
          Upbit.fetch OHLCV symbol start_time end_time (Some i) period m
          = (Raise (ValueError msg), m))
  /\ (forall dt (m : Http.mock Okx.R),
        In dt [OHLCV; INDEX_PRICE; MARK_PRICE; FUNDING_RATE; OPEN_INTEREST;
               LONG_SHORT_RATIO; TAKER_BUY_SELL] ->
        Okx.split_quote (upper symbol) ["USDT"; "USD"] = None ->
        exists msg,
          Okx.fetch dt symbol start_time end_time interval period m
          = (Raise (ValueError msg), m)).
Proof.
  repeat match goal with |- _ /\ _ => split end.
  - intros m Hi. cbn [Kraken.fetch]. unfold Kraken._fetch_ohlcv.
    destruct interval as [i|]; unfold Py.unknown_in in Hi; [rewrite Hi|];
      eexists; reflexivity.
  - intros m Hi. cbn [Coinbase.fetch]. unfold Coinbase._fetch_ohlcv.
    destruct interval as [i|]; unfold Py.unknown_in in Hi; [rewrite Hi|];
      eexists; reflexivity.
  - intros m i granularity Hi Hd Hq. cbn [Coinbase.fetch].
    unfold Coinbase._fetch_ohlcv, Coinbase._to_product_id.
    rewrite Hi, Hd, Hq. eexists; reflexivity.
  - intros m Hi. unfold Phemex.fetch.
    match goal with |- context [negb ?b] => change (negb b) with false end.
    cbv beta iota. unfold Phemex._fetch_ohlcv.
    destruct interval as [i|]; unfold Py.unknown_in in Hi; [rewrite Hi|];
      eexists; reflexivity.
  - intros m Hi. cbn [Upbit.fetch]. unfold Upbit._fetch_ohlcv.
    destruct interval as [i|]; unfold Py.unknown_in in Hi; [rewrite Hi|];
      eexists; reflexivity.
  - intros m i endpoint Hi Hd Hq. cbn [Upbit.fetch].
    unfold Upbit._fetch_ohlcv, Upbit._to_upbit_market.
    rewrite Hi, Hd, Hq. eexists; reflexivity.
  - intros dt m Hin Hq. cbn [In] in Hin.
    destruct Hin as [<-|[<-|[<-|[<-|[<-|[<-|[<-|[]]]]]]]];
      cbv [Okx.fetch Okx.klines_handler Okx._fetch_funding_rate
           Okx.rubik_handler Okx._to_inst_id Okx._to_index_inst_id
           Okx._to_ccy];
      rewrite Hq; eexists; reflexivity.
Qed.

(** X12.  An error envelope in the first response ends the fetch with a
    [RuntimeError] after the one request that received it: nothing is
    retried, no further page is asked for, and no partial table comes
    back. *)
Theorem api_error_aborts_fetch start_time end_time start_ms end_ms :
  to_milliseconds start_time = Ok start_ms ->
  to_milliseconds end_time = Ok end_ms ->
  start_ms / 1000 < end_ms / 1000 ->
  (forall dt symbol interval period resp rest calls,
      In dt [OHLCV; INDEX_PRICE; MARK_PRICE; FUNDING_RATE; OPEN_INTEREST;
             LONG_SHORT_RATIO; TAKER_BUY_SELL] ->
      Okx.split_quote (upper symbol) ["USDT"; "USD"] <> None ->
      Okx.code resp <> Some (SStr "0") ->
      exists msg req,
        Okx.fetch dt symbol start_time end_time interval period
                  (Http.mkMock (resp :: rest) calls)
        = (Raise (RuntimeError msg), Http.mkMock rest (calls ++ [req])%list))
  /\ (forall dt symbol interval period resp rest calls c,
        In dt [OHLCV; INDEX_PRICE; MARK_PRICE; FUNDING_RATE; OPEN_INTEREST;
               LONG_SHORT_RATIO] ->
        Bybit.retCode resp = Some (SInt c) -> c <> 0 ->
        exists msg req,
          Bybit.fetch dt symbol start_time end_time interval period
                      (Http.mkMock (resp :: rest) calls)
          = (Raise (RuntimeError msg),
             Http.mkMock rest (calls ++ [req])%list))
  /\ (forall symbol interval period resp rest calls c,
        Phemex.code resp = Some (SInt c) -> c <> 0 ->
        exists msg req,
          Phemex.fetch FUNDING_RATE symbol start_time end_time interval
                       period (Http.mkMock (resp :: rest) calls)
          = (Raise (RuntimeError msg),
             Http.mkMock rest (calls ++ [req])%list))
  /\ (forall symbol interval period kraken_interval resp rest calls,
        Py.lookup interval Kraken._INTERVAL_MAP = Some kraken_interval ->
        Kraken.error resp <> [] ->
        exists msg req,
          Kraken.fetch OHLCV symbol start_time end_time (Some interval)
                       period (Http.mkMock (resp :: rest) calls)
          = (Raise (RuntimeError msg),
             Http.mkMock rest (calls ++ [req])%list))
  /\ (forall symbol interval period resp rest calls,
        Kraken.result_ resp <> Some (Kraken.RString "success") ->
        exists msg req,
          Kraken.fetch FUNDING_RATE symbol start_time end_time interval
                       period (Http.mkMock (resp :: rest) calls)
          = (Raise (RuntimeError msg),
             Http.mkMock rest (calls ++ [req])%list)).
Proof.
  intros Hs He Hw.
  assert (Hms : start_ms < end_ms).
  { destruct (Z.lt_ge_cases start_ms end_ms) as [H|H]; [exact H|].
    apply (Z.div_le_mono _ _ 1000) in H; lia. }
  assert (Hlt : (start_ms <? end_ms) = true) by (apply Z.ltb_lt; lia).
  assert (Hgt : (end_ms >? start_ms) = true)
    by (rewrite Z.gtb_ltb; apply Z.ltb_lt; lia).
  assert (Hdiv : (start_ms / 1000 <? end_ms / 1000) = true)
    by (apply Z.ltb_lt; lia).
  repeat match goal with |- _ /\ _ => split end.
  - intros dt symbol interval period resp rest calls Hin Hq Hcode.
    destruct (Okx.split_quote (upper symbol) ["USDT"; "USD"])
      as [[base quote]|] eqn:Eq; [clear Hq|congruence].
    assert (Ha : Okx._api_get resp = Raise (RuntimeError "OKX API error")).
    { unfold Okx._api_get. destruct (Okx.code resp) as [[z|f|t|]|];
        try reflexivity.
      cbn. destruct (String.eqb t "0") eqn:Et; [|reflexivity].
      apply String.eqb_eq in Et. congruence. }
    cbn [In] in Hin.
    destruct Hin as [<-|[<-|[<-|[<-|[<-|[<-|[<-|[]]]]]]]];
      cbv [Okx.fetch Okx.klines_handler Okx._fetch_funding_rate
           Okx.rubik_handler Okx._to_inst_id Okx._to_index_inst_id
           Okx._to_ccy Okx._paginate_klines Okx._paginate_funding
           Okx._paginate_rubik Okx.klines_loop Okx.funding_loop
           Okx.rubik_loop];
      rewrite Eq; cbn [bind];
      (erewrite bindM_lift_ok; [|reflexivity]);
      enter Hs He;
      do 2 eexists;
      (erewrite bindM_run_raise; [reflexivity|]);
      (erewrite bindM_run_raise; [reflexivity|]);
      (apply paginate_aborts; [reflexivity|]);
      rewrite Ha; reflexivity.
  - intros dt symbol interval period resp rest calls c Hin Hc Hne.
    assert (Ha : Bybit._api_get resp
                 = Raise (RuntimeError "Bybit API error")).
    { unfold Bybit._api_get. rewrite Hc. cbn.
      destruct (c =? 0) eqn:Ec; [|reflexivity].
      apply Z.eqb_eq in Ec. congruence. }
    cbn [In] in Hin.
    destruct Hin as [<-|[<-|[<-|[<-|[<-|[<-|[]]]]]]];
      cbv [Bybit.fetch Bybit.klines_handler Bybit._fetch_funding_rate
           Bybit._fetch_open_interest Bybit._fetch_long_short_ratio
           Bybit._paginate_klines Bybit._paginate_funding
           Bybit._paginate_open_interest Bybit.klines_loop
           Bybit.funding_loop];
      enter Hs He; do 2 eexists.
    1-4: (erewrite bindM_run_raise; [reflexivity|]);
         (erewrite bindM_run_raise; [reflexivity|]);
         (apply paginate_aborts; [exact Hgt|]); rewrite Ha; reflexivity.
    + erewrite bindM_run_raise; [reflexivity|].
      apply paginate_aborts; [reflexivity|]. rewrite Ha. reflexivity.
    + unfold Http.bindM, Http.get, Http.lift. cbn [Http.pending Http.calls].
      rewrite Ha. reflexivity.
  - intros symbol interval period resp rest calls c Hc Hne.
    assert (Ha : exists msg,
               Phemex._api_get_rows resp = Raise (RuntimeError msg)).
    { unfold Phemex._api_get_rows. rewrite Hc. cbn.
      destruct (c =? 0) eqn:Ec; [|eexists; reflexivity].
      apply Z.eqb_eq in Ec. congruence. }
    destruct Ha as (msg & Ha).
    unfold Phemex.fetch.
    match goal with |- context [negb ?b] => change (negb b) with false end.
    cbv beta iota. unfold Phemex._fetch_funding_rate.
    enter Hs He. cbv zeta. unfold Phemex._paginate_funding_rate.
    do 2 eexists. erewrite bindM_run_raise; [reflexivity|].
    apply paginate_aborts; [exact Hlt|]. rewrite Ha. reflexivity.
  - intros symbol interval period kraken_interval resp rest calls Hi Herr.
    assert (Ha : Kraken._api_get_spot resp
                 = Raise (RuntimeError "Kraken API error")).
    { unfold Kraken._api_get_spot.
      destruct (Kraken.error resp); [congruence|reflexivity]. }
    cbn [Kraken.fetch]. unfold Kraken._fetch_ohlcv. rewrite Hi.
    enter Hs He. cbv zeta. enter Hs He. unfold Kraken.ohlc_loop.
    do 2 eexists. erewrite bindM_run_raise; [reflexivity|].
    apply paginate_aborts; [exact Hdiv|].
    unfold Kraken.ohlc_step. rewrite Ha. reflexivity.
  - intros symbol interval period resp rest calls Hres.
    assert (Ha : Kraken._api_get_futures resp
                 = Raise (RuntimeError "Kraken Futures API error")).
    { unfold Kraken._api_get_futures.
      destruct (Kraken.result_ resp) as [[es|s]|]; try reflexivity.
      destruct (String.eqb s "success") eqn:Es; [|reflexivity].
      apply String.eqb_eq in Es. congruence. }
    cbn [Kraken.fetch]. unfold Kraken._fetch_funding_rate.
    do 2 eexists.
    unfold Http.bindM, Http.get, Http.lift. cbn [Http.pending Http.calls].
    rewrite Ha. reflexivity.
Qed.

End WithRuntime.

Lemma empty_window_makes_no_call_witness :
  @Binance.fetch RefRuntime.ref_runtime FUNDING_RATE "BTCUSDT"
     (VStr "2024-01-02") (VStr "2024-01-01") None None
     (Http.serving [Examples.batch1])
  = (Ok empty, Http.serving [Examples.batch1]).
Proof.
  refine (proj1 (@empty_window_makes_no_call RefRuntime.ref_runtime
                   (VStr "2024-01-02") (VStr "2024-01-01")
                   1704153600000 1704067200000 _ _ _) _ _ _ _ _).
  - vm_compute. reflexivity.
  - vm_compute. reflexivity.
  - lia.
Defined.


Lemma unsupported_types_raise_without_request_witness :
  exists msg,
    @Bybit.fetch RefRuntime.ref_runtime TAKER_BUY_SELL "BTCUSDT"
       (VStr "2024-01-01") (VStr "2024-01-02") None (Some "1h")
       (Http.serving [])
    = (Raise (NotImplementedError msg), Http.serving []).
Proof.
  refine (proj1 (@unsupported_types_raise_without_request
                   RefRuntime.ref_runtime "BTCUSDT" (VStr "2024-01-01")
                   (VStr "2024-01-02") None (Some "1h"))
            TAKER_BUY_SELL (Http.serving []) _).
  cbn. auto.
Defined.

Lemma invalid_arguments_raise_before_request_witness :
  exists msg,
    @Kraken.fetch RefRuntime.ref_runtime OHLCV "XBTUSD"
       (VStr "2024-01-01") (VStr "2024-01-02") (Some "2h") None
       (Http.serving [])
    = (Raise (ValueError msg), Http.serving []).
Proof.
  refine (proj1 (@invalid_arguments_raise_before_request
                   RefRuntime.ref_runtime "XBTUSD" (VStr "2024-01-01")
                   (VStr "2024-01-02") (Some "2h") None)
            (Http.serving []) _).
  reflexivity.
Defined.

Lemma api_error_aborts_fetch_witness :
  exists msg req,
    @Bybit.fetch RefRuntime.ref_runtime OHLCV "BTCUSDT"
       (VStr "2024-01-01") (VStr "2024-01-02") (Some "1h") None
       (Http.mkMock [Bybit.mkR (Some (SInt 10001)) None;
                     Examples.bybit_response Examples.bybit_descending] [])
    = (Raise (RuntimeError msg),
       Http.mkMock [Examples.bybit_response Examples.bybit_descending]
                   [req]).
Proof.
  destruct (@api_error_aborts_fetch RefRuntime.ref_runtime
              (VStr "2024-01-01") (VStr "2024-01-02")
              1704067200000 1704153600000) as (_ & HB & _).
  - vm_compute. reflexivity.
  - vm_compute. reflexivity.
  - vm_compute. reflexivity.
  - refine (HB OHLCV "BTCUSDT" (Some "1h") None
               (Bybit.mkR (Some (SInt 10001)) None)
               [Examples.bybit_response Examples.bybit_descending] []
               10001 _ _ _).
    + cbn. auto.
    + reflexivity.
    + discriminate.
Defined.

End EdgeFacts.

(** ** What the rows of a table can and cannot be *)

Module RowFacts.

Import Generic PaginateFacts Schema Frame Transport.

Lemma mapM_Forall_out {A B : Type} (f : A -> result B) (Q : B -> Prop) :
  (forall a b, f a = Ok b -> Q b) ->
  forall l bs, mapM f l = Ok bs -> Forall Q bs.
Proof.
  intros Hf. induction l as [|a l IH]; cbn [mapM]; intros bs H.
  - inversion H. constructor.
  - inv_bind H. inversion H; subst. constructor; eauto.
Qed.

Lemma Forall_keys {A : Type} (key : A -> result Z) (Q : Z -> Prop) :
  forall l,
    Forall (fun a => exists k, key a = Ok k /\ Q k) l ->
    exists ks, mapM key l = Ok ks /\ Forall Q ks.
Proof.
  induction 1 as [|a l (k & Hk & HQ) _ (ks & Hks & HF)].
  - exists []. split; [reflexivity|constructor].
  - exists (k :: ks). cbn [mapM]. rewrite Hk, Hks. cbn.
    split; [reflexivity|constructor; assumption].
Qed.

Section WithRuntime.
Context `{RT : PyRuntime}.

Lemma before_Forall end_s :
  forall items out,
    Kraken.before end_s items = Ok out ->
    Forall (fun r => exists x n,
                Py.idx r 0 = Ok x /\ Py.number_of x = Ok n
                /\ Py.num_lt n (Py.NInt end_s) = true) out.
Proof.
  induction items as [|r items IH]; cbn [Kraken.before]; intros out H.
  - inversion H. constructor.
  - apply bind_ok in H. destruct H as (x & Hx & H).
    apply bind_ok in H. destruct H as (n & Hn & H).
    apply bind_ok in H. destruct H as (rest & Hrest & H).
    destruct (Py.num_lt n (Py.NInt end_s)) eqn:El; inversion H; subst.
    + constructor; [|eauto]. exists x, n. auto.
    + eauto.
Qed.

(** A kept row that converts opens at an integer second before the end:
    the converter takes no float. *)
Lemma kept_rows_open_before end_s :
  forall raw rows,
    Forall (fun r => exists x n,
                Py.idx r 0 = Ok x /\ Py.number_of x = Ok n
                /\ Py.num_lt n (Py.NInt end_s) = true) raw ->
    mapM Kraken.ohlcv_row raw = Ok rows ->
    Forall (fun r => exists t, Kraken.opens_at r = Ok t /\ t < end_s) raw.
Proof.
  induction raw as [|r raw IH]; intros rows HF H; [constructor|].
  inversion HF as [|? ? (x & n & Hx & Hn & Hlt) HF']; subst.
  cbn [mapM] in H.
  apply bind_ok in H. destruct H as (row & Hrow & H).
  apply bind_ok in H. destruct H as (rows' & Hrows & _).
  constructor; [|eauto].
  unfold Kraken.ohlcv_row in Hrow.
  destruct r as [[|t [|o [|h [|l [|c [|w [|v [|k [|]]]]]]]]]|];
    try discriminate Hrow.
  cbn in Hx. inversion Hx; subst x.
  apply bind_ok in Hrow. destruct Hrow as (ts & Hts & _).
  destruct t as [z|f|str|]; try discriminate Hts; try discriminate Hn.
  inversion Hn; subst n. cbn in Hlt. apply Z.ltb_lt in Hlt.
  exists z. split; [reflexivity|exact Hlt].
Qed.

Lemma kraken_ohlcv_head r k row :
  Kraken.opens_at r = Ok k -> Kraken.ohlcv_row r = Ok row ->
  nth 0 row CNone = CTime (k * ns_per_s).
Proof.
  intros K H. unfold Kraken.ohlcv_row in H.
  destruct r as [[|t [|o [|h [|l [|c [|w [|v [|n [|]]]]]]]]]|];
    try discriminate H.
  inv_bind H. inversion H; subst. cbn.
  unfold Kraken.opens_at in K. cbn in K.
  destruct t; cbn in *; try discriminate; congruence.
Qed.

(** X13.  Kraken's OHLCV fetch drops every candle that opens at or after the
    end of the window, taken to the second: no row of the table it returns
    is at or after it. (It applies no such test at the start.) *)
Theorem kraken_ohlcv_rows_before_end symbol start_time end_time interval
    period m df m' end_ms :
  Kraken.fetch OHLCV symbol start_time end_time interval period m
  = (Ok df, m') ->
  to_milliseconds end_time = Ok end_ms ->
  exists ts,
    timestamps df = map Some ts
    /\ Forall (fun t => t < end_ms / 1000 * ns_per_s) ts.
Proof.
  intros H He. cbn [Kraken.fetch] in H. unfold Kraken._fetch_ohlcv in H.
  destruct (match interval with
            | Some i => Py.lookup i Kraken._INTERVAL_MAP
            | None => None
            end) as [kraken_interval|]; inv_run; [|discriminate H].
  assert (v0 = end_ms) as -> by congruence.
  unfold Kraken.ohlc_loop in E1.
  apply paginate_Forall
    with (P := fun r => exists x n,
                   Py.idx r 0 = Ok x /\ Py.number_of x = Ok n
                   /\ Py.num_lt n (Py.NInt (end_ms / 1000)) = true)
    in E1.
  - unfold Kraken._ohlcv_to_df, Conv.frame_of in H.
    destruct (Py.is_empty v1).
    + inversion H. exists []. split; [reflexivity|constructor].
    + apply bind_ok in H. destruct H as (rs & Hrs & H).
      inversion H; subst.
      pose proof (@kept_rows_open_before _ _ _ E1 Hrs) as HP.
      apply Forall_keys in HP. destruct HP as (ks & Hks & HF).
      exists (map (fun k => k * ns_per_s) ks). split.
      * eapply OrderFacts.rows_timestamps
          with (key := Kraken.opens_at) (g := fun k => k * ns_per_s); eauto.
        intros r k row. apply kraken_ohlcv_head.
      * rewrite Forall_map. eapply Forall_impl; [|exact HF].
        cbn beta. intros k Hk. unfold ns_per_s. lia.
  - intros resp cur new_rows next Hs. unfold Kraken.ohlc_step in Hs.
    apply bind_ok in Hs. destruct Hs as (entries & _ & Hs). cbv zeta in Hs.
    destruct (filter _ (map fst entries)) as [|k ks];
      [inversion Hs; constructor|].
    destruct (Py.get_default k entries (Kraken.EVal SNull)) as [items|x].
    + destruct (Py.is_empty items); [inversion Hs; constructor|].
      apply bind_ok in Hs. destruct Hs as (kept & Hb & Hs).
      apply bind_ok in Hs. destruct Hs as (last & _ & Hs).
      apply before_Forall in Hb.
      destruct (Py.num_le last cur); inversion Hs; subst; exact Hb.
    + destruct (negb (Py.truthy x)); [inversion Hs; constructor|].
      discriminate Hs.
Qed.

Lemma not_before_Forall start_ms :
  forall data out,
    Upbit.not_before start_ms data = Ok out ->
    Forall (fun c => exists t, Upbit.candle_ts c = Ok t /\ start_ms <= t)
           out.
Proof.
  induction data as [|c data IH]; cbn [Upbit.not_before]; intros out H.
  - inversion H. constructor.
  - inv_bind H. destruct (v >=? start_ms) eqn:El; inversion H; subst.
    + constructor; [|eauto]. exists v. split; [exact E|].
      rewrite Z.geb_leb in El. now apply Z.leb_le.
    + eauto.
Qed.

(** X14.  Upbit's loop keeps a candle only if its [timestamp] field is at or
    after the start: nothing older is ever handed to the converter, however
    far back the pages reach. *)
Theorem upbit_candles_not_before_start endpoint market start_ms end_ms count
    m all m' :
  Upbit._paginate_candles endpoint market start_ms end_ms count m
  = (Ok all, m') ->
  Forall (fun c => exists t, Upbit.candle_ts c = Ok t /\ start_ms <= t) all.
Proof.
  intros H. unfold Upbit._paginate_candles in H.
  eapply paginate_Forall; [|exact H].
  intros resp cur new_rows next Hs. cbn beta in Hs.
  destruct (Py.is_empty resp); [inversion Hs; constructor|].
  apply bind_ok in Hs. destruct Hs as (kept & Hk & Hs).
  apply not_before_Forall in Hk.
  destruct (Py.len resp <? count); [inversion Hs; subst; exact Hk|].
  apply bind_ok in Hs. destruct Hs as (oldest & _ & Hs).
  destruct (oldest <=? start_ms); inversion Hs; subst; exact Hk.
Qed.

Lemma constant_empty name c : constant_column name c empty.
Proof. unfold constant_column. cbn. reflexivity. Qed.

Lemma frame_of_constant name c i cols conv raw df :
  index_of name cols = Some i ->
  (forall r row, conv r = Ok row -> nth i row CNone = c) ->
  Conv.frame_of cols conv raw = Ok df ->
  constant_column name c df.
Proof.
  intros Hi Hconv H. unfold Conv.frame_of in H.
  destruct (Py.is_empty raw).
  - inversion H. apply constant_empty.
  - inv_bind H. inversion H; subst. unfold constant_column.
    cbn [columns rows]. rewrite Hi.
    eapply mapM_Forall_out; [|eassumption]. exact Hconv.
Qed.

(** Takes apart a row the conversion matched as an array. *)
Ltac array_row r H :=
  destruct r as [items|fields]; [|discriminate H];
  repeat (destruct items as [|? items]; try discriminate H).

Lemma bybit_gaps r row :
  Bybit.ohlcv_row r = Ok row ->
  nth 6 row CNone = CNone /\ nth 8 row CNone = CInt 0
  /\ nth 9 row CNone = CFloat nan /\ nth 10 row CNone = CFloat nan.
Proof.
  intros H. unfold Bybit.ohlcv_row in H.
  repeat (apply bind_ok in H; destruct H as (? & _ & H)).
  inversion H; subst. auto.
Qed.

Lemma okx_gaps r row :
  Okx.ohlcv_row r = Ok row ->
  nth 8 row CNone = CInt 0
  /\ nth 9 row CNone = CFloat nan /\ nth 10 row CNone = CFloat nan.
Proof.
  intros H. unfold Okx.ohlcv_row in H. array_row r H.
  repeat (apply bind_ok in H; destruct H as (? & _ & H)).
  inversion H; subst. auto.
Qed.

Lemma kraken_gaps r row :
  Kraken.ohlcv_row r = Ok row ->
  nth 6 row CNone = CFloat nan /\ nth 7 row CNone = CFloat nan
  /\ nth 9 row CNone = CFloat nan /\ nth 10 row CNone = CFloat nan.
Proof.
  intros H. unfold Kraken.ohlcv_row in H. array_row r H.
  repeat (apply bind_ok in H; destruct H as (? & _ & H)).
  inversion H; subst. auto.
Qed.

Lemma coinbase_gaps r row :
  Coinbase.candle_row r = Ok row ->
  nth 6 row CNone = CNaT /\ nth 7 row CNone = CFloat nan
  /\ nth 8 row CNone = CInt 0
  /\ nth 9 row CNone = CFloat nan /\ nth 10 row CNone = CFloat nan.
Proof.
  intros H. unfold Coinbase.candle_row in H. array_row r H.
  repeat (apply bind_ok in H; destruct H as (? & _ & H)).
  inversion H; subst. auto.
Qed.

Lemma phemex_gaps r row :
  Phemex.kline_row r = Ok row ->
  nth 6 row CNone = CNaT /\ nth 8 row CNone = CInt 0
  /\ nth 9 row CNone = CFloat nan /\ nth 10 row CNone = CFloat nan.
Proof.
  intros H. unfold Phemex.kline_row in H.
  repeat (apply bind_ok in H; destruct H as (? & _ & H)).
  inversion H; subst. auto.
Qed.

Lemma upbit_gaps r row :
  Upbit.candle_row r = Ok row ->
  nth 6 row CNone = CFloat nan /\ nth 8 row CNone = CInt 0
  /\ nth 9 row CNone = CFloat nan /\ nth 10 row CNone = CFloat nan.
Proof.
  intros H. unfold Upbit.candle_row in H.
  repeat (apply bind_ok in H; destruct H as (? & _ & H)).
  inversion H; subst. auto.
Qed.

(** Decides [constant_column] for a frame built by [frame_of]. *)
Ltac by_gaps gaps H :=
  eapply frame_of_constant; [| |exact H];
  [reflexivity|intros r row Hr; apply gaps in Hr; tauto].

(** X15.  The OHLCV columns an exchange does not deliver are filled with one
    value in every row: no trade count (0) and no taker volumes (NaN)
    outside Binance, and a close time that is [None] for Bybit, [NaT] for
    Coinbase and Phemex and a float NaN for Kraken and Upbit. *)
Theorem ohlcv_gaps_are_constant symbol start_time end_time interval period :
  (forall m df m' name c,
      Bybit.fetch OHLCV symbol start_time end_time interval period m
      = (Ok df, m') ->
      In (name, c) [("close_time", CNone); ("trades", CInt 0);
                    ("taker_buy_volume", CFloat nan);
                    ("taker_buy_quote_volume", CFloat nan)] ->
      constant_column name c df)
  /\ (forall m df m' name c,
        Okx.fetch OHLCV symbol start_time end_time interval period m
        = (Ok df, m') ->
        In (name, c) [("trades", CInt 0);
                      ("taker_buy_volume", CFloat nan);
                      ("taker_buy_quote_volume", CFloat nan)] ->
        constant_column name c df)
  /\ (forall m df m' name c,
        Kraken.fetch OHLCV symbol start_time end_time interval period m
        = (Ok df, m') ->
        In (name, c) [("close_time", CFloat nan);
                      ("quote_volume", CFloat nan);
                      ("taker_buy_volume", CFloat nan);
                      ("taker_buy_quote_volume", CFloat nan)] ->
        constant_column name c df)
  /\ (forall m df m' name c,
        Coinbase.fetch OHLCV symbol start_time end_time interval period m
        = (Ok df, m') ->
        In (name, c) [("close_time", CNaT); ("quote_volume", CFloat nan);
                      ("trades", CInt 0);
                      ("taker_buy_volume", CFloat nan);
                      ("taker_buy_quote_volume", CFloat nan)] ->
        constant_column name c df)
  /\ (forall m df m' name c,
        Phemex.fetch OHLCV symbol start_time end_time interval period m
        = (Ok df, m') ->
        In (name, c) [("close_time", CNaT); ("trades", CInt 0);
                      ("taker_buy_volume", CFloat nan);
                      ("taker_buy_quote_volume", CFloat nan)] ->
        constant_column name c df)
  /\ (forall m df m' name c,
        Upbit.fetch OHLCV symbol start_time end_time interval period m
        = (Ok df, m') ->
        In (name, c) [("close_time", CFloat nan); ("trades", CInt 0);
                      ("taker_buy_volume", CFloat nan);
                      ("taker_buy_quote_volume", CFloat nan)] ->
        constant_column name c df).
Proof.
  repeat match goal with |- _ /\ _ => split end;
    intros m df m' name c H Hin; cbn [In] in Hin.
  - cbv [Bybit.fetch Bybit.klines_handler Bybit._klines_to_ohlcv_df] in H.
    inv_run.
    repeat destruct Hin as [Hin|Hin]; try contradiction;
      inversion Hin; subst; by_gaps bybit_gaps H.
  - cbv [Okx.fetch Okx.klines_handler Okx._klines_to_ohlcv_df] in H.
    inv_run.
    repeat destruct Hin as [Hin|Hin]; try contradiction;
      inversion Hin; subst; by_gaps okx_gaps H.
  - cbn [Kraken.fetch] in H. unfold Kraken._fetch_ohlcv in H.
    destruct (match interval with
              | Some i => Py.lookup i Kraken._INTERVAL_MAP
              | None => None
              end); inv_run; [|discriminate H].
    unfold Kraken._ohlcv_to_df in H.
    repeat destruct Hin as [Hin|Hin]; try contradiction;
      inversion Hin; subst; by_gaps kraken_gaps H.
  - cbn [Coinbase.fetch] in H. unfold Coinbase._fetch_ohlcv in H.
    destruct (match interval with
              | Some i => Py.lookup i Coinbase._INTERVAL_TO_GRANULARITY
              | None => None
              end); inv_run; [|discriminate H].
    unfold Coinbase._candles_to_df in H.
    destruct (Py.is_empty _).
    { inversion H. apply constant_empty. }
    apply bind_ok in H. destruct H as (sorted & _ & H).
    apply bind_ok in H. destruct H as (rs & Hrs & H).
    inversion H; subst. unfold constant_column. cbn [columns rows].
    repeat destruct Hin as [Hin|Hin]; try contradiction;
      inversion Hin; subst; cbn [index_of]; cbn;
      (eapply mapM_Forall_out; [|exact Hrs]);
      intros r row Hr; apply coinbase_gaps in Hr; tauto.
  - unfold Phemex.fetch in H.
    match type of H with
    | context [negb ?b] => change (negb b) with false in H
    end.
    cbv beta iota in H. unfold Phemex._fetch_ohlcv in H.
    destruct interval as [i|]; inv_run; [|discriminate H].
    destruct (Py.lookup i Phemex._INTERVAL_MAP); inv_run; [|discriminate H].
    unfold Phemex._klines_to_df in H.
    repeat destruct Hin as [Hin|Hin]; try contradiction;
      inversion Hin; subst; by_gaps phemex_gaps H.
  - cbn [Upbit.fetch] in H. unfold Upbit._fetch_ohlcv in H.
    destruct interval as [i|]; inv_run; [|discriminate H].
    destruct (Py.lookup i Upbit._INTERVAL_ENDPOINTS); inv_run;
      [|discriminate H].
    unfold Upbit._candles_to_df in H.
    destruct (Py.is_empty _).
    { inversion H. apply constant_empty. }
    apply bind_ok in H. destruct H as (rs & Hrs & H).
    apply ColumnFacts.sort_values_timestamp_spec in H.
    destruct H as (Hc & HP & _). unfold constant_column.
    rewrite Hc. cbn [columns rows] in *.
    assert (Hall : Forall (fun row =>
                     nth 6 row CNone = CFloat nan
                     /\ nth 8 row CNone = CInt 0
                     /\ nth 9 row CNone = CFloat nan
                     /\ nth 10 row CNone = CFloat nan) (rows df)).
    { eapply Permutation_Forall; [apply Permutation_sym, HP|].
      eapply mapM_Forall_out; [|exact Hrs]. apply upbit_gaps. }
    repeat destruct Hin as [Hin|Hin]; try contradiction;
      inversion Hin; subst; cbn;
      (eapply Forall_impl; [|exact Hall]); cbn beta; tauto.
Qed.

End WithRuntime.

(** Four Kraken candles a minute apart, asked for with a window of two
    minutes: the two that open inside it come back. *)
Lemma kraken_ohlcv_rows_before_end_witness :
  match @Kraken.fetch RefRuntime.ref_runtime OHLCV "XBTUSD"
          (VInt 1700000000000) (VInt 1700000120000) (Some "1m") None
          (Http.serving
             [Examples.kraken_ohlc_response
                (map Examples.kraken_ohlc_row
                     [1700000000; 1700000060; 1700000120; 1700000180]) 0])
  with
  | (Ok df, _) =>
      timestamps df = [Some 1700000000000000000; Some 1700000060000000000]
      /\ exists ts,
           timestamps df = map Some ts
           /\ Forall (fun t => t < 1700000120000 / 1000 * ns_per_s) ts
  | (Raise _, _) => False
  end.
Proof.
  destruct (@Kraken.fetch RefRuntime.ref_runtime OHLCV "XBTUSD"
              (VInt 1700000000000) (VInt 1700000120000) (Some "1m") None
              (Http.serving
                 [Examples.kraken_ohlc_response
                    (map Examples.kraken_ohlc_row
                         [1700000000; 1700000060; 1700000120; 1700000180])
                    0]))
    as [[df|err] m'] eqn:E.
  - split.
    + vm_compute in E. inversion E. reflexivity.
    + exact (@kraken_ohlcv_rows_before_end RefRuntime.ref_runtime _ _ _ _ _
               _ _ _ 1700000120000 E eq_refl).
  - vm_compute in E. discriminate E.
Defined.

(** A page that reaches back before the start: the older candle is
    dropped. *)
Lemma upbit_candles_not_before_start_witness :
  match @Upbit._paginate_candles "/candles/minutes/1" "KRW-BTC"
          1704070800000 1704080000000 200
          (Http.serving
             [[Examples.upbit_candle 1704070800000 "2024-01-01T01:00:00";
               Examples.upbit_candle 1704070740000 "2024-01-01T00:59:00"]])
  with
  | (Ok all, _) =>
      all = [Examples.upbit_candle 1704070800000 "2024-01-01T01:00:00"]
      /\ Forall (fun c => exists t, Upbit.candle_ts c = Ok t
                                    /\ 1704070800000 <= t) all
  | (Raise _, _) => False
  end.
Proof.
  destruct (@Upbit._paginate_candles "/candles/minutes/1" "KRW-BTC"
              1704070800000 1704080000000 200
              (Http.serving
                 [[Examples.upbit_candle 1704070800000 "2024-01-01T01:00:00";
                   Examples.upbit_candle 1704070740000
                                         "2024-01-01T00:59:00"]]))
    as [[all|err] m'] eqn:E.
  - split.
    + vm_compute in E. inversion E. reflexivity.
    + exact (@upbit_candles_not_before_start _ _ _ _ _ _ _ _ E).
  - vm_compute in E. discriminate E.
Defined.

(** The candle of the Upbit test for unavailable columns. *)
Lemma ohlcv_gaps_are_constant_witness :
  match @Upbit.fetch RefRuntime.ref_runtime OHLCV "BTCKRW"
          (VStr "2024-01-01") (VStr "2024-01-02") (Some "1m") None
          (Http.serving
             [[Examples.upbit_candle 1704070800000 "2024-01-01T01:00:00"]])
  with
  | (Ok df, _) =>
      len df = 1%nat
      /\ constant_column "trades" (CInt 0) df
      /\ constant_column "taker_buy_volume" (CFloat nan) df
  | (Raise _, _) => False
  end.
Proof.
  destruct (@Upbit.fetch RefRuntime.ref_runtime OHLCV "BTCKRW"
              (VStr "2024-01-01") (VStr "2024-01-02") (Some "1m") None
              (Http.serving
                 [[Examples.upbit_candle 1704070800000
                                         "2024-01-01T01:00:00"]]))
    as [[df|err] m'] eqn:E.
  - destruct (@ohlcv_gaps_are_constant RefRuntime.ref_runtime "BTCKRW"
                (VStr "2024-01-01") (VStr "2024-01-02") (Some "1m") None)
      as (_ & _ & _ & _ & _ & HU).
    split; [vm_compute in E; inversion E; reflexivity|].
    split; eapply HU; try exact E; cbn; auto.
  - vm_compute in E. discriminate E.
Defined.

End RowFacts.

(** ** Symbol conversion *)

Module SymbolFacts.

(** *** Strings: suffixes, substrings, case *)

Lemma str_length_app (a b : string) :
  String.length (a ++ b) = (String.length a + String.length b)%nat.
Proof. induction a as [|c a IH]; cbn; [reflexivity|now rewrite IH]. Qed.

Lemma str_app_assoc (a b c : string) : (a ++ b) ++ c = a ++ (b ++ c).
Proof. induction a as [|x a IH]; cbn; [reflexivity|now rewrite IH]. Qed.

Lemma str_app_nil_r (a : string) : a ++ "" = a.
Proof. induction a as [|x a IH]; cbn; [reflexivity|now rewrite IH]. Qed.

Lemma substring_all (s : string) : substring 0 (String.length s) s = s.
Proof. induction s as [|c s IH]; cbn; [reflexivity|now rewrite IH]. Qed.

Lemma substring_prefix (a b : string) :
  substring 0 (String.length a) (a ++ b) = a.
Proof.
  induction a as [|c a IH]; cbn.
  - destruct b; reflexivity.
  - now rewrite IH.
Qed.

Lemma substring_skip (a b : string) (n : nat) :
  substring (String.length a) n (a ++ b) = substring 0 n b.
Proof. induction a as [|c a IH]; cbn; [reflexivity|exact IH]. Qed.

Lemma substring_split (s : string) :
  forall i, (i <= String.length s)%nat ->
    s = substring 0 i s ++ substring i (String.length s - i) s.
Proof.
  induction s as [|c s IH]; intros i Hi.
  - cbn in Hi. assert (i = 0%nat) as -> by lia. reflexivity.
  - destruct i as [|i]; cbn [substring String.length Nat.sub append].
    + now rewrite substring_all.
    + cbn in Hi. rewrite <- (IH i) by lia. reflexivity.
Qed.

Lemma ends_with_app (q b : string) : Py.ends_with q (b ++ q) = true.
Proof.
  unfold Py.ends_with. rewrite str_length_app.
  replace (String.length b + String.length q - String.length q)%nat
    with (String.length b) by lia.
  rewrite substring_skip, substring_all, String.eqb_refl.
  apply andb_true_iff. split; [apply Nat.leb_le; lia|reflexivity].
Qed.

Lemma drop_suffix_app (q b : string) : Py.drop_suffix q (b ++ q) = b.
Proof.
  unfold Py.drop_suffix. rewrite str_length_app.
  replace (String.length b + String.length q - String.length q)%nat
    with (String.length b) by lia.
  apply substring_prefix.
Qed.

(** What [endswith] accepts ends with the suffix. *)
Lemma ends_with_inv (q s : string) :
  Py.ends_with q s = true -> s = Py.drop_suffix q s ++ q.
Proof.
  unfold Py.ends_with, Py.drop_suffix. intros H.
  apply andb_true_iff in H. destruct H as [Hl He].
  apply Nat.leb_le in Hl. apply String.eqb_eq in He.
  pose proof (@substring_split s (String.length s - String.length q)%nat
                ltac:(lia)) as Hs.
  replace (String.length s - (String.length s - String.length q))%nat
    with (String.length q) in Hs by lia.
  rewrite He in Hs. exact Hs.
Qed.

Lemma app_last_inj (a b : string) (c d : ascii) :
  a ++ String c "" = b ++ String d "" -> c = d.
Proof.
  revert b. induction a as [|x a IH]; intros [|y b] H; cbn in H.
  - now inversion H.
  - inversion H. destruct b; discriminate.
  - inversion H. destruct a; discriminate.
  - inversion H. eauto.
Qed.

(** A string cannot end with a suffix whose last character is not its
    own. *)
Lemma ends_with_last (p b : string) (c d : ascii) :
  c <> d -> Py.ends_with (p ++ String c "") (b ++ String d "") = false.
Proof.
  intros Hcd. destruct (Py.ends_with _ _) eqn:E; [|reflexivity].
  apply ends_with_inv in E. rewrite <- str_app_assoc in E.
  apply app_last_inj in E. congruence.
Qed.

Lemma ends_with_other (q s p b : string) (c d : ascii) :
  q = p ++ String c "" -> s = b ++ String d "" -> c <> d ->
  Py.ends_with q s = false.
Proof. intros -> -> H. now apply ends_with_last. Qed.

Lemma str_map_app (f : ascii -> ascii) (a b : string) :
  str_map f (a ++ b) = str_map f a ++ str_map f b.
Proof. induction a as [|c a IH]; cbn; [reflexivity|now rewrite IH]. Qed.

Lemma upper_app (a b : string) : upper (a ++ b) = upper a ++ upper b.
Proof. apply str_map_app. Qed.

Lemma upper_ascii_idem (c : ascii) :
  upper_ascii (upper_ascii c) = upper_ascii c.
Proof. destruct c as [[] [] [] [] [] [] [] []]; reflexivity. Qed.

Lemma upper_idem (s : string) : upper (upper s) = upper s.
Proof.
  induction s as [|c s IH]; cbn; [reflexivity|].
  fold (upper s). fold (upper (upper s)). now rewrite upper_ascii_idem, IH.
Qed.

Lemma str_map_substring (f : ascii -> ascii) (s : string) :
  forall i n, str_map f (substring i n s) = substring i n (str_map f s).
Proof.
  induction s as [|c s IH]; intros i n.
  - destruct i, n; reflexivity.
  - destruct i as [|i]; cbn.
    + destruct n as [|n]; cbn; [reflexivity|]. now rewrite IH.
    + apply IH.
Qed.

(** A piece of an upper-cased string is in upper case. *)
Lemma upper_substring (s : string) (i n : nat) :
  upper (substring i n (upper s)) = substring i n (upper s).
Proof. unfold upper. rewrite str_map_substring. fold (upper s).
       fold (upper (upper s)). now rewrite upper_idem. Qed.

Lemma contains_dash_cons (c : ascii) (s : string) :
  contains "-" (String c s) = Ascii.eqb c "-" || contains "-" s.
Proof.
  cbn [contains String.prefix].
  destruct (ascii_dec "-" c) as [<-|Hne].
  - rewrite Ascii.eqb_refl. destruct s; reflexivity.
  - replace (Ascii.eqb c "-") with false
      by (symmetry; apply Ascii.eqb_neq; congruence).
    reflexivity.
Qed.

Lemma contains_dash_nil : contains "-" "" = false.
Proof. reflexivity. Qed.

Lemma contains_dash_app (a b : string) :
  contains "-" (a ++ b) = contains "-" a || contains "-" b.
Proof.
  induction a as [|c a IH].
  - cbn [append]. rewrite contains_dash_nil. reflexivity.
  - cbn [append]. rewrite !contains_dash_cons, IH. now rewrite orb_assoc.
Qed.

Lemma upper_ascii_dash (c : ascii) :
  Ascii.eqb (upper_ascii c) "-" = Ascii.eqb c "-".
Proof. destruct c as [[] [] [] [] [] [] [] []]; reflexivity. Qed.

Lemma contains_dash_upper (s : string) :
  contains "-" (upper s) = contains "-" s.
Proof.
  induction s as [|c s IH]; [reflexivity|].
  change (upper (String c s)) with (String (upper_ascii c) (upper s)).
  now rewrite !contains_dash_cons, upper_ascii_dash, IH.
Qed.

Lemma alnum_not_dash (c : ascii) :
  Upbit.is_upper_alnum c = true -> Ascii.eqb c "-" = false.
Proof.
  destruct c as [[] [] [] [] [] [] [] []]; intros H;
    first [reflexivity | discriminate H].
Qed.

Lemma alnum_upper (c : ascii) :
  Upbit.is_upper_alnum c = true -> upper_ascii c = c.
Proof.
  destruct c as [[] [] [] [] [] [] [] []]; intros H;
    first [reflexivity | discriminate H].
Qed.

Lemma all_alnum_no_dash (s : string) :
  Upbit.all_chars Upbit.is_upper_alnum s = true -> contains "-" s = false.
Proof.
  induction s as [|c s IH]; [reflexivity|].
  cbn [Upbit.all_chars]. intros H. apply andb_true_iff in H.
  destruct H as [Hc Hs]. rewrite contains_dash_cons.
  now rewrite (alnum_not_dash _ Hc), IH.
Qed.

Lemma all_alnum_upper (s : string) :
  Upbit.all_chars Upbit.is_upper_alnum s = true -> upper s = s.
Proof.
  induction s as [|c s IH]; [reflexivity|].
  cbn [Upbit.all_chars]. intros H. apply andb_true_iff in H.
  destruct H as [Hc Hs].
  change (upper (String c s)) with (String (upper_ascii c) (upper s)).
  now rewrite (alnum_upper _ Hc), IH.
Qed.

(** The quote the [for] loop of the OKX helpers finds. *)
Lemma split_usd (base quote : string) :
  In quote ["USDT"; "USD"] ->
  Okx.split_quote (base ++ quote) ["USDT"; "USD"] = Some (base, quote).
Proof.
  intros [<-|[<-|[]]]; cbn [Okx.split_quote].
  - now rewrite ends_with_app, drop_suffix_app.
  - replace (Py.ends_with "USDT" (base ++ "USD")) with false.
    + now rewrite ends_with_app, drop_suffix_app.
    + symmetry.
      change "USDT" with ("USD" ++ String "T" "").
      change (base ++ "USD") with (base ++ ("US" ++ String "D" "")).
      rewrite <- str_app_assoc. apply ends_with_last. discriminate.
Qed.

(** Nothing that ends in [P] has a quote. *)
Lemma split_swap (x : string) :
  Okx.split_quote (upper (x ++ "-SWAP")) ["USDT"; "USD"] = None.
Proof.
  change (x ++ "-SWAP") with (x ++ ("-SWA" ++ String "P" "")).
  rewrite <- str_app_assoc, upper_app.
  change (upper (String "P" "")) with (String "P" "").
  cbn [Okx.split_quote].
  change "USDT" with ("USD" ++ String "T" "").
  rewrite ends_with_last by discriminate.
  change "USD" with ("US" ++ String "D" "").
  rewrite ends_with_last by discriminate.
  reflexivity.
Qed.

Section WithRuntime.
Context `{RT : PyRuntime}.

(** X16.  A symbol that, in upper case, is a base followed by USDT or USD is
    converted by the three OKX helpers to the swap instrument, the index
    instrument and the currency of that base. *)
Theorem okx_symbols_convert symbol base quote :
  In quote ["USDT"; "USD"] ->
  upper symbol = base ++ quote ->
  Okx._to_inst_id symbol = Ok (base ++ "-" ++ quote ++ "-SWAP")
  /\ Okx._to_index_inst_id symbol = Ok (base ++ "-" ++ quote)
  /\ Okx._to_ccy symbol = Ok base.
Proof.
  intros Hq Hs.
  unfold Okx._to_inst_id, Okx._to_index_inst_id, Okx._to_ccy. cbv zeta.
  rewrite Hs, (split_usd base Hq). auto.
Qed.

(** X17.  Coinbase and Upbit accept their own output and return it
    unchanged; OKX's helper does not: it rejects every instrument id it
    produces. *)
Theorem converted_symbols_pass_through :
  (forall symbol p,
      Coinbase._to_product_id symbol = Ok p ->
      Coinbase._to_product_id p = Ok p)
  /\ (forall symbol p,
        Upbit._to_upbit_market symbol = Ok p ->
        Upbit._to_upbit_market p = Ok p)
  /\ (forall symbol p,
        Okx._to_inst_id symbol = Ok p ->
        exists msg, Okx._to_inst_id p = Raise (ValueError msg)).
Proof.
  repeat match goal with |- _ /\ _ => split end.
  - intros symbol p H. unfold Coinbase._to_product_id in *.
    destruct (contains "-" symbol) eqn:Ed.
    + inversion H; subst p.
      now rewrite contains_dash_upper, Ed, upper_idem.
    + cbv zeta in H.
      destruct (Okx.split_quote (upper symbol) ["USDT"; "USD"])
        as [[base quote]|] eqn:Eq; [|discriminate H].
      inversion H; subst p.
      assert (Hb : upper base = base /\ upper quote = quote).
      { cbn [Okx.split_quote] in Eq.
        destruct (Py.ends_with "USDT" (upper symbol)).
        - inversion Eq; subst. split; [|reflexivity].
          apply upper_substring.
        - destruct (Py.ends_with "USD" (upper symbol)); [|discriminate Eq].
          inversion Eq; subst. split; [|reflexivity].
          apply upper_substring. }
      destruct Hb as [Hb Hq].
      rewrite contains_dash_app, contains_dash_cons, Ascii.eqb_refl.
      rewrite orb_true_l, orb_true_r, upper_app.
      change (upper (String "-" quote)) with (String "-" (upper quote)).
      now rewrite Hb, Hq.
  - intros symbol p H. unfold Upbit._to_upbit_market in *.
    destruct (contains "-" symbol) eqn:Ed.
    + inversion H; subst p. now rewrite Ed.
    + destruct (Upbit.match_symbol (upper symbol)) as [[base quote]|];
        [|discriminate H].
      inversion H; subst p.
      rewrite contains_dash_app, contains_dash_cons, Ascii.eqb_refl.
      now rewrite orb_true_l, orb_true_r.
  - intros symbol p H. unfold Okx._to_inst_id in *. cbv zeta in *.
    destruct (Okx.split_quote (upper symbol) ["USDT"; "USD"])
      as [[base quote]|]; [|discriminate H].
    injection H as Hp. rewrite <- Hp.
    match goal with
    | |- context [Okx.split_quote (upper ?x) _] =>
        replace x with ((base ++ "-" ++ quote) ++ "-SWAP")
          by (now rewrite !str_app_assoc)
    end.
    rewrite split_swap. eexists. reflexivity.
Qed.

(** X18.  A base of capital letters and digits followed by one of Upbit's
    four quotes is turned round: the quote, a dash, the base. *)
Theorem upbit_market_of_symbol base quote :
  In quote ["KRW"; "USDT"; "BTC"; "ETH"] ->
  base <> "" ->
  Upbit.all_chars Upbit.is_upper_alnum base = true ->
  Upbit._to_upbit_market (base ++ quote) = Ok (quote ++ "-" ++ base).
Proof.
  intros Hq Hne Hb.
  assert (Hqa : Upbit.all_chars Upbit.is_upper_alnum quote = true).
  { destruct Hq as [<-|[<-|[<-|[<-|[]]]]]; reflexivity. }
  unfold Upbit._to_upbit_market.
  rewrite contains_dash_app, (all_alnum_no_dash _ Hb),
    (all_alnum_no_dash _ Hqa). cbn [orb].
  rewrite upper_app, (all_alnum_upper _ Hb), (all_alnum_upper _ Hqa).
  unfold Upbit.match_symbol. cbv zeta.
  assert (Hnl : Py.ends_with (String (ascii_of_nat 10) "") (base ++ quote)
                = false).
  { destruct Hq as [<-|[<-|[<-|[<-|[]]]]].
    - change (base ++ "KRW") with (base ++ ("KR" ++ String "W" "")).
      rewrite <- str_app_assoc.
      apply (@ends_with_last "" (base ++ "KR")). discriminate.
    - change (base ++ "USDT") with (base ++ ("USD" ++ String "T" "")).
      rewrite <- str_app_assoc.
      apply (@ends_with_last "" (base ++ "USD")). discriminate.
    - change (base ++ "BTC") with (base ++ ("BT" ++ String "C" "")).
      rewrite <- str_app_assoc.
      apply (@ends_with_last "" (base ++ "BT")). discriminate.
    - change (base ++ "ETH") with (base ++ ("ET" ++ String "H" "")).
      rewrite <- str_app_assoc.
      apply (@ends_with_last "" (base ++ "ET")). discriminate. }
  rewrite Hnl.
  assert (Hsplit : Okx.split_quote (base ++ quote)
                     ["KRW"; "USDT"; "BTC"; "ETH"] = Some (base, quote)).
  { destruct Hq as [<-|[<-|[<-|[<-|[]]]]]; cbn [Okx.split_quote].
    - now rewrite ends_with_app, drop_suffix_app.
    - rewrite (@ends_with_other "KRW" (base ++ "USDT") "KR" (base ++ "USD")
                 "W" "T")
        by first [reflexivity | now rewrite str_app_assoc | discriminate].
      now rewrite ends_with_app, drop_suffix_app.
    - rewrite (@ends_with_other "KRW" (base ++ "BTC") "KR" (base ++ "BT")
                 "W" "C")
        by first [reflexivity | now rewrite str_app_assoc | discriminate].
      rewrite (@ends_with_other "USDT" (base ++ "BTC") "USD" (base ++ "BT")
                 "T" "C")
        by first [reflexivity | now rewrite str_app_assoc | discriminate].
      now rewrite ends_with_app, drop_suffix_app.
    - rewrite (@ends_with_other "KRW" (base ++ "ETH") "KR" (base ++ "ET")
                 "W" "H")
        by first [reflexivity | now rewrite str_app_assoc | discriminate].
      rewrite (@ends_with_other "USDT" (base ++ "ETH") "USD" (base ++ "ET")
                 "T" "H")
        by first [reflexivity | now rewrite str_app_assoc | discriminate].
      rewrite (@ends_with_other "BTC" (base ++ "ETH") "BT" (base ++ "ET")
                 "C" "H")
        by first [reflexivity | now rewrite str_app_assoc | discriminate].
      now rewrite ends_with_app, drop_suffix_app. }
  rewrite Hsplit, Hb.
  replace (String.eqb base "") with false
    by (symmetry; now apply String.eqb_neq).
  reflexivity.
Qed.

End WithRuntime.

Lemma okx_symbols_convert_witness :
  @Okx._to_inst_id RefRuntime.ref_runtime "btcusdt" = Ok "BTC-USDT-SWAP"
  /\ @Okx._to_index_inst_id RefRuntime.ref_runtime "btcusdt" = Ok "BTC-USDT"
  /\ @Okx._to_ccy RefRuntime.ref_runtime "btcusdt" = Ok "BTC".
Proof.
  apply (@okx_symbols_convert RefRuntime.ref_runtime "btcusdt" "BTC" "USDT").
  - cbn. auto.
  - reflexivity.
Defined.

Lemma converted_symbols_pass_through_witness :
  @Upbit._to_upbit_market RefRuntime.ref_runtime "KRW-BTC" = Ok "KRW-BTC"
  /\ exists msg,
       @Okx._to_inst_id RefRuntime.ref_runtime "BTC-USDT-SWAP"
       = Raise (ValueError msg).
Proof.
  destruct (@converted_symbols_pass_through RefRuntime.ref_runtime)
    as (_ & HU & HO).
  split.
  - apply (HU "BTCKRW"). reflexivity.
  - apply (HO "BTCUSDT"). reflexivity.
Defined.

Lemma upbit_market_of_symbol_witness :
  @Upbit._to_upbit_market RefRuntime.ref_runtime "BTCUSDT" = Ok "USDT-BTC".
Proof.
  apply (@upbit_market_of_symbol RefRuntime.ref_runtime "BTC" "USDT").
  - cbn. auto.
  - discriminate.
  - reflexivity.
Defined.

End SymbolFacts.

(** ** The Binance futures client *)

Module FuturesClientFacts.

Import Generic PaginateFacts LoopFacts FuturesClient.

(** *** [sorted] on strings *)

Lemma insert_str_perm (s : string) (l : list string) :
  Permutation (insert_str s l) (s :: l).
Proof.
  induction l as [|t l IH]; cbn [insert_str]; [reflexivity|].
  destruct (String.leb s t); [reflexivity|].
  rewrite IH. apply perm_swap.
Qed.

Lemma sorted_strs_perm (l : list string) : Permutation (sorted_strs l) l.
Proof.
  induction l as [|s l IH]; cbn [sorted_strs fold_right]; [reflexivity|].
  fold (sorted_strs l). rewrite insert_str_perm. now constructor.
Qed.

Lemma insert_str_sorted (s : string) (l : list string) :
  Sorted le_str l -> Sorted le_str (insert_str s l).
Proof.
  induction 1 as [|t l Hl IH Hd]; cbn [insert_str].
  - repeat constructor.
  - destruct (String.leb s t) eqn:E.
    + constructor; [constructor; assumption|]. constructor. exact E.
    + assert (Hts : le_str t s).
      { destruct (String.leb_total s t) as [H|H]; [congruence|exact H]. }
      constructor; [exact IH|].
      destruct l as [|u l]; cbn [insert_str].
      * constructor. exact Hts.
      * destruct (String.leb s u); constructor; [exact Hts|].
        now inversion Hd.
Qed.

Lemma sorted_strs_sorted (l : list string) : Sorted le_str (sorted_strs l).
Proof.
  induction l as [|s l IH]; cbn [sorted_strs fold_right]; [constructor|].
  now apply insert_str_sorted.
Qed.

Lemma eq_str_true (x : scalar) (s : string) :
  Py.eq_str x s = true <-> x = SStr s.
Proof.
  destruct x as [z|f|t|]; cbn; split; intros H; try discriminate.
  - apply String.eqb_eq in H. now subst.
  - inversion H. apply String.eqb_refl.
Qed.

(** What the comprehension keeps. *)
Lemma trading_usdt_spec :
  forall entries kept,
    trading_usdt entries = Ok kept ->
    forall x, In x kept <->
              exists s, In s entries
                        /\ Py.key s "status" = Ok (SStr "TRADING")
                        /\ Py.key s "quoteAsset" = Ok (SStr "USDT")
                        /\ Py.key s "symbol" = Ok x.
Proof.
  induction entries as [|s entries IH]; cbn [trading_usdt]; intros kept H x.
  - inversion H. split; [intros []|intros (s & [] & _)].
  - apply bind_ok in H. destruct H as (status & Hst & H).
    apply bind_ok in H. destruct H as (keep & Hk & H).
    apply bind_ok in H. destruct H as (head & Hh & H).
    apply bind_ok in H. destruct H as (rest & Hr & H).
    inversion H; subst kept; clear H.
    specialize (IH _ Hr x). rewrite in_app_iff, IH. clear IH.
    assert (Hhead : In x head <->
                    Py.key s "status" = Ok (SStr "TRADING")
                    /\ Py.key s "quoteAsset" = Ok (SStr "USDT")
                    /\ Py.key s "symbol" = Ok x).
    { destruct (Py.eq_str status "TRADING") eqn:Et.
      - apply eq_str_true in Et. subst status.
        apply bind_ok in Hk. destruct Hk as (quote & Hq & Hk).
        inversion Hk; subst keep; clear Hk.
        destruct (Py.eq_str quote "USDT") eqn:Eu.
        + apply eq_str_true in Eu. subst quote.
          apply bind_ok in Hh. destruct Hh as (sym & Hs & Hh).
          inversion Hh; subst head. cbn [In]. split.
          * intros [<-|[]]. auto.
          * intros (_ & _ & Hx). left. congruence.
        + inversion Hh; subst head. split; [intros []|].
          intros (_ & Hq' & _). rewrite Hq in Hq'. inversion Hq'; subst.
          cbn in Eu. discriminate Eu.
      - inversion Hk; subst keep. inversion Hh; subst head.
        split; [intros []|]. intros (Hs' & _). rewrite Hst in Hs'.
        inversion Hs'; subst. cbn in Et. discriminate Et. }
    rewrite Hhead. split.
    + intros [H|(s' & Hin & H)]; [exists s|exists s']; cbn [In]; tauto.
    + intros (s' & [<-|Hin] & H); [left; exact H|right; eauto].
Qed.

(** X19.  [get_futures_symbols] makes one request and returns, in ascending
    order, the symbol of every entry that is trading against USDT and of no
    other entry. *)
Theorem futures_symbols_are_the_trading_usdt_ones info rest calls out m'
    entries :
  get_futures_symbols (Http.mkMock (info :: rest) calls) = (Ok out, m') ->
  symbols info = Some entries ->
  m' = Http.mkMock rest
         (calls ++ [Http.mkRequest
                      (FUTURES_BASE_URL ++ "/fapi/v1/exchangeInfo") []])
  /\ Sorted le_str out
  /\ (forall sym, In sym out <-> exists s, In s entries /\ listed s sym).
Proof.
  intros H Hsym. unfold get_futures_symbols in H.
  apply bindM_ok in H. destruct H as (info' & m1 & Hg & H).
  unfold Http.get in Hg. cbn [Http.pending Http.calls] in Hg.
  inversion Hg; subst info' m1; clear Hg.
  apply lift_ok in H. destruct H as [H ->]. split; [reflexivity|].
  rewrite Hsym in H. cbn [of_option bind] in H.
  apply bind_ok in H. destruct H as (kept & Hk & H).
  unfold sorted_symbols in H.
  apply bind_ok in H. destruct H as (names & Hn & H).
  inversion H; subst out; clear H.
  split; [apply sorted_strs_sorted|].
  intros sym.
  pose proof (trading_usdt_spec _ Hk (SStr sym)) as Hspec.
  assert (Hnames : In sym names <-> In (SStr sym) kept).
  { clear -Hn. revert names Hn.
    induction kept as [|x kept IH]; cbn [mapM]; intros names Hn.
    - inversion Hn. reflexivity.
    - apply bind_ok in Hn. destruct Hn as (s & Hs & Hn).
      apply bind_ok in Hn. destruct Hn as (ns & Hns & Hn).
      inversion Hn; subst names. cbn [In]. rewrite (IH _ Hns).
      destruct x as [z|f|t|]; try discriminate Hs.
      inversion Hs; subst. split; intros [H|H]; auto; left; congruence. }
  split.
  - intros Hin.
    apply (Permutation_in _ (sorted_strs_perm names)) in Hin.
    apply Hnames, Hspec in Hin. destruct Hin as (s & Hs & H).
    exists s. split; [exact Hs|exact H].
  - intros (s & Hs & H).
    apply (Permutation_in _ (Permutation_sym (sorted_strs_perm names))).
    apply Hnames, Hspec. exists s. split; [exact Hs|exact H].
Qed.

(** Four entries, two of them trading against USDT. *)
Lemma futures_symbols_are_the_trading_usdt_ones_witness :
  let entries := [Examples.listing "ETHUSDT" "TRADING" "USDT";
                  Examples.listing "BTCBUSD" "TRADING" "BUSD";
                  Examples.listing "LUNAUSDT" "SETTLING" "USDT";
                  Examples.listing "BTCUSDT" "TRADING" "USDT"] in
  fst (get_futures_symbols (Http.serving [mkInfo (Some entries)]))
  = Ok ["BTCUSDT"; "ETHUSDT"]
  /\ Sorted le_str ["BTCUSDT"; "ETHUSDT"]
  /\ (forall sym, In sym ["BTCUSDT"; "ETHUSDT"] <->
                  exists s, In s entries /\ listed s sym).
Proof.
  intros entries. split; [reflexivity|].
  exact (proj2 (@futures_symbols_are_the_trading_usdt_ones
                  (mkInfo (Some entries)) [] [] ["BTCUSDT"; "ETHUSDT"]
                  _ entries eq_refl eq_refl)).
Defined.

(** *** Aggregated trades *)

Lemma in_range_Forall start_ms end_ms :
  forall all_data out,
    in_range start_ms end_ms all_data = Ok out ->
    Forall (fun t => exists time,
                trade_time t = Ok time /\ start_ms <= time <= end_ms) out.
Proof.
  induction all_data as [|t all_data IH]; cbn [in_range]; intros out H.
  - inversion H. constructor.
  - apply bind_ok in H. destruct H as (time & Ht & H).
    apply bind_ok in H. destruct H as (rest & Hr & H).
    destruct ((start_ms <=? time) && (time <=? end_ms)) eqn:E;
      inversion H; subst; [|eauto].
    apply andb_true_iff in E. destruct E as [E1 E2].
    apply Z.leb_le in E1. apply Z.leb_le in E2.
    constructor; [|eauto]. exists time. split; [exact Ht|lia].
Qed.

Section Linked.

Variables R C : Type.
Variable cond : C -> bool.
Variable mkreq : C -> Http.request.
Variable step : R -> C -> result (list jrow * option C).

Lemma linked_impl (P Q : C -> C -> Prop) :
  (forall c c', P c c' -> Q c c') ->
  forall l, Http.linked P l -> Http.linked Q l.
Proof.
  intros HPQ. induction l as [|c l IH]; cbn [Http.linked]; [auto|].
  destruct l as [|c' l']; [auto|]. intros [H1 H2]. split; auto.
Qed.

(** The cursors of the calls are linked by steps on responses the mock
    held. *)
Lemma paginate_from_linked_in :
  forall pending calls cur acc,
    exists cursors,
      Http.calls (snd (Http.paginate_from cond mkreq step pending calls cur acc))
      = (calls ++ map mkreq cursors)%list
      /\ Forall (fun c => cond c = true) cursors
      /\ (forall c, hd_error cursors = Some c -> c = cur)
      /\ Http.linked
           (fun c c' => exists resp new_rows,
                In resp pending /\ step resp c = Ok (new_rows, Some c'))
           cursors.
Proof.
  induction pending as [|resp rest IH]; intros calls cur acc;
    cbn [Http.paginate_from]; destruct (cond cur) eqn:Hc.
  - exists [cur]. cbn. repeat split; auto. intros c H. now inversion H.
  - exists []. cbn. rewrite app_nil_r. repeat split; auto. discriminate.
  - destruct (step resp cur) as [[new_rows [cur'|]]|err] eqn:E.
    + destruct (IH (calls ++ [mkreq cur])%list cur' (acc ++ new_rows)%list)
        as (cs & Hcs & HF & Hhd & HL).
      exists (cur :: cs). rewrite Hcs. cbn [map]. rewrite <- app_assoc.
      split; [reflexivity|]. split; [constructor; assumption|].
      split; [intros c H; now inversion H|].
      cbn [Http.linked]. destruct cs as [|c' cs']; [exact I|].
      split.
      * rewrite (Hhd c' eq_refl). exists resp, new_rows. cbn [In]. auto.
      * eapply linked_impl; [|exact HL]. cbn beta.
        intros c1 c2 (r & rows & Hin & Hs). exists r, rows. cbn [In]. auto.
    + exists [cur]. cbn. repeat split; auto. intros c H. now inversion H.
    + exists [cur]. cbn. repeat split; auto. intros c H. now inversion H.
  - exists []. cbn. rewrite app_nil_r. repeat split; auto. discriminate.
Qed.

End Linked.

(** A batch shorter than the limit sends the loop on to the next hour. *)
Lemma short_batch_next_hour end_ms limit batch chunk_start new_rows next :
  Py.len batch < limit ->
  agg_step end_ms limit batch (Hour chunk_start) = Ok (new_rows, Some next) ->
  next = Hour (chunk_end_of end_ms chunk_start).
Proof.
  intros Hs H. cbn [agg_step] in H. cbv zeta in H.
  destruct (Py.is_empty batch); [now inversion H|].
  unfold after_batch in H.
  assert (E : (Py.len batch >=? limit) = false).
  { rewrite Z.geb_leb. apply Z.leb_gt. exact Hs. }
  rewrite E in H. cbn [bind] in H. now inversion H.
Qed.

Lemma hours_only end_ms limit (pending : list page) :
  Forall (fun batch => Py.len batch < limit) pending ->
  forall cursors start,
    (forall c, hd_error cursors = Some c -> c = Hour start) ->
    Http.linked
      (fun c c' => exists resp new_rows,
           In resp pending
           /\ agg_step end_ms limit resp c = Ok (new_rows, Some c'))
      cursors ->
    exists starts,
      cursors = map Hour starts
      /\ (forall c, hd_error starts = Some c -> c = start)
      /\ Http.linked (fun c c' => c' = Z.min (c + HOUR_MS) end_ms) starts.
Proof.
  intros Hshort. rewrite Forall_forall in Hshort.
  induction cursors as [|c0 cs IH]; intros start Hhd HL.
  - exists []. cbn. repeat split; auto. discriminate.
  - pose proof (Hhd c0 eq_refl) as ->.
    destruct cs as [|c1 cs'].
    + exists [start]. cbn. repeat split; auto. intros c H. now inversion H.
    + cbn [Http.linked] in HL. destruct HL as [(resp & rows & Hin & Hs) HL].
      apply short_batch_next_hour in Hs; [|apply Hshort, Hin]. subst c1.
      destruct (IH (chunk_end_of end_ms start)
                   ltac:(intros ? H; now inversion H) HL)
        as (starts & Hst & Hhd' & HL').
      exists (start :: starts). cbn [map]. rewrite Hst.
      split; [reflexivity|]. split; [intros c H; now inversion H|].
      cbn [Http.linked]. destruct starts as [|s1 starts']; [exact I|].
      split; [|exact HL']. cbn in Hst. inversion Hst. reflexivity.
Qed.

Section WithRuntime.
Context `{RT : PyRuntime}.

(** X20.  Every trade [get_agg_trades] puts in its table has a time in the
    closed range from the start to the end of the request: a trade at the
    very millisecond of the end is kept. *)
Theorem agg_trades_within_closed_range symbol start_time end_time limit m
    trades m' start_ms end_ms :
  agg_trades symbol start_time end_time limit m = (Ok trades, m') ->
  Transport.to_milliseconds start_time = Ok start_ms ->
  Transport.to_milliseconds end_time = Ok end_ms ->
  Forall (fun t => exists time,
              trade_time t = Ok time /\ start_ms <= time <= end_ms) trades.
Proof.
  intros H Hs He. unfold agg_trades in H.
  rewrite (EdgeFacts.bindM_lift_ok _ _ Hs) in H.
  rewrite (EdgeFacts.bindM_lift_ok _ _ He) in H.
  apply bindM_ok in H. destruct H as (all_data & m1 & _ & H).
  apply lift_ok in H. destruct H as [H _].
  eapply in_range_Forall, H.
Qed.

(** X21.  While every batch is shorter than the limit, [get_agg_trades]
    never pages by trade id: it asks once for each hour of the range, an
    empty hour included, the windows starting an hour apart from the start
    and before the end. *)
Theorem agg_trades_asks_hour_by_hour symbol start_time end_time limit m
    start_ms end_ms :
  Transport.to_milliseconds start_time = Ok start_ms ->
  Transport.to_milliseconds end_time = Ok end_ms ->
  Forall (fun batch => Py.len batch < limit) (Http.pending m) ->
  exists starts,
    Http.calls (snd (agg_trades symbol start_time end_time limit m))
    = (Http.calls m
       ++ map (fun chunk_start =>
                 Http.mkRequest (FUTURES_BASE_URL ++ "/fapi/v1/aggTrades")
                   [("symbol", Conv.pstr symbol);
                    ("startTime", Conv.pint chunk_start);
                    ("endTime",
                     Conv.pint (Z.min (chunk_start + HOUR_MS) end_ms));
                    ("limit", Conv.pint limit)])
              starts)%list
    /\ (forall i chunk_start,
          nth_error starts i = Some chunk_start ->
          chunk_start = start_ms + Z.of_nat i * HOUR_MS
          /\ chunk_start < end_ms)
    /\ (Z.of_nat (List.length starts)
        <= (end_ms - start_ms + HOUR_MS - 1) / HOUR_MS
        \/ starts = []).
Proof.
  intros Hs He Hshort. unfold agg_trades.
  rewrite (EdgeFacts.bindM_lift_ok _ _ Hs).
  rewrite (EdgeFacts.bindM_lift_ok _ _ He).
  rewrite EdgeFacts.snd_then_lift. unfold agg_loop, Http.paginate.
  match goal with
  | |- context [Http.paginate_from ?c ?q ?s ?p ?cl ?cur ?acc] =>
      destruct (paginate_from_linked_in c q s p cl cur acc)
        as (cs & Hc & HF & Hhd & HL)
  end.
  destruct (@hours_only end_ms limit _ Hshort _ _ Hhd HL) as (starts & -> & Hhd' & HL').
  exists starts. split.
  { rewrite Hc, map_map. reflexivity. }
  assert (HF' : Forall (fun c => (c <? end_ms) = true) starts).
  { rewrite Forall_map in HF. exact HF. }
  assert (Hnth : forall i cur, nth_error starts i = Some cur ->
                   cur = start_ms + Z.of_nat i * HOUR_MS /\ cur < end_ms).
  { intros i cur Hi. split.
    - eapply linked_stride; eauto.
    - rewrite Forall_forall in HF'. apply Z.ltb_lt, HF'.
      eapply nth_error_In, Hi. }
  split; [exact Hnth|].
  destruct starts as [|c0 cs0] eqn:Ecs; [right; reflexivity|left].
  rewrite <- Ecs in *.
  assert (Hlast : exists cl, nth_error starts (List.length starts - 1)
                             = Some cl).
  { destruct (nth_error starts (List.length starts - 1)) eqn:El; [eauto|].
    apply nth_error_None in El. rewrite Ecs in El. cbn in El. lia. }
  destruct Hlast as (cl & Hcl). destruct (Hnth _ _ Hcl) as [E L].
  assert (Hlen : (0 < List.length starts)%nat) by (rewrite Ecs; cbn; lia).
  assert (Hw : 0 < HOUR_MS) by (unfold HOUR_MS; lia).
  apply Z.div_le_lower_bound; [exact Hw|]. nia.
Qed.

End WithRuntime.

(** A window of one second and four trades around it: the two at its
    first and last millisecond are kept. *)
Lemma agg_trades_within_closed_range_witness :
  match @agg_trades RefRuntime.ref_runtime "BTCUSDT"
          (Transport.VInt 1700000000000) (Transport.VInt 1700000001000) 1000
          (Http.serving
             [[Examples.agg_trade 1 1699999999999;
               Examples.agg_trade 2 1700000000000;
               Examples.agg_trade 3 1700000001000;
               Examples.agg_trade 4 1700000001001]])
  with
  | (Ok trades, _) =>
      trades = [Examples.agg_trade 2 1700000000000;
                Examples.agg_trade 3 1700000001000]
      /\ Forall (fun t => exists time,
                     trade_time t = Ok time
                     /\ 1700000000000 <= time <= 1700000001000) trades
  | (Raise _, _) => False
  end.
Proof.
  destruct (@agg_trades RefRuntime.ref_runtime "BTCUSDT"
              (Transport.VInt 1700000000000) (Transport.VInt 1700000001000)
              1000
              (Http.serving
                 [[Examples.agg_trade 1 1699999999999;
                   Examples.agg_trade 2 1700000000000;
                   Examples.agg_trade 3 1700000001000;
                   Examples.agg_trade 4 1700000001001]]))
    as [[trades|err] m'] eqn:E.
  - split.
    + vm_compute in E. inversion E. reflexivity.
    + exact (@agg_trades_within_closed_range RefRuntime.ref_runtime _ _ _ _
               _ _ _ 1700000000000 1700000001000 E eq_refl eq_refl).
  - vm_compute in E. discriminate E.
Defined.

(** Two hours and a half, the second hour without a trade: three
    requests, one for each hour begun. *)
Lemma agg_trades_asks_hour_by_hour_witness :
  exists starts,
    Http.calls
      (snd (@agg_trades RefRuntime.ref_runtime "BTCUSDT"
              (Transport.VInt 1700000000000) (Transport.VInt 1700009000000)
              1000
              (Http.serving
                 [[Examples.agg_trade 1 1700000000500]; [];
                  [Examples.agg_trade 2 1700007200500]])))
    = ([] ++ map (fun chunk_start =>
                    Http.mkRequest
                      (FUTURES_BASE_URL ++ "/fapi/v1/aggTrades")
                      [("symbol", Conv.pstr "BTCUSDT");
                       ("startTime", Conv.pint chunk_start);
                       ("endTime",
                        Conv.pint (Z.min (chunk_start + HOUR_MS)
                                         1700009000000));
                       ("limit", Conv.pint 1000)])
                 starts)%list
    /\ (forall i chunk_start,
          nth_error starts i = Some chunk_start ->
          chunk_start = 1700000000000 + Z.of_nat i * HOUR_MS
          /\ chunk_start < 1700009000000)
    /\ (Z.of_nat (List.length starts)
        <= (1700009000000 - 1700000000000 + HOUR_MS - 1) / HOUR_MS
        \/ starts = []).
Proof.
  apply (@agg_trades_asks_hour_by_hour RefRuntime.ref_runtime "BTCUSDT"
           (Transport.VInt 1700000000000) (Transport.VInt 1700009000000)
           1000
           (Http.serving
              [[Examples.agg_trade 1 1700000000500]; [];
               [Examples.agg_trade 2 1700007200500]])
           1700000000000 1700009000000 eq_refl eq_refl).
  repeat constructor.
Defined.

End FuturesClientFacts.
